(** * gotplans: plan templates, agent recorders and the auto-start runner

  A shallow embedding of
  - [services/planningService.ts]   (plan templates and their sub-tasks),
  - [services/researchService.ts], [services/executionService.ts],
    [services/deploymentService.ts] (the three agent recorders and the
    history queries),
  - [components/PlanVisualization.tsx] (the auto-start workflow runner),
  - [supabase/functions/research-agent/index.ts] (the edge function),
  - [App.tsx] (saving a generated plan),
  followed by the properties established about them. *)

From Stdlib Require Import ZArith Lia Bool Ascii String List Sorted.
From Stdlib Require QArith Qminmax.
From stdpp Require Import base option list gmap strings pretty.

Local Open Scope string_scope.
Local Open Scope Z_scope.

(* ===================================================================== *)
(** ** JavaScript strings

  A JavaScript string is a sequence of UTF-16 code units.  It is modelled
  by [string], each [ascii] standing for one code unit in the range
  U+0000..U+00FF; [length] therefore counts code units, as [substring]
  and [String.prototype.length] do. *)
(* ===================================================================== *)

Module Js.

(** Code unit of a character, as a natural number. *)
Definition code (c : ascii) : nat := nat_of_ascii c.

Definition in_range (lo hi : nat) (c : ascii) : bool :=
  Nat.leb lo (code c) && Nat.leb (code c) hi.

(** [c.toLowerCase()] for one code unit below U+0100: the basic Latin
    capitals A-Z and the Latin-1 capitals U+00C0..U+00DE (the
    multiplication sign U+00D7 apart) move up by 32. *)
Definition lower_char (c : ascii) : ascii :=
  if in_range 65 90 c then ascii_of_nat (code c + 32)
  else if in_range 192 222 c && negb (Nat.eqb (code c) 215)
       then ascii_of_nat (code c + 32)
  else c.

(** [s.toLowerCase()] *)
Fixpoint toLowerCase (s : string) : string :=
  match s with
  | EmptyString => EmptyString
  | String c s' => String (lower_char c) (toLowerCase s')
  end.

(** [s.startsWith(p)] *)
Fixpoint startsWith (s p : string) : bool :=
  match p, s with
  | EmptyString, _ => true
  | String _ _, EmptyString => false
  | String a p', String b s' => Ascii.eqb a b && startsWith s' p'
  end.

(** [s.includes(sub)] *)
Fixpoint includes (s sub : string) : bool :=
  startsWith s sub ||
  match s with
  | EmptyString => false
  | String _ s' => includes s' sub
  end.

(** The character class [[a-z0-9]]. *)
Definition is_a_z0_9 (c : ascii) : bool :=
  in_range 97 122 c || in_range 48 57 c.

(** [s.replace(/[^a-z0-9]/g, '-')] *)
Fixpoint replace_non_alnum (s : string) : string :=
  match s with
  | EmptyString => EmptyString
  | String c s' =>
      String (if is_a_z0_9 c then c else "-"%char) (replace_non_alnum s')
  end.

Fixpoint take (n : nat) (s : string) : string :=
  match n, s with
  | O, _ => EmptyString
  | S _, EmptyString => EmptyString
  | S n', String c s' => String c (take n' s')
  end.

Fixpoint drop (n : nat) (s : string) : string :=
  match n, s with
  | O, _ => s
  | S _, EmptyString => EmptyString
  | S n', String _ s' => drop n' s'
  end.

(** [s.substring(a, b)]: both indices are clamped to the length and
    swapped when [a > b]. *)
Definition substring (s : string) (a b : nat) : string :=
  let a' := Nat.min a (String.length s) in
  let b' := Nat.min b (String.length s) in
  let lo := Nat.min a' b' in
  let hi := Nat.max a' b' in
  take (hi - lo) (drop lo s).

(** White space of [trim] below U+0100: TAB, LF, VT, FF, CR, SP, NBSP. *)
Definition is_space (c : ascii) : bool :=
  existsb (Nat.eqb (code c)) [9; 10; 11; 12; 13; 32; 160]%nat.

Fixpoint trimStart (s : string) : string :=
  match s with
  | EmptyString => EmptyString
  | String c s' => if is_space c then trimStart s' else s
  end.

Definition reverse (s : string) : string :=
  string_of_list_ascii (List.rev (list_ascii_of_string s)).

(** [s.trim()] *)
Definition trim (s : string) : string :=
  reverse (trimStart (reverse (trimStart s))).

(** The one-character string holding a double quote (U+0022). *)
Definition dquote : string := String (ascii_of_nat 34) EmptyString.

(** Truthiness of a string: only the empty string is falsy. *)
Definition truthy (s : string) : bool :=
  match s with EmptyString => false | _ => true end.

End Js.

(* ===================================================================== *)
(** ** Row types of [lib/supabase.ts] *)
(* ===================================================================== *)

Inductive Priority := low | medium | high.
Inductive PlanStatus := plan_pending | plan_in_progress | plan_completed.

(** [TaskPlan] *)
Record TaskPlan := {
  plan_id : string;
  plan_goal_id : string;
  plan_title : string;
  plan_description : option string;
  plan_sequence_order : Z;
  plan_estimated_duration : option string;
  plan_priority : Priority;
  plan_status : PlanStatus;
  plan_created_at : string
}.

(* ===================================================================== *)
(** ** [services/planningService.ts] *)
(* ===================================================================== *)

Module Planning.

(** [Omit<TaskPlan, 'id' | 'goal_id' | 'created_at'>] *)
Record TaskPlanDraft := {
  title : string;
  description : option string;
  sequence_order : Z;
  estimated_duration : option string;
  priority : Priority;
  status : PlanStatus
}.

Definition step (t d : string) (n : Z) (dur : string) (p : Priority)
  : TaskPlanDraft :=
  {| title := t; description := Some d; sequence_order := n;
     estimated_duration := Some dur; priority := p;
     status := plan_pending |}.

Definition business_plans : list TaskPlanDraft :=
  [ step "Market Research & Validation"
      "Research your target market, validate your business idea, and analyze competitors"
      1 "2-3 weeks" high;
    step "Business Plan Development"
      "Create a comprehensive business plan including financial projections and strategy"
      2 "1-2 weeks" high;
    step "Legal Structure & Registration"
      "Choose business structure, register your business, and handle legal requirements"
      3 "1 week" medium;
    step "Product/Service Development"
      "Develop your minimum viable product or service offering"
      4 "4-8 weeks" high;
    step "Marketing & Launch Strategy"
      "Develop marketing materials, build online presence, and plan your launch"
      5 "2-3 weeks" medium ].

Definition learning_plans : list TaskPlanDraft :=
  [ step "Foundation & Prerequisites"
      "Establish fundamental knowledge and ensure you have necessary prerequisites"
      1 "1-2 weeks" high;
    step "Structured Learning Path"
      "Follow a systematic curriculum with hands-on practice and projects"
      2 "8-12 weeks" high;
    step "Practical Application"
      "Build real projects to apply your knowledge and create a portfolio"
      3 "4-6 weeks" medium;
    step "Advanced Topics"
      "Dive deeper into specialized areas and advanced concepts"
      4 "3-4 weeks" medium;
    step "Community & Networking"
      "Join communities, attend events, and build professional connections"
      5 "Ongoing" low ].

Definition travel_plans : list TaskPlanDraft :=
  [ step "Destination Research & Planning"
      "Research destinations, create itinerary, and plan activities"
      1 "1-2 weeks" high;
    step "Budget Planning & Booking"
      "Set budget, book flights, accommodations, and major activities"
      2 "1 week" high;
    step "Documentation & Preparation"
      "Handle passports, visas, travel insurance, and packing preparation"
      3 "2-3 weeks" medium;
    step "Final Preparations"
      "Complete packing, arrange transportation, and handle last-minute details"
      4 "3-5 days" medium ].

Definition event_plans : list TaskPlanDraft :=
  [ step "Event Concept & Planning"
      "Define event goals, theme, target audience, and initial planning"
      1 "1 week" high;
    step "Venue & Date Selection"
      "Research and book venue, set date, and handle initial logistics"
      2 "1-2 weeks" high;
    step "Vendor Coordination"
      "Book catering, entertainment, equipment, and other necessary services"
      3 "2-3 weeks" medium;
    step "Marketing & Promotion"
      "Create promotional materials, manage registrations, and build awareness"
      4 "3-4 weeks" medium;
    step "Final Preparations & Execution"
      "Handle final details, coordinate day-of logistics, and execute the event"
      5 "1 week" high ].

Definition generic_plans : list TaskPlanDraft :=
  [ step "Goal Analysis & Requirements"
      "Break down the goal into specific requirements and success criteria"
      1 "2-3 days" high;
    step "Resource Planning"
      "Identify and secure necessary resources, tools, and support"
      2 "3-5 days" high;
    step "Implementation Phase"
      "Execute the main work required to achieve your goal"
      3 "2-4 weeks" high;
    step "Review & Optimization"
      "Review progress, make adjustments, and optimize your approach"
      4 "3-5 days" medium;
    step "Completion & Follow-up"
      "Finalize deliverables and plan for maintenance or next steps"
      5 "1-2 days" medium ].

(** [analyzeGoalAndCreatePlans(goal)] *)
Definition analyzeGoalAndCreatePlans (goal : string) : list TaskPlanDraft :=
  let lowerGoal := Js.toLowerCase goal in
  if Js.includes lowerGoal "business" || Js.includes lowerGoal "startup"
     || Js.includes lowerGoal "company"
  then business_plans
  else if Js.includes lowerGoal "learn" || Js.includes lowerGoal "study"
          || Js.includes lowerGoal "development"
  then learning_plans
  else if Js.includes lowerGoal "travel" || Js.includes lowerGoal "vacation"
          || Js.includes lowerGoal "trip"
  then travel_plans
  else if Js.includes lowerGoal "event" || Js.includes lowerGoal "party"
          || Js.includes lowerGoal "fundrais"
  then event_plans
  else generic_plans.

(** The keyword groups in the words of the specification: an ordered
    table of (group, keywords, template), scanned top-down, with the
    generic template as the default. *)
Inductive Group := Business | Learn | Travel | Event.

Definition keywords (g : Group) : list string :=
  match g with
  | Business => ["business"; "startup"; "company"]
  | Learn => ["learn"; "study"; "development"]
  | Travel => ["travel"; "vacation"; "trip"]
  | Event => ["event"; "party"; "fundrais"]
  end.

Definition template (g : Group) : list TaskPlanDraft :=
  match g with
  | Business => business_plans
  | Learn => learning_plans
  | Travel => travel_plans
  | Event => event_plans
  end.

(** Position of a group in the fixed test order. *)
Definition rank (g : Group) : nat :=
  match g with Business => 0 | Learn => 1 | Travel => 2 | Event => 3 end.

(** The lower-cased goal contains a keyword of group [g]. *)
Definition matches (g : Group) (goal : string) : bool :=
  existsb (Js.includes (Js.toLowerCase goal)) (keywords g).

(** The group selected for a goal, [None] standing for the generic
    default. *)
Definition selected (goal : string) : option Group :=
  List.find (fun g => matches g goal) [Business; Learn; Travel; Event].

End Planning.

(* ===================================================================== *)
(** ** Exceptions and the state-and-exception monad

    An [async] function is modelled by a computation over a state [S]
    that either returns a value or throws; [await] is sequencing.  Only
    one logical thread of control exists, so no interleaving is modelled. *)
(* ===================================================================== *)

(** [new Error(message)] *)
Record JsError := { message : string }.

Inductive Outcome (A : Type) :=
| Returned (a : A)
| Thrown (e : JsError).
Arguments Returned {A} a.
Arguments Thrown {A} e.

Definition M (S A : Type) : Type := S -> Outcome A * S.

Definition ret {S A} (a : A) : M S A := fun s => (Returned a, s).

Definition throw {S A} (e : JsError) : M S A := fun s => (Thrown e, s).

Definition bind {S A B} (c : M S A) (k : A -> M S B) : M S B :=
  fun s =>
    match c s with
    | (Returned a, s') => k a s'
    | (Thrown e, s') => (Thrown e, s')
    end.

(** [try { body } catch (error) { handler }] *)
Definition try_catch {S A} (body : M S A) (handler : JsError -> M S A)
  : M S A :=
  fun s =>
    match body s with
    | (Returned a, s') => (Returned a, s')
    | (Thrown e, s') => handler e s'
    end.

(** A statement that only changes the state. *)
Definition modify {S} (f : S -> S) : M S unit := fun s => (Returned tt, f s).

(** [let* x := c in k] is [const x = await c; k]; [await c then k] runs
    the statement [c], then [k]. *)
Declare Scope js_scope.
Delimit Scope js_scope with js.
Notation "'let*' x ':=' c 'in' k" := (bind c (fun x => k))
  (at level 10, x name, c at level 100, k at level 200) : js_scope.
Notation "'await' c 'then' k" := (bind c (fun _ => k))
  (at level 10, c at level 100, k at level 200) : js_scope.
Local Open Scope js_scope.

Definition is_returned {A} (o : Outcome A) : bool :=
  match o with Returned _ => true | Thrown _ => false end.

(* ===================================================================== *)
(** ** Rows of the request and result tables ([lib/supabase.ts])

    Row identities (uuids) are modelled by the natural numbers the store
    hands out; [created_at] is the store's call counter at insertion. *)
(* ===================================================================== *)

Inductive RequestStatus := pending | in_progress | completed | failed.

#[global] Instance RequestStatus_eq_dec : EqDecision RequestStatus.
Proof. solve_decision. Defined.

Record ResearchRequest := {
  rq_id : nat;
  rq_plan_id : string;
  rq_query : string;
  rq_status : RequestStatus;
  rq_created_at : nat
}.

Record ResearchResult := {
  rr_id : nat;
  rr_request_id : nat;
  rr_source_url : option string;
  rr_title : string;
  rr_content : string;
  rr_summary : option string;
  rr_relevance_score : Z;
  rr_created_at : nat
}.

Record ExecutionRequest := {
  xq_id : nat;
  xq_plan_id : string;
  xq_execution_type : string;
  xq_instructions : string;
  xq_status : RequestStatus;
  xq_created_at : nat
}.

Record ExecutionResult := {
  xr_id : nat;
  xr_request_id : nat;
  xr_output_type : string;
  xr_content : string;
  xr_file_path : option string;
  xr_success : bool;
  xr_error_message : option string;
  xr_created_at : nat
}.

Record DeploymentRequest := {
  dq_id : nat;
  dq_plan_id : string;
  dq_execution_request_id : option nat;
  dq_deployment_type : string;
  dq_configuration : gmap string string;
  dq_status : RequestStatus;
  dq_created_at : nat
}.

Record DeploymentResult := {
  dr_id : nat;
  dr_request_id : nat;
  dr_deployment_url : option string;
  dr_claim_url : option string;
  dr_deploy_id : option string;
  dr_success : bool;
  dr_error_message : option string;
  dr_build_logs : option string;
  dr_created_at : nat
}.

(* ===================================================================== *)
(** ** The persistence collaborator (the Supabase client)

    Every call on the client resolves to a [{ data, error }] pair and never
    rejects.  Whether a call fails, what the [research-agent] edge function
    answers, and the texts that depend on the wall clock or on
    [Math.random] are decided by the environment [Env], indexed by the
    number of collaborator calls answered so far.  A failed write leaves
    the tables unchanged.  The store keeps a journal of the calls it was
    sent. *)
(* ===================================================================== *)

Record PgError := { pg_message : string }.

(** The [{ data, error }] pair a call resolves to; [None] is [null]. *)
Record Response (A : Type) := { data : option A; error : option PgError }.
Arguments data {A} r.
Arguments error {A} r.

(** One entry of [data.results] as the edge function sends it; the score
    is an integer, as the edge function computes it and as the
    [relevance_score integer] column stores it, [None] when absent. *)
Record RawResult := {
  raw_source_url : option string;
  raw_title : string;
  raw_content : string;
  raw_summary : option string;
  raw_relevance_score : option Z
}.

(** [data] of the edge function's answer. *)
Record EdgeData := { results : option (list RawResult) }.

(** [body] of [functions.invoke('research-agent', { body })]. *)
Record InvokeBody := {
  body_query : string;
  body_depth : string;
  body_sources : list string
}.

(** A call sent to the client, as the journal of the store records it. *)
Inductive Call :=
| InsertRows (table : string)
| UpdateStatus (table : string) (id : nat) (st : RequestStatus)
| Invoke (function_name : string).

(** What the environment decides, by the number of the call being
    answered:
    - [db_fault]: the error of a call that fails, [None] when it succeeds;
    - [research_agent]: the answer of the [research-agent] edge function;
    - [script_output]: [simulateScriptExecution(instructions)], one of
      three texts picked by [Math.random], with the current time in it;
    - [api_response_json]:
      [JSON.stringify(simulateApiCall(instructions), null, 2)];
    - [config_json], [readme_md]: the contents of the two files of
      [generateFiles(instructions)], which carry the current time;
    - [environment_setup_output]: the text of
      [simulateEnvironmentSetup(instructions)];
    - [build_logs]: [generateBuildLogs(provider, config)], which carries
      the current time;
    - [date_now]: [Date.now()] in decimal;
    - [random_suffix]: [Math.random().toString(36).substr(2, 8)].
    No text of these influences control flow: each is a string put into a
    result row. *)
Record Env := {
  db_fault : nat -> Call -> option PgError;
  research_agent : nat -> InvokeBody -> Response EdgeData;
  script_output : nat -> string -> string;
  api_response_json : nat -> string -> string;
  config_json : nat -> string -> string;
  readme_md : nat -> string -> string;
  environment_setup_output : string -> string;
  build_logs : nat -> string -> gmap string string -> string;
  date_now : nat -> string;
  random_suffix : nat -> string
}.

(** [console.error(label, error)] *)
Record ConsoleEntry := { label : string; logged : JsError }.

Record Db := {
  clock : nat;
  journal : list Call;
  next_id : nat;
  timer_ms : Z;
  console : list ConsoleEntry;
  research_requests : gmap nat ResearchRequest;
  research_results : list ResearchResult;
  execution_requests : gmap nat ExecutionRequest;
  execution_results : list ExecutionResult;
  deployment_requests : gmap nat DeploymentRequest;
  deployment_results : list DeploymentResult
}.

Definition empty_db : Db :=
  {| clock := 0; journal := []; next_id := 0; timer_ms := 0; console := [];
     research_requests := ∅; research_results := [];
     execution_requests := ∅; execution_results := [];
     deployment_requests := ∅; deployment_results := [] |}.

Definition tick (c : Call) (db : Db) : Db :=
  {| clock := S (clock db); journal := journal db ++ [c];
     next_id := next_id db;
     timer_ms := timer_ms db; console := console db;
     research_requests := research_requests db;
     research_results := research_results db;
     execution_requests := execution_requests db;
     execution_results := execution_results db;
     deployment_requests := deployment_requests db;
     deployment_results := deployment_results db |}.

Definition take_ids (n : nat) (db : Db) : Db :=
  {| clock := clock db; journal := journal db; next_id := (next_id db + n)%nat;
     timer_ms := timer_ms db; console := console db;
     research_requests := research_requests db;
     research_results := research_results db;
     execution_requests := execution_requests db;
     execution_results := execution_results db;
     deployment_requests := deployment_requests db;
     deployment_results := deployment_results db |}.

(** [await new Promise(resolve => setTimeout(resolve, ms))] *)
Definition sleep_db (ms : Z) : M Db unit :=
  modify (fun db =>
  {| clock := clock db; journal := journal db; next_id := next_id db;
     timer_ms := timer_ms db + ms; console := console db;
     research_requests := research_requests db;
     research_results := research_results db;
     execution_requests := execution_requests db;
     execution_results := execution_results db;
     deployment_requests := deployment_requests db;
     deployment_results := deployment_results db |}).

(** [console.error(label, error)] *)
Definition console_error (l : string) (e : JsError) : M Db unit :=
  modify (fun db =>
  {| clock := clock db; journal := journal db; next_id := next_id db;
     timer_ms := timer_ms db;
     console := console db ++ [{| label := l; logged := e |}];
     research_requests := research_requests db;
     research_results := research_results db;
     execution_requests := execution_requests db;
     execution_results := execution_results db;
     deployment_requests := deployment_requests db;
     deployment_results := deployment_results db |}).

Definition set_research_requests (t : gmap nat ResearchRequest) (db : Db) : Db :=
  {| clock := clock db; journal := journal db; next_id := next_id db;
     timer_ms := timer_ms db; console := console db;
     research_requests := t;
     research_results := research_results db;
     execution_requests := execution_requests db;
     execution_results := execution_results db;
     deployment_requests := deployment_requests db;
     deployment_results := deployment_results db |}.

Definition set_research_results (t : list ResearchResult) (db : Db) : Db :=
  {| clock := clock db; journal := journal db; next_id := next_id db;
     timer_ms := timer_ms db; console := console db;
     research_requests := research_requests db;
     research_results := t;
     execution_requests := execution_requests db;
     execution_results := execution_results db;
     deployment_requests := deployment_requests db;
     deployment_results := deployment_results db |}.

Definition set_execution_requests (t : gmap nat ExecutionRequest) (db : Db) : Db :=
  {| clock := clock db; journal := journal db; next_id := next_id db;
     timer_ms := timer_ms db; console := console db;
     research_requests := research_requests db;
     research_results := research_results db;
     execution_requests := t;
     execution_results := execution_results db;
     deployment_requests := deployment_requests db;
     deployment_results := deployment_results db |}.

Definition set_execution_results (t : list ExecutionResult) (db : Db) : Db :=
  {| clock := clock db; journal := journal db; next_id := next_id db;
     timer_ms := timer_ms db; console := console db;
     research_requests := research_requests db;
     research_results := research_results db;
     execution_requests := execution_requests db;
     execution_results := t;
     deployment_requests := deployment_requests db;
     deployment_results := deployment_results db |}.

Definition set_deployment_requests (t : gmap nat DeploymentRequest) (db : Db) : Db :=
  {| clock := clock db; journal := journal db; next_id := next_id db;
     timer_ms := timer_ms db; console := console db;
     research_requests := research_requests db;
     research_results := research_results db;
     execution_requests := execution_requests db;
     execution_results := execution_results db;
     deployment_requests := t;
     deployment_results := deployment_results db |}.

Definition set_deployment_results (t : list DeploymentResult) (db : Db) : Db :=
  {| clock := clock db; journal := journal db; next_id := next_id db;
     timer_ms := timer_ms db; console := console db;
     research_requests := research_requests db;
     research_results := research_results db;
     execution_requests := execution_requests db;
     execution_results := execution_results db;
     deployment_requests := deployment_requests db;
     deployment_results := t |}.

(** One call on the client: the counter advances; on a fault the call
    resolves to [{ data: null, error }] and the tables stay as they are,
    otherwise [act] is applied and its value becomes [data]. *)
Definition client_call {A} (env : Env) (c : Call)
  (act : nat -> Db -> A * Db) : M Db (Response A) :=
  fun db =>
    let now := clock db in
    let db1 := tick c db in
    match db_fault env now c with
    | Some e => (Returned {| data := None; error := Some e |}, db1)
    | None =>
        let '(a, db2) := act now db1 in
        (Returned {| data := Some a; error := None |}, db2)
    end.

(* ===================================================================== *)
(** ** [services/researchService.ts] *)
(* ===================================================================== *)

Module Research.

(** [Omit<ResearchResult, 'id' | 'request_id' | 'created_at'>] *)
Record ResearchResultDraft := {
  source_url : option string;
  title : string;
  content : string;
  summary : option string;
  relevance_score : Z
}.

(** What [conductResearch] resolves to: the rows the store returned, or
    the drafts that only exist in memory ([savedResults || fallbackResults]
    when [savedResults] is [null]). *)
Inductive Output :=
| Persisted (rows : list ResearchResult)
| InMemory (drafts : list ResearchResultDraft).

Definition stored_row (id now : nat) (r : nat * ResearchResultDraft)
  : ResearchResult :=
  {| rr_id := id; rr_request_id := fst r;
     rr_source_url := source_url (snd r); rr_title := title (snd r);
     rr_content := content (snd r); rr_summary := summary (snd r);
     rr_relevance_score := relevance_score (snd r); rr_created_at := now |}.

(** [from('research_requests').insert({ plan_id, query, status })
      .select().single()] *)
Definition insert_request (env : Env) (planId query : string)
  (st : RequestStatus) : M Db (Response ResearchRequest) :=
  client_call env (InsertRows "research_requests") (fun now db =>
    let row := {| rq_id := next_id db; rq_plan_id := planId;
                  rq_query := query; rq_status := st;
                  rq_created_at := now |} in
    (row, set_research_requests
            (<[next_id db := row]> (research_requests db)) (take_ids 1 db))).

Definition with_status (st : RequestStatus) (r : ResearchRequest)
  : ResearchRequest :=
  {| rq_id := rq_id r; rq_plan_id := rq_plan_id r; rq_query := rq_query r;
     rq_status := st; rq_created_at := rq_created_at r |}.

(** [from('research_requests').update({ status }).eq('id', id)] *)
Definition update_status (env : Env) (id : nat) (st : RequestStatus)
  : M Db (Response unit) :=
  client_call env (UpdateStatus "research_requests" id st) (fun _ db =>
    (tt, set_research_requests
           (alter (with_status st) id (research_requests db)) db)).

(** [from('research_results').insert(rows).select()] *)
Definition insert_results (env : Env) (rows : list (nat * ResearchResultDraft))
  : M Db (Response (list ResearchResult)) :=
  client_call env (InsertRows "research_results") (fun now db =>
    let saved := imap (fun i r => stored_row (next_id db + i) now r) rows in
    (saved, set_research_results (research_results db ++ saved)
              (take_ids (length rows) db))).

(** [functions.invoke('research-agent', { body })] *)
Definition functions_invoke (env : Env) (body : InvokeBody)
  : M Db (Response EdgeData) :=
  fun db =>
    (Returned (research_agent env (clock db) body),
     tick (Invoke "research-agent") db).

(** [s || null] for an optional string. *)
Definition or_null (o : option string) : option string :=
  match o with
  | Some s => if Js.truthy s then Some s else None
  | None => None
  end.

(** [Math.min(10, Math.max(1, score || 5))]; a score of [0] is falsy. *)
Definition clamp_score (score : option Z) : Z :=
  let s := match score with
           | Some z => if z =? 0 then 5 else z
           | None => 5
           end in
  Z.min 10 (Z.max 1 s).

(** The same expression for a score that is any number a JSON text can
    hold, read as a rational: nothing in it rounds.  [clamp_score] is
    its restriction to the integers, the type of the column
    [relevance_score]. *)
Definition clamp_number (score : option QArith_base.Q) : QArith_base.Q :=
  let number := QArith_base.inject_Z in
  let s := match score with
           | Some q =>
               if QArith_base.Qeq_bool q (number 0) then number 5 else q
           | None => number 5
           end in
  Qminmax.Qmin (number 10) (Qminmax.Qmax (number 1) s).

(** The row built from one entry of [data.results]. *)
Definition to_insert (request_id : nat) (result : RawResult)
  : nat * ResearchResultDraft :=
  (request_id,
   {| source_url := or_null (raw_source_url result);
      title := raw_title result;
      content := raw_content result;
      summary := or_null (raw_summary result);
      relevance_score := clamp_score (raw_relevance_score result) |}).

(** The row built from one fallback result. *)
Definition fallback_to_insert (request_id : nat) (result : ResearchResultDraft)
  : nat * ResearchResultDraft :=
  (request_id,
   {| source_url := or_null (source_url result);
      title := title result;
      content := content result;
      summary := or_null (summary result);
      relevance_score := relevance_score result |}).

Definition market_results (query : string) : list ResearchResultDraft :=
  [
    {| source_url := Some "https://marketresearch.com/industry-analysis";
       title := "Market Analysis: " +:+ query;
       content :=
         "Comprehensive market research for " +:+ query +:+ " indicates strong growth potential with emerging opportunities. Industry experts suggest focusing on digital transformation and customer experience improvements. Key market drivers include technological advancement and changing consumer preferences.";
       summary := Some ("Market shows growth potential with focus on digital transformation");
       relevance_score := 8 |};
    {| source_url := Some "https://competitoranalysis.com/reports";
       title := "Competitive Analysis: " +:+ query;
       content :=
         "Competitive landscape analysis reveals opportunities for differentiation in " +:+ query +:+ ". Top competitors show strengths in established market presence but weaknesses in innovation and customer service. Market gaps exist in mobile experience and personalization.";
       summary := Some ("Competitive analysis shows opportunities for differentiation");
       relevance_score := 7 |};
    {| source_url := Some "https://industryreport.com/trends";
       title := "Industry Trends: " +:+ query;
       content :=
         "Latest trends in " +:+ query +:+ " show increased adoption of AI and automation, sustainable practices, and customer-centric approaches. Industry growth rate projected at 12-15% annually with significant investment in technology infrastructure.";
       summary := Some ("Industry trends favor AI adoption and sustainable practices");
       relevance_score := 8 |} ].

Definition learning_results (query : string) : list ResearchResultDraft :=
  [
    {| source_url := Some "https://education-platform.com/courses";
       title := "Learning Path: " +:+ query;
       content :=
         "Structured learning approach for " +:+ query +:+ " includes foundational concepts, hands-on practice, and real-world projects. Recommended timeline: 3-6 months for proficiency. Key resources include online courses, documentation, and community forums.";
       summary := Some ("Structured 3-6 month learning path with hands-on practice");
       relevance_score := 9 |};
    {| source_url := Some "https://skillassessment.com/reports";
       title := "Skills Assessment: " +:+ query;
       content :=
         "Current market demand for " +:+ query +:+ " skills shows 25% year-over-year growth. Top employers seek practical experience and portfolio projects. Average learning time: 200-400 hours for proficiency. High demand in tech, finance, and healthcare sectors.";
       summary := Some ("25% growth in demand, 200-400 hours typical learning time");
       relevance_score := 8 |};
    {| source_url := Some "https://learningresources.com/guides";
       title := "Resource Guide: " +:+ query;
       content :=
         "Comprehensive resource compilation for " +:+ query +:+ " including free and paid options. Best practices include combining theoretical study with practical projects, joining communities, and seeking mentorship. Success rate higher with structured approach.";
       summary := Some ("Comprehensive resources with emphasis on practical projects");
       relevance_score := 7 |} ].

Definition travel_results (query : string) : list ResearchResultDraft :=
  [
    {| source_url := Some "https://travel-guide.com/destinations";
       title := "Travel Guide: " +:+ query;
       content :=
         "Complete travel information for " +:+ query +:+ " including best times to visit, must-see attractions, local customs, and practical tips. Budget estimates, transportation options, and accommodation recommendations included. Safety guidelines and cultural considerations provided.";
       summary := Some ("Complete travel guide with budget estimates and cultural tips");
       relevance_score := 9 |};
    {| source_url := Some "https://travel-costs.com/calculator";
       title := "Travel Costs: " +:+ query;
       content :=
         "Detailed cost breakdown for " +:+ query +:+ " including accommodation ($50-200/night), meals ($30-80/day), transportation, and activities. Seasonal price variations and money-saving tips. Budget options and luxury alternatives compared.";
       summary := Some ("Detailed cost breakdown with budget and luxury options");
       relevance_score := 8 |};
    {| source_url := Some "https://travel-requirements.com/info";
       title := "Travel Requirements: " +:+ query;
       content :=
         "Current travel requirements including visa policies, vaccination requirements, and documentation needed. Entry procedures, customs regulations, and travel insurance recommendations. Updated health and safety protocols.";
       summary := Some ("Current travel requirements and health protocols");
       relevance_score := 8 |} ].

Definition technology_results (query : string) : list ResearchResultDraft :=
  [
    {| source_url := Some "https://tech-analysis.com/reviews";
       title := "Technology Review: " +:+ query;
       content :=
         "In-depth technical analysis of " +:+ query +:+ " covering features, performance, scalability, and implementation considerations. Comparison with alternatives, pros/cons analysis, and real-world case studies. Expert recommendations and best practices.";
       summary := Some ("Technical analysis with performance metrics and case studies");
       relevance_score := 9 |};
    {| source_url := Some "https://implementation-guide.com/tutorials";
       title := "Implementation Guide: " +:+ query;
       content :=
         "Step-by-step implementation guide for " +:+ query +:+ " including setup instructions, configuration options, and common troubleshooting solutions. Code examples, architecture patterns, and optimization techniques provided.";
       summary := Some ("Step-by-step implementation with code examples");
       relevance_score := 8 |};
    {| source_url := Some "https://tech-trends.com/analysis";
       title := "Technology Trends: " +:+ query;
       content :=
         "Current trends and future outlook for " +:+ query +:+ " in the technology landscape. Adoption rates, market leaders, emerging alternatives, and investment trends. Impact on business operations and competitive advantages.";
       summary := Some ("Technology trends and market adoption analysis");
       relevance_score := 7 |} ].

Definition generic_results (query : string) : list ResearchResultDraft :=
  [
    {| source_url := Some "https://research-database.com/analysis";
       title := "Comprehensive Analysis: " +:+ query;
       content :=
         "Detailed research findings for " +:+ query +:+ " based on current data and expert analysis. Key insights include market opportunities, implementation strategies, and success factors. Multiple perspectives and case studies provide comprehensive understanding.";
       summary := Some ("Comprehensive research findings and expert analysis for " +:+ query);
       relevance_score := 7 |};
    {| source_url := Some "https://expert-insights.com/reports";
       title := "Expert Insights: " +:+ query;
       content :=
         "Professional analysis and recommendations for " +:+ query +:+ " from industry experts. Covers best practices, common challenges, and proven solutions. Strategic considerations and tactical implementation approaches discussed.";
       summary := Some ("Expert recommendations and best practices");
       relevance_score := 8 |};
    {| source_url := Some "https://case-studies.com/examples";
       title := "Case Studies: " +:+ query;
       content :=
         "Real-world examples and case studies related to " +:+ query +:+ ". Success stories, lessons learned, and practical applications demonstrated. Measurable outcomes and implementation timelines provided for reference.";
       summary := Some ("Real-world case studies with measurable outcomes");
       relevance_score := 6 |} ].

(** [generateFallbackResults(query)] *)
Definition generateFallbackResults (query : string) : list ResearchResultDraft :=
  let lowerQuery := Js.toLowerCase query in
  if Js.includes lowerQuery "market" || Js.includes lowerQuery "business"
     || Js.includes lowerQuery "competitor"
  then market_results query
  else if Js.includes lowerQuery "learn" || Js.includes lowerQuery "course"
          || Js.includes lowerQuery "development"
          || Js.includes lowerQuery "skill"
  then learning_results query
  else if Js.includes lowerQuery "travel"
          || Js.includes lowerQuery "destination"
          || Js.includes lowerQuery "vacation"
  then travel_results query
  else if Js.includes lowerQuery "technology"
          || Js.includes lowerQuery "software"
          || Js.includes lowerQuery "app" || Js.includes lowerQuery "web"
  then technology_results query
  else generic_results query.

(** The [try] block of [conductResearch]. *)
Definition try_block (env : Env) (request : ResearchRequest)
  (query depth : string) : M Db Output :=
  let* answer :=
    functions_invoke env
      {| body_query := Js.trim query; body_depth := depth;
         body_sources := [] |} in
  match error answer with
  | Some e =>
      throw {| message := "Research function error: " +:+ pg_message e |}
  | None =>
      match data answer with
      | Some {| results := Some raw |} =>
          let resultsToInsert := map (to_insert (rq_id request)) raw in
          let* saved := insert_results env resultsToInsert in
          match error saved with
          | Some _ => throw {| message := "Failed to save research results" |}
          | None =>
              await update_status env (rq_id request) completed then
              ret (Persisted (default [] (data saved)))
          end
      | _ => throw {| message := "No research results returned" |}
      end
  end.

(** The [catch] block of [conductResearch]. *)
Definition catch_block (env : Env) (request : ResearchRequest)
  (query : string) (error : JsError) : M Db Output :=
  await console_error "Research error:" error then
  await update_status env (rq_id request) failed then
  let fallbackResults := generateFallbackResults query in
  try_catch
    (let resultsToInsert :=
       map (fallback_to_insert (rq_id request)) fallbackResults in
     let* saved := insert_results env resultsToInsert in
     ret (match data saved with
          | Some savedResults => Persisted savedResults
          | None => InMemory fallbackResults
          end))
    (fun saveError =>
       await console_error "Failed to save fallback results:" saveError then
       ret (InMemory fallbackResults)).

(** [conductResearch(planId, query, depth = 'detailed')] *)
Definition conductResearch (env : Env) (planId query depth : string)
  : M Db Output :=
  let* created := insert_request env planId query in_progress in
  match error created, data created with
  | None, Some request =>
      try_catch (try_block env request query depth)
        (catch_block env request query)
  | _, _ => throw {| message := "Failed to create research request" |}
  end.

End Research.

(* ===================================================================== *)
(** ** [services/executionService.ts] *)
(* ===================================================================== *)

Module Execution.

(** [Omit<ExecutionResult, 'id' | 'request_id' | 'created_at'>] *)
Record ExecutionResultDraft := {
  output_type : string;
  content : string;
  file_path : option string;
  success : bool;
  error_message : option string
}.

Definition stored_row (id now : nat) (r : nat * ExecutionResultDraft)
  : ExecutionResult :=
  {| xr_id := id; xr_request_id := fst r;
     xr_output_type := output_type (snd r); xr_content := content (snd r);
     xr_file_path := file_path (snd r); xr_success := success (snd r);
     xr_error_message := error_message (snd r); xr_created_at := now |}.

(** [from('execution_requests').insert({ ... }).select().single()] *)
Definition insert_request (env : Env) (planId executionType instructions : string)
  (st : RequestStatus) : M Db (Response ExecutionRequest) :=
  client_call env (InsertRows "execution_requests") (fun now db =>
    let row := {| xq_id := next_id db; xq_plan_id := planId;
                  xq_execution_type := executionType;
                  xq_instructions := instructions; xq_status := st;
                  xq_created_at := now |} in
    (row, set_execution_requests
            (<[next_id db := row]> (execution_requests db)) (take_ids 1 db))).

Definition with_status (st : RequestStatus) (r : ExecutionRequest)
  : ExecutionRequest :=
  {| xq_id := xq_id r; xq_plan_id := xq_plan_id r;
     xq_execution_type := xq_execution_type r;
     xq_instructions := xq_instructions r;
     xq_status := st; xq_created_at := xq_created_at r |}.

(** [from('execution_requests').update({ status }).eq('id', id)] *)
Definition update_status (env : Env) (id : nat) (st : RequestStatus)
  : M Db (Response unit) :=
  client_call env (UpdateStatus "execution_requests" id st) (fun _ db =>
    (tt, set_execution_requests
           (alter (with_status st) id (execution_requests db)) db)).

(** [from('execution_results').insert(rows).select()] *)
Definition insert_results (env : Env) (rows : list (nat * ExecutionResultDraft))
  : M Db (Response (list ExecutionResult)) :=
  client_call env (InsertRows "execution_results") (fun now db =>
    let saved := imap (fun i r => stored_row (next_id db + i) now r) rows in
    (saved, set_execution_results (execution_results db ++ saved)
              (take_ids (length rows) db))).

(** [from('execution_results').insert(row)], nothing selected back. *)
Definition insert_error_row (env : Env) (row : nat * ExecutionResultDraft)
  : M Db (Response unit) :=
  client_call env (InsertRows "execution_results") (fun now db =>
    (tt, set_execution_results
           (execution_results db ++ [stored_row (next_id db) now row])
           (take_ids 1 db))).

(** [detectCodeType(instructions)] *)
Definition detectCodeType (instructions : string) : string :=
  let lower := Js.toLowerCase instructions in
  if Js.includes lower "react" || Js.includes lower "component" then "react"
  else if Js.includes lower "api" || Js.includes lower "endpoint" then "api"
  else if Js.includes lower "database" || Js.includes lower "sql"
  then "database"
  else if Js.includes lower "html" || Js.includes lower "webpage" then "html"
  else if Js.includes lower "css" || Js.includes lower "style" then "css"
  else if Js.includes lower "python" then "python"
  else if Js.includes lower "node" || Js.includes lower "javascript"
  then "javascript"
  else "general".

Import Js.

Definition react_code (instructions : string) : string :=
    "import React, { useState } from 'react'

// Generated React component based on: " +:+ instructions +:+ "
export default function GeneratedComponent() {
  const [data, setData] = useState(null)

  return (
    <div className=" +:+ dquote +:+ "p-6 bg-white rounded-lg shadow-md" +:+ dquote +:+ ">
      <h2 className=" +:+ dquote +:+ "text-2xl font-bold mb-4" +:+ dquote +:+ ">Generated Component</h2>
      <p className=" +:+ dquote +:+ "text-gray-600" +:+ dquote +:+ ">
        This component was generated based on your instructions: {instructions}
      </p>
      {/* Add your custom logic here */}
    </div>
  )
}".

Definition api_code (instructions : string) : string :=
    "// Generated API endpoint based on: " +:+ instructions +:+ "
import express from 'express'
const router = express.Router()

router.get('/api/generated', async (req, res) => {
  try {
    // Your API logic here
    const result = {
      message: 'Generated API endpoint',
      instructions: " +:+ dquote +:+ instructions +:+ dquote +:+ ",
      timestamp: new Date().toISOString()
    }
    
    res.json(result)
  } catch (error) {
    res.status(500).json({ error: error.message })
  }
})

export default router".

Definition database_code (instructions : string) : string :=
    "-- Generated SQL based on: " +:+ instructions +:+ "
CREATE TABLE IF NOT EXISTS generated_table (
  id SERIAL PRIMARY KEY,
  name VARCHAR(255) NOT NULL,
  description TEXT,
  created_at TIMESTAMP DEFAULT CURRENT_TIMESTAMP,
  updated_at TIMESTAMP DEFAULT CURRENT_TIMESTAMP
);

-- Insert sample data
INSERT INTO generated_table (name, description) VALUES
('Sample Item 1', 'Generated based on your instructions'),
('Sample Item 2', 'Modify as needed for your use case');

-- Query examples
SELECT * FROM generated_table WHERE created_at > NOW() - INTERVAL '1 day';".

Definition html_code (instructions : string) : string :=
    "<!DOCTYPE html>
<html lang=" +:+ dquote +:+ "en" +:+ dquote +:+ ">
<head>
    <meta charset=" +:+ dquote +:+ "UTF-8" +:+ dquote +:+ ">
    <meta name=" +:+ dquote +:+ "viewport" +:+ dquote +:+ " content=" +:+ dquote +:+ "width=device-width, initial-scale=1.0" +:+ dquote +:+ ">
    <title>Generated Page</title>
    <style>
        body { font-family: Arial, sans-serif; margin: 0; padding: 20px; }
        .container { max-width: 800px; margin: 0 auto; }
        .header { background: #f4f4f4; padding: 20px; border-radius: 8px; }
    </style>
</head>
<body>
    <div class=" +:+ dquote +:+ "container" +:+ dquote +:+ ">
        <div class=" +:+ dquote +:+ "header" +:+ dquote +:+ ">
            <h1>Generated HTML Page</h1>
            <p>Based on: " +:+ instructions +:+ "</p>
        </div>
        <!-- Add your content here -->
    </div>
</body>
</html>".

Definition python_code (instructions : string) : string :=
    "#!/usr/bin/env python3
" +:+ dquote +:+ dquote +:+ dquote +:+ "
Generated Python script based on: " +:+ instructions +:+ "
" +:+ dquote +:+ dquote +:+ dquote +:+ "

import os
import sys
from datetime import datetime

def main():
    " +:+ dquote +:+ dquote +:+ dquote +:+ "Main function for the generated script." +:+ dquote +:+ dquote +:+ dquote +:+ "
    print(f" +:+ dquote +:+ "Generated script running at {datetime.now()}" +:+ dquote +:+ ")
    print(f" +:+ dquote +:+ "Instructions: " +:+ instructions +:+ dquote +:+ ")
    
    # Add your logic here
    
if __name__ == " +:+ dquote +:+ "__main__" +:+ dquote +:+ ":
    main()".

Definition javascript_code (instructions : string) : string :=
    "// Generated JavaScript based on: " +:+ instructions +:+ "
const fs = require('fs')
const path = require('path')

async function main() {
  console.log('Generated script running at', new Date().toISOString())
  console.log('Instructions:', '" +:+ instructions +:+ "')
  
  // Add your logic here
  
  return { success: true, message: 'Script completed successfully' }
}

// Execute if run directly
if (require.main === module) {
  main().catch(console.error)
}

module.exports = { main }".

Definition general_code (instructions : string) : string :=
    "// Generated code based on: " +:+ instructions +:+ "

function generatedFunction() {
  // Implementation based on your instructions
  console.log('Generated function executing...')
  
  // Add your custom logic here
  
  return {
    status: 'success',
    message: 'Generated code executed successfully',
    instructions: '" +:+ instructions +:+ "'
  }
}

// Export for use in other modules
module.exports = { generatedFunction }".

(** [generateCodeByType(codeType, instructions)] *)
Definition generateCodeByType (codeType instructions : string) : string :=
  if String.eqb codeType "react" then react_code instructions
  else if String.eqb codeType "api" then api_code instructions
  else if String.eqb codeType "database" then database_code instructions
  else if String.eqb codeType "html" then html_code instructions
  else if String.eqb codeType "python" then python_code instructions
  else if String.eqb codeType "javascript" then javascript_code instructions
  else general_code instructions.

Definition one_output (kind text : string) : list ExecutionResultDraft :=
  [{| output_type := kind; content := text; file_path := None;
      success := true; error_message := None |}].

(** [generateCode(instructions)] *)
Definition generateCode (instructions : string)
  : M Db (list ExecutionResultDraft) :=
  await sleep_db 1500 then
  let codeType := detectCodeType instructions in
  let generatedCode := generateCodeByType codeType instructions in
  ret (one_output "code" generatedCode).

(** [executeScript(instructions)] *)
Definition executeScript (env : Env) (instructions : string)
  : M Db (list ExecutionResultDraft) :=
  await sleep_db 2000 then
  fun db => ret (one_output "command_output"
                   (script_output env (clock db) instructions)) db.

(** [makeApiCall(instructions)] *)
Definition makeApiCall (env : Env) (instructions : string)
  : M Db (list ExecutionResultDraft) :=
  await sleep_db 1000 then
  fun db => ret (one_output "api_response"
                   (api_response_json env (clock db) instructions)) db.

(** [generateFiles(instructions)] *)
Definition generateFiles (env : Env) (now : nat) (instructions : string)
  : list (string * string) :=
  [ ("generated/config.json", config_json env now instructions);
    ("generated/README.md", readme_md env now instructions) ].

(** [createFiles(instructions)] *)
Definition createFiles (env : Env) (instructions : string)
  : M Db (list ExecutionResultDraft) :=
  await sleep_db 1500 then
  fun db =>
    let files := generateFiles env (clock db) instructions in
    ret (map (fun file =>
                {| output_type := "file"; content := snd file;
                   file_path := Some (fst file); success := true;
                   error_message := None |}) files) db.

(** [setupEnvironment(instructions)] *)
Definition setupEnvironment (env : Env) (instructions : string)
  : M Db (list ExecutionResultDraft) :=
  await sleep_db 3000 then
  ret (one_output "command_output"
         (environment_setup_output env instructions)).

(** [performExecution(executionType, instructions)] *)
Definition performExecution (env : Env) (executionType instructions : string)
  : M Db (list ExecutionResultDraft) :=
  if String.eqb executionType "code_generation"
  then generateCode instructions
  else if String.eqb executionType "script_execution"
  then executeScript env instructions
  else if String.eqb executionType "api_call"
  then makeApiCall env instructions
  else if String.eqb executionType "file_creation"
  then createFiles env instructions
  else if String.eqb executionType "environment_setup"
  then setupEnvironment env instructions
  else throw {| message := "Unknown execution type" |}.

(** The [try] block of [executeTask]. *)
Definition try_block (env : Env) (request : ExecutionRequest)
  (instructions : string) : M Db (list ExecutionResult) :=
  let* results :=
    performExecution env (xq_execution_type request) instructions in
  let resultsToInsert := map (fun result => (xq_id request, result)) results in
  let* saved := insert_results env resultsToInsert in
  match error saved with
  | Some _ => throw {| message := "Failed to save execution results" |}
  | None =>
      await update_status env (xq_id request) completed then
      ret (default [] (data saved))
  end.

(** The [catch] block of [executeTask]. *)
Definition catch_block (env : Env) (request : ExecutionRequest)
  (error : JsError) : M Db (list ExecutionResult) :=
  await insert_error_row env
          (xq_id request,
           {| output_type := "error"; content := message error;
              file_path := None; success := false;
              error_message := Some (message error) |}) then
  await update_status env (xq_id request) failed then
  throw error.

(** [executeTask(planId, executionType, instructions)] *)
Definition executeTask (env : Env) (planId executionType instructions : string)
  : M Db (list ExecutionResult) :=
  let* created :=
    insert_request env planId executionType instructions in_progress in
  match error created, data created with
  | None, Some request =>
      try_catch (try_block env request instructions) (catch_block env request)
  | _, _ => throw {| message := "Failed to create execution request" |}
  end.

End Execution.

(* ===================================================================== *)
(** ** [services/deploymentService.ts] *)
(* ===================================================================== *)

Module Deployment.

(** [Omit<DeploymentResult, 'id' | 'request_id' | 'created_at'>] *)
Record DeploymentResultDraft := {
  deployment_url : option string;
  claim_url : option string;
  deploy_id : option string;
  success : bool;
  error_message : option string;
  build_logs_text : option string
}.

Definition stored_row (id now : nat) (r : nat * DeploymentResultDraft)
  : DeploymentResult :=
  {| dr_id := id; dr_request_id := fst r;
     dr_deployment_url := deployment_url (snd r);
     dr_claim_url := claim_url (snd r); dr_deploy_id := deploy_id (snd r);
     dr_success := success (snd r);
     dr_error_message := error_message (snd r);
     dr_build_logs := build_logs_text (snd r); dr_created_at := now |}.

(** [from('deployment_requests').insert({ ... }).select().single()] *)
Definition insert_request (env : Env) (planId : string)
  (executionRequestId : option nat) (deploymentType : string)
  (configuration : gmap string string) (st : RequestStatus)
  : M Db (Response DeploymentRequest) :=
  client_call env (InsertRows "deployment_requests") (fun now db =>
    let row := {| dq_id := next_id db; dq_plan_id := planId;
                  dq_execution_request_id := executionRequestId;
                  dq_deployment_type := deploymentType;
                  dq_configuration := configuration; dq_status := st;
                  dq_created_at := now |} in
    (row, set_deployment_requests
            (<[next_id db := row]> (deployment_requests db)) (take_ids 1 db))).

Definition with_status (st : RequestStatus) (r : DeploymentRequest)
  : DeploymentRequest :=
  {| dq_id := dq_id r; dq_plan_id := dq_plan_id r;
     dq_execution_request_id := dq_execution_request_id r;
     dq_deployment_type := dq_deployment_type r;
     dq_configuration := dq_configuration r;
     dq_status := st; dq_created_at := dq_created_at r |}.

(** [from('deployment_requests').update({ status }).eq('id', id)] *)
Definition update_status (env : Env) (id : nat) (st : RequestStatus)
  : M Db (Response unit) :=
  client_call env (UpdateStatus "deployment_requests" id st) (fun _ db =>
    (tt, set_deployment_requests
           (alter (with_status st) id (deployment_requests db)) db)).

(** [from('deployment_results').insert(row).select().single()] *)
Definition insert_result (env : Env) (row : nat * DeploymentResultDraft)
  : M Db (Response DeploymentResult) :=
  client_call env (InsertRows "deployment_results") (fun now db =>
    let saved := stored_row (next_id db) now row in
    (saved, set_deployment_results (deployment_results db ++ [saved])
              (take_ids 1 db))).

(** [config[key] || fallback] *)
Definition config_or (config : gmap string string) (key fallback : string)
  : string :=
  match config !! key with
  | Some v => if Js.truthy v then v else fallback
  | None => fallback
  end.

(** [deployToNetlify(config)] *)
Definition deployToNetlify (env : Env) (config : gmap string string)
  : M Db DeploymentResultDraft :=
  await sleep_db 3000 then
  fun db =>
    let deployId := "netlify-" +:+ date_now env (clock db) in
    let subdomain :=
      config_or config "subdomain"
        ("project-" +:+ random_suffix env (clock db)) in
    ret {| deployment_url := Some ("https://" +:+ subdomain +:+ ".netlify.app");
           claim_url :=
             Some ("https://app.netlify.com/sites/" +:+ subdomain
                   +:+ "/overview");
           deploy_id := Some deployId; success := true;
           error_message := None;
           build_logs_text :=
             Some (build_logs env (clock db) "Netlify" config) |} db.

(** [deployToVercel(config)] *)
Definition deployToVercel (env : Env) (config : gmap string string)
  : M Db DeploymentResultDraft :=
  await sleep_db 2500 then
  fun db =>
    let deployId := "vercel-" +:+ date_now env (clock db) in
    let subdomain :=
      config_or config "subdomain"
        ("project-" +:+ random_suffix env (clock db)) in
    ret {| deployment_url := Some ("https://" +:+ subdomain +:+ ".vercel.app");
           claim_url := Some "https://vercel.com/dashboard";
           deploy_id := Some deployId; success := true;
           error_message := None;
           build_logs_text :=
             Some (build_logs env (clock db) "Vercel" config) |} db.

(** [deployToGitHub(config)] *)
Definition deployToGitHub (env : Env) (config : gmap string string)
  : M Db DeploymentResultDraft :=
  await sleep_db 4000 then
  fun db =>
    let username := config_or config "username" "user" in
    let repository := config_or config "repository" "project" in
    ret {| deployment_url :=
             Some ("https://" +:+ username +:+ ".github.io/" +:+ repository);
           claim_url := None;
           deploy_id := Some ("github-" +:+ date_now env (clock db));
           success := true; error_message := None;
           build_logs_text :=
             Some (build_logs env (clock db) "GitHub Pages" config) |} db.

(** [deployToCustomHost(config)] *)
Definition deployToCustomHost (env : Env) (config : gmap string string)
  : M Db DeploymentResultDraft :=
  await sleep_db 3500 then
  fun db =>
    let domain := config_or config "domain" "example.com" in
    ret {| deployment_url := Some ("https://" +:+ domain);
           claim_url := None;
           deploy_id := Some ("custom-" +:+ date_now env (clock db));
           success := true; error_message := None;
           build_logs_text :=
             Some (build_logs env (clock db) "Custom Host" config) |} db.

(** [performDeployment(request, configuration)] *)
Definition performDeployment (env : Env) (request : DeploymentRequest)
  (configuration : gmap string string) : M Db DeploymentResultDraft :=
  let ty := dq_deployment_type request in
  if String.eqb ty "netlify_static" then deployToNetlify env configuration
  else if String.eqb ty "vercel_static" then deployToVercel env configuration
  else if String.eqb ty "github_pages" then deployToGitHub env configuration
  else if String.eqb ty "custom_hosting"
  then deployToCustomHost env configuration
  else throw {| message := "Unknown deployment type" |}.

(** The [try] block of [deployProject]; [None] is a [null] result. *)
Definition try_block (env : Env) (request : DeploymentRequest)
  (configuration : gmap string string) : M Db (option DeploymentResult) :=
  let* result := performDeployment env request configuration in
  let* saved := insert_result env (dq_id request, result) in
  match error saved with
  | Some _ => throw {| message := "Failed to save deployment result" |}
  | None =>
      await update_status env (dq_id request)
              (if success result then completed else failed) then
      ret (data saved)
  end.

(** The row the [catch] block of [deployProject] stores. *)
Definition error_row (request : DeploymentRequest) (error : JsError)
  : nat * DeploymentResultDraft :=
  (dq_id request,
   {| deployment_url := None; claim_url := None; deploy_id := None;
      success := false; error_message := Some (message error);
      build_logs_text := None |}).

(** The [catch] block of [deployProject]. *)
Definition catch_block (env : Env) (request : DeploymentRequest)
  (error : JsError) : M Db (option DeploymentResult) :=
  let* errorResult := insert_result env (error_row request error) in
  await update_status env (dq_id request) failed then
  match data errorResult with
  | Some row => ret (Some row)
  | None => throw error
  end.

(** [deployProject(planId, deploymentType, configuration,
    executionRequestId?)] *)
Definition deployProject (env : Env) (planId deploymentType : string)
  (configuration : gmap string string) (executionRequestId : option nat)
  : M Db (option DeploymentResult) :=
  let* created :=
    insert_request env planId executionRequestId deploymentType
      configuration in_progress in
  match error created, data created with
  | None, Some request =>
      try_catch (try_block env request configuration)
        (catch_block env request)
  | _, _ => throw {| message := "Failed to create deployment request" |}
  end.

End Deployment.

(* ===================================================================== *)
(** ** [components/AutoStartModal.tsx] and
       [components/PlanVisualization.tsx] *)
(* ===================================================================== *)

Record AutoStartPreferences := {
  enableResearch : bool;
  enableExecution : bool;
  enableDeployment : bool;
  autoProgressDelay : Z;
  researchDepth : string;
  executionMode : string;
  deploymentProvider : string;
  pauseBetweenTasks : bool
}.

Inductive Phase := research | execution | deployment.

(** The component state the runner reads and writes ([React.useState]). *)
Record UiState := {
  expandedPlans : gset string;
  startedTasks : gset string;
  isAutoRunning : bool;
  currentAutoTask : option string;
  currentAutoPhase : option Phase;
  autoPreferences : option AutoStartPreferences;
  completedAutoTasks : gset string
}.

(** State of the component on its first render. *)
Definition initial_ui : UiState :=
  {| expandedPlans := ∅; startedTasks := ∅; isAutoRunning := false;
     currentAutoTask := None; currentAutoPhase := None;
     autoPreferences := None; completedAutoTasks := ∅ |}.

Module PlanVisualization.

(** [generateAutoResearchQuery(plan, depth)] *)
Definition generateAutoResearchQuery (plan : TaskPlan) (depth : string)
  : string :=
  let baseQuery :=
    plan_title plan +:+ " best practices and implementation guide" in
  if String.eqb depth "basic" then "Quick overview: " +:+ baseQuery
  else if String.eqb depth "comprehensive"
  then "Comprehensive analysis including market research, case studies, and detailed implementation for: "
       +:+ baseQuery
  else "Detailed research on " +:+ baseQuery
       +:+ " including tools, methods, and expert recommendations".

(** [generateAutoExecutionInstructions(plan, mode)] *)
Definition generateAutoExecutionInstructions (plan : TaskPlan) (mode : string)
  : string :=
  let baseInstructions :=
    "Create implementation for: " +:+ plan_title plan +:+ ". "
    +:+ default "" (plan_description plan) in
  if String.eqb mode "conservative"
  then baseInstructions
       +:+ ". Use simple, proven approaches with minimal dependencies."
  else if String.eqb mode "aggressive"
  then baseInstructions
       +:+ ". Use cutting-edge technologies and advanced features."
  else baseInstructions
       +:+ ". Use modern best practices with good balance of features and stability.".

(** [plan.title.toLowerCase().replace(/[^a-z0-9]/g, '-').substring(0, 30)] *)
Definition planSlug (planTitle : string) : string :=
  Js.substring (Js.replace_non_alnum (Js.toLowerCase planTitle)) 0 30.

(** [generateAutoDeploymentConfig(plan, provider)] *)
Definition generateAutoDeploymentConfig (plan : TaskPlan) (provider : string)
  : gmap string string :=
  let slug := planSlug (plan_title plan) in
  if String.eqb provider "netlify_static"
  then {[ "subdomain" := slug; "buildCommand" := "npm run build" ]}
  else if String.eqb provider "vercel_static"
  then {[ "projectName" := slug; "framework" := "react" ]}
  else if String.eqb provider "github_pages"
  then {[ "username" := "auto-user"; "repository" := slug ]}
  else ∅.

(** What a run of the component's handlers acts on: the component state,
    the console, the time spent in [delay], and the world [W] the agent
    recorders act on. *)
Record Runner (W : Type) := {
  ui : UiState;
  runner_console : list ConsoleEntry;
  waited_ms : Z;
  world : W
}.
Arguments ui {W} r.
Arguments runner_console {W} r.
Arguments waited_ms {W} r.
Arguments world {W} r.

Section Handlers.

Context {W R E D : Type}.

(** The three recorders the component imports. *)
Variable conductResearch : string -> string -> M W R.
Variable executeTask : string -> string -> string -> M W E.
Variable deployProject : string -> string -> gmap string string -> M W D.

(** The constants of one render: the [plans] prop and the state values
    [useState] returned for that render.  A handler is a closure over
    them; calling a state setter does not change them. *)
Variable plans : list TaskPlan.
Variable render : UiState.

Definition set_ui (f : UiState -> UiState) : M (Runner W) unit :=
  modify (fun r =>
    {| ui := f (ui r); runner_console := runner_console r;
       waited_ms := waited_ms r; world := world r |}).

Definition setAutoPreferences (v : option AutoStartPreferences) :=
  set_ui (fun u =>
    {| expandedPlans := expandedPlans u; startedTasks := startedTasks u;
       isAutoRunning := isAutoRunning u; currentAutoTask := currentAutoTask u;
       currentAutoPhase := currentAutoPhase u; autoPreferences := v;
       completedAutoTasks := completedAutoTasks u |}).

Definition setIsAutoRunning (v : bool) :=
  set_ui (fun u =>
    {| expandedPlans := expandedPlans u; startedTasks := startedTasks u;
       isAutoRunning := v; currentAutoTask := currentAutoTask u;
       currentAutoPhase := currentAutoPhase u;
       autoPreferences := autoPreferences u;
       completedAutoTasks := completedAutoTasks u |}).

Definition setStartedTasks (v : gset string) :=
  set_ui (fun u =>
    {| expandedPlans := expandedPlans u; startedTasks := v;
       isAutoRunning := isAutoRunning u; currentAutoTask := currentAutoTask u;
       currentAutoPhase := currentAutoPhase u;
       autoPreferences := autoPreferences u;
       completedAutoTasks := completedAutoTasks u |}).

Definition setExpandedPlans (v : gset string) :=
  set_ui (fun u =>
    {| expandedPlans := v; startedTasks := startedTasks u;
       isAutoRunning := isAutoRunning u; currentAutoTask := currentAutoTask u;
       currentAutoPhase := currentAutoPhase u;
       autoPreferences := autoPreferences u;
       completedAutoTasks := completedAutoTasks u |}).

Definition setCurrentAutoTask (v : option string) :=
  set_ui (fun u =>
    {| expandedPlans := expandedPlans u; startedTasks := startedTasks u;
       isAutoRunning := isAutoRunning u; currentAutoTask := v;
       currentAutoPhase := currentAutoPhase u;
       autoPreferences := autoPreferences u;
       completedAutoTasks := completedAutoTasks u |}).

Definition setCurrentAutoPhase (v : option Phase) :=
  set_ui (fun u =>
    {| expandedPlans := expandedPlans u; startedTasks := startedTasks u;
       isAutoRunning := isAutoRunning u; currentAutoTask := currentAutoTask u;
       currentAutoPhase := v; autoPreferences := autoPreferences u;
       completedAutoTasks := completedAutoTasks u |}).

(** [setCompletedAutoTasks(prev => new Set([...prev, id]))] *)
Definition addCompletedAutoTask (id : string) :=
  set_ui (fun u =>
    {| expandedPlans := expandedPlans u; startedTasks := startedTasks u;
       isAutoRunning := isAutoRunning u; currentAutoTask := currentAutoTask u;
       currentAutoPhase := currentAutoPhase u;
       autoPreferences := autoPreferences u;
       completedAutoTasks := completedAutoTasks u ∪ {[ id ]} |}).

(** [await delay(ms)] *)
Definition delay (ms : Z) : M (Runner W) unit :=
  modify (fun r =>
    {| ui := ui r; runner_console := runner_console r;
       waited_ms := waited_ms r + ms; world := world r |}).

(** [console.error(label, error)] *)
Definition log_error (l : string) (e : JsError) : M (Runner W) unit :=
  modify (fun r =>
    {| ui := ui r;
       runner_console := runner_console r ++ [{| label := l; logged := e |}];
       waited_ms := waited_ms r; world := world r |}).

(** Awaiting a recorder: it acts on the world only. *)
Definition call {A} (c : M W A) : M (Runner W) A :=
  fun r =>
    let '(o, w) := c (world r) in
    (o, {| ui := ui r; runner_console := runner_console r;
           waited_ms := waited_ms r; world := w |}).

(** The [try] block of one iteration of the loop; [is_last] is
    [plan === plans[plans.length - 1]]. *)
Definition run_plan (preferences : AutoStartPreferences) (plan : TaskPlan)
  (is_last : bool) : M (Runner W) unit :=
  await (if enableResearch preferences then
           await setCurrentAutoPhase (Some research) then
           let researchQuery :=
             generateAutoResearchQuery plan (researchDepth preferences) in
           await call (conductResearch (plan_id plan) researchQuery) then
           delay (autoProgressDelay preferences * 1000)
         else ret tt) then
  await (if enableExecution preferences then
           await setCurrentAutoPhase (Some execution) then
           let executionInstructions :=
             generateAutoExecutionInstructions plan
               (executionMode preferences) in
           await call (executeTask (plan_id plan) "code_generation"
                         executionInstructions) then
           delay (autoProgressDelay preferences * 1000)
         else ret tt) then
  await (if enableDeployment preferences then
           await setCurrentAutoPhase (Some deployment) then
           let deploymentConfig :=
             generateAutoDeploymentConfig plan
               (deploymentProvider preferences) in
           await call (deployProject (plan_id plan)
                         (deploymentProvider preferences)
                         deploymentConfig) then
           delay (autoProgressDelay preferences * 1000)
         else ret tt) then
  await addCompletedAutoTask (plan_id plan) then
  if pauseBetweenTasks preferences && negb is_last then delay 2000
  else ret tt.

(** [for (const plan of plans) { ... }], on the plans still to visit.
    The test [if (!isAutoRunning) break] reads the constant of the render
    that created the handler, not the state [setIsAutoRunning] writes. *)
Fixpoint for_plans (preferences : AutoStartPreferences) (rest : list TaskPlan)
  : M (Runner W) unit :=
  match rest with
  | [] => ret tt
  | plan :: rest' =>
      if negb (isAutoRunning render) then ret tt
      else
        await setCurrentAutoTask (Some (plan_id plan)) then
        await try_catch
                (run_plan preferences plan
                   (match rest' with [] => true | _ => false end))
                (fun error =>
                   log_error ("Error in auto-execution for plan "
                              +:+ plan_id plan +:+ ":") error) then
        for_plans preferences rest'
  end.

(** [handleAutoStartAll(preferences)] *)
Definition handleAutoStartAll (preferences : AutoStartPreferences)
  : M (Runner W) unit :=
  await setAutoPreferences (Some preferences) then
  await setIsAutoRunning true then
  await setStartedTasks (list_to_set (map plan_id plans)) then
  await setExpandedPlans (list_to_set (map plan_id plans)) then
  await for_plans preferences plans then
  await setIsAutoRunning false then
  await setCurrentAutoTask None then
  setCurrentAutoPhase None.

(** [stopAutoExecution()] *)
Definition stopAutoExecution : M (Runner W) unit :=
  await setIsAutoRunning false then
  await setCurrentAutoTask None then
  setCurrentAutoPhase None.

End Handlers.

(** Where a handler starts when it is called while the component is in
    state [u] and the recorders' world is [w]. *)
Definition start {W : Type} (u : UiState) (w : W) : Runner W :=
  {| ui := u; runner_console := []; waited_ms := 0; world := w |}.

End PlanVisualization.

(* ===================================================================== *)
(** ** Auxiliary definitions used by the statements below *)
(* ===================================================================== *)

(** The slug in the words of the specification: every character is
    lower-cased and replaced by a dash when outside [[a-z0-9]], and the
    first 30 characters are kept. *)
Definition slug_char (c : ascii) : ascii :=
  let l := Js.lower_char c in
  if Js.is_a_z0_9 l then l else "-"%char.

Definition slug_by_words (planTitle : string) : string :=
  string_of_list_ascii
    (firstn 30 (map slug_char (list_ascii_of_string planTitle))).

(** The call numbered [n] is answered without a fault. *)
Definition ok (env : Env) (n : nat) (c : Call) : bool :=
  match db_fault env n c with None => true | Some _ => false end.

(** The edge function's answer passes both checks of [conductResearch]:
    no [error], and [data.results] present. *)
Definition usable (r : Response EdgeData) : bool :=
  match error r, data r with
  | None, Some {| results := Some _ |} => true
  | _, _ => false
  end.

Definition results_of (r : Response EdgeData) : list RawResult :=
  match data r with
  | Some {| results := Some raw |} => raw
  | _ => []
  end.

(** The body [conductResearch] sends to the edge function. *)
Definition research_body (query depth : string) : InvokeBody :=
  {| body_query := Js.trim query; body_depth := depth; body_sources := [] |}.

(** The execution types [performExecution] has a case for. *)
Definition known_execution_type (ty : string) : bool :=
  existsb (String.eqb ty)
    ["code_generation"; "script_execution"; "api_call"; "file_creation";
     "environment_setup"].

(** The deployment types [performDeployment] has a case for. *)
Definition known_deployment_type (ty : string) : bool :=
  existsb (String.eqb ty)
    ["netlify_static"; "vercel_static"; "github_pages"; "custom_hosting"].

Definition is_status_update (c : Call) : bool :=
  match c with UpdateStatus _ _ _ => true | _ => false end.

(** The status updates sent to the store between two of its states. *)
Definition status_updates (before after : Db) : list Call :=
  filter (fun c => is_status_update c = true)
    (drop (length (journal before)) (journal after)).

Definition research_status (db : Db) (id : nat) : option RequestStatus :=
  rq_status <$> research_requests db !! id.

Definition execution_status (db : Db) (id : nat) : option RequestStatus :=
  xq_status <$> execution_requests db !! id.

Definition deployment_status (db : Db) (id : nat) : option RequestStatus :=
  dq_status <$> deployment_requests db !! id.

(** The draft a stored research row was built from. *)
Definition research_draft (r : ResearchResult) : Research.ResearchResultDraft :=
  {| Research.source_url := rr_source_url r; Research.title := rr_title r;
     Research.content := rr_content r; Research.summary := rr_summary r;
     Research.relevance_score := rr_relevance_score r |}.

(** *** A test double of the three recorders

    The world is the log of invocations; an invocation is logged and then
    returns or raises as [raises] decides. *)
Module Double.

Definition Invocation : Type := Phase * string.

Definition recorder (raises : Invocation -> bool) (ph : Phase) (planId : string)
  : M (list Invocation) unit :=
  fun log =>
    (if raises (ph, planId) then Thrown {| message := "recorder failed" |}
     else Returned tt,
     (log ++ [(ph, planId)])%list).

Definition conductResearch (raises : Invocation -> bool) (planId _ : string) :=
  recorder raises research planId.

Definition executeTask (raises : Invocation -> bool) (planId _ _ : string) :=
  recorder raises execution planId.

Definition deployProject (raises : Invocation -> bool) (planId _ : string)
  (_ : gmap string string) :=
  recorder raises deployment planId.

(** The order the specification describes: step-major, phase-minor. *)
Definition step_major (plans : list TaskPlan) : list Invocation :=
  flat_map (fun p => [(research, plan_id p); (execution, plan_id p);
                      (deployment, plan_id p)]) plans.

End Double.

(** *** Concrete environments and inputs *)
Module Scenario.

Definition write_failed : PgError := {| pg_message := "write failed" |}.

(** The answer of the edge function when it is not deployed. *)
Definition edge_down : Response EdgeData :=
  {| data := None;
     error := Some {| pg_message := "edge function not available" |} |}.

Definition two_raw : list RawResult :=
  [ {| raw_source_url := Some "https://example.org/a"; raw_title := "A";
       raw_content := "first"; raw_summary := None;
       raw_relevance_score := Some 42 |};
    {| raw_source_url := None; raw_title := "B"; raw_content := "second";
       raw_summary := Some "s"; raw_relevance_score := None |} ].

Definition edge_up : Response EdgeData :=
  {| data := Some {| results := Some two_raw |}; error := None |}.

(** An environment given by its faults and its edge function. *)
Definition env_of (fault : nat -> Call -> option PgError)
  (agent : Response EdgeData) : Env :=
  {| db_fault := fault; research_agent := fun _ _ => agent;
     script_output := fun _ i => i; api_response_json := fun _ i => i;
     config_json := fun _ i => i; readme_md := fun _ i => i;
     environment_setup_output := fun i => i;
     build_logs := fun _ provider _ => provider;
     date_now := fun _ => "0"; random_suffix := fun _ => "abcdefgh" |}.

Definition no_fault : nat -> Call -> option PgError := fun _ _ => None.

(** Only the call numbered [n] fails. *)
Definition fault_at (n : nat) : nat -> Call -> option PgError :=
  fun m _ => if Nat.eqb m n then Some write_failed else None.

Definition sample_plan (id t : string) : TaskPlan :=
  {| plan_id := id; plan_goal_id := "goal-1"; plan_title := t;
     plan_description := None; plan_sequence_order := 1;
     plan_estimated_duration := None; plan_priority := high;
     plan_status := plan_pending; plan_created_at := "2025-06-10" |}.

Definition two_plans : list TaskPlan :=
  [ sample_plan "plan-1" "Market Research & Validation";
    sample_plan "plan-2" "Business Plan Development" ].

Definition all_phases : AutoStartPreferences :=
  {| enableResearch := true; enableExecution := true;
     enableDeployment := true; autoProgressDelay := 5;
     researchDepth := "detailed"; executionMode := "standard";
     deploymentProvider := "netlify_static"; pauseBetweenTasks := true |}.

End Scenario.

(** A computation of the runner that leaves the console as it is. *)
Definition keeps_console {W A} (c : M (PlanVisualization.Runner W) A) : Prop :=
  forall r,
    PlanVisualization.runner_console (snd (c r))
    = PlanVisualization.runner_console r.

(** The label of the console entry the runner writes for a failed step. *)
Definition failure_label (plan : TaskPlan) : string :=
  "Error in auto-execution for plan " +:+ plan_id plan +:+ ":".

(** The runs used as concrete instances below. *)
Module Runs.

Import Scenario.

(** The edge function is down, every write succeeds. *)
Definition research_edge_down :=
  Research.conductResearch (env_of no_fault edge_down)
    "plan-1" "Market Research best practices" "detailed" empty_db.

(** The edge function answers, every write succeeds. *)
Definition research_edge_up :=
  Research.conductResearch (env_of no_fault edge_up)
    "plan-1" "Market Research best practices" "detailed" empty_db.

(** The edge function is down and the status update (call 2) fails. *)
Definition research_update_fails :=
  Research.conductResearch (env_of (fault_at 2) edge_down)
    "plan-1" "Market Research best practices" "detailed" empty_db.

(** Every write succeeds. *)
Definition execution_all_good :=
  Execution.executeTask (env_of no_fault edge_up)
    "plan-1" "code_generation" "Create implementation for: Market Research"
    empty_db.

(** The insert of the execution results (call 1) fails. *)
Definition execution_results_fail :=
  Execution.executeTask (env_of (fault_at 1) edge_up)
    "plan-1" "code_generation" "Create implementation for: Market Research"
    empty_db.

(** Every write succeeds. *)
Definition deployment_all_good :=
  Deployment.deployProject (env_of no_fault edge_up)
    "plan-1" "netlify_static" {[ "subdomain" := "market-research" ]} None
    empty_db.

(** The insert of the deployment result (call 1) fails, the insert of the
    error row (call 2) succeeds. *)
Definition deployment_result_fails :=
  Deployment.deployProject (env_of (fault_at 1) edge_up)
    "plan-1" "netlify_static" {[ "subdomain" := "market-research" ]} None
    empty_db.

End Runs.


(** *** An edge function that sends the score 0 *)
Module ZeroScore.

Definition zero_raw : list RawResult :=
  [ {| raw_source_url := Some "https://example.org/z"; raw_title := "Z";
       raw_content := "nothing relevant"; raw_summary := None;
       raw_relevance_score := Some 0 |} ].

Definition edge_zero : Response EdgeData :=
  {| data := Some {| results := Some zero_raw |}; error := None |}.

(** The edge function answers with [zero_raw], every write succeeds. *)
Definition research_zero_score :=
  Research.conductResearch (Scenario.env_of Scenario.no_fault edge_zero)
    "plan-1" "Market Research best practices" "detailed" empty_db.

End ZeroScore.
(* ===================================================================== *)
(** ** [services/planningService.ts]: sub-tasks and the whole plan *)
(* ===================================================================== *)

Module SubTasks.

(** [Omit<SubTask, 'id' | 'plan_id' | 'created_at'>] *)
Record SubTaskDraft := {
  title : string;
  description : option string;
  sequence_order : Z;
  completed : bool
}.

Definition task (t d : string) (n : Z) : SubTaskDraft :=
  {| title := t; description := Some d; sequence_order := n;
     completed := false |}.

Definition market_research_tasks : list SubTaskDraft :=
  [ task "Define target customer persona"
      "Create detailed profiles of your ideal customers" 1;
    task "Conduct customer interviews"
      "Interview 10-15 potential customers about their needs" 2;
    task "Analyze competitor landscape"
      "Research direct and indirect competitors" 3;
    task "Validate market size"
      "Estimate total addressable market and demand" 4;
    task "Document findings"
      "Compile research into actionable insights" 5 ].

Definition business_plan_tasks : list SubTaskDraft :=
  [ task "Executive summary"
      "Write compelling overview of your business" 1;
    task "Financial projections"
      "Create 3-year revenue and expense forecasts" 2;
    task "Marketing strategy"
      "Define how you'll reach and acquire customers" 3;
    task "Operations plan"
      "Outline how your business will operate day-to-day" 4;
    task "Risk analysis"
      "Identify potential risks and mitigation strategies" 5 ].

Definition foundation_tasks : list SubTaskDraft :=
  [ task "Assess current knowledge"
      "Take assessment tests to identify knowledge gaps" 1;
    task "Set up learning environment"
      "Install necessary tools and software" 2;
    task "Gather learning resources"
      "Collect books, courses, and online materials" 3;
    task "Create study schedule"
      "Plan daily/weekly study time blocks" 4;
    task "Join learning community"
      "Find online forums or local groups" 5 ].

Definition destination_tasks : list SubTaskDraft :=
  [ task "Research destinations"
      "Compare different travel destinations and attractions" 1;
    task "Check travel requirements"
      "Verify visa, vaccination, and documentation needs" 2;
    task "Plan daily itinerary"
      "Create day-by-day activity schedule" 3;
    task "Research local customs"
      "Learn about culture, etiquette, and local practices" 4;
    task "Create packing checklist"
      "List all items needed for the trip" 5 ].

Definition generic_tasks : list SubTaskDraft :=
  [ task "Define specific objectives"
      "Set clear, measurable goals for this phase" 1;
    task "Gather required resources"
      "Collect all necessary tools, information, and materials" 2;
    task "Create action timeline"
      "Break down work into daily/weekly milestones" 3;
    task "Execute planned activities"
      "Complete the main work items for this phase" 4;
    task "Review and document progress"
      "Assess results and document lessons learned" 5 ].

(** [generateSubTasks(planTitle, planDescription)] *)
Definition generateSubTasks (planTitle planDescription : string)
  : list SubTaskDraft :=
  let lowerTitle := Js.toLowerCase planTitle in
  if Js.includes lowerTitle "market research"
     || Js.includes lowerTitle "validation"
  then market_research_tasks
  else if Js.includes lowerTitle "business plan"
  then business_plan_tasks
  else if Js.includes lowerTitle "foundation"
          || Js.includes lowerTitle "prerequisite"
  then foundation_tasks
  else if Js.includes lowerTitle "destination"
          || Js.includes lowerTitle "research"
  then destination_tasks
  else generic_tasks.

(** The sub-tasks [generateTaskPlan] computes for one plan:
    [generateSubTasks(plan.title, plan.description || '')]. *)
Definition subTasksFor (plan : Planning.TaskPlanDraft) : list SubTaskDraft :=
  generateSubTasks (Planning.title plan)
    (default "" (Planning.description plan)).

(** [generateTaskPlan(goal)]; [subTasks] is the object filled by
    [plans.forEach((plan, index) => { subTasks[index] = ... })]. *)
Definition generateTaskPlan (goal : string)
  : list Planning.TaskPlanDraft * gmap nat (list SubTaskDraft) :=
  let plans := Planning.analyzeGoalAndCreatePlans goal in
  let subTasks :=
    foldl (fun (acc : gmap nat (list SubTaskDraft))
               (entry : nat * Planning.TaskPlanDraft) =>
             <[fst entry := subTasksFor (snd entry)]> acc)
          ∅ (imap pair plans) in
  (plans, subTasks).

(** The checklists of the plans of each template, in plan order. *)
Definition checklists (g : option Planning.Group) : list (list SubTaskDraft) :=
  match g with
  | Some Planning.Business =>
      [market_research_tasks; business_plan_tasks; generic_tasks;
       generic_tasks; generic_tasks]
  | Some Planning.Learn =>
      [foundation_tasks; generic_tasks; generic_tasks; generic_tasks;
       generic_tasks]
  | Some Planning.Travel =>
      [destination_tasks; generic_tasks; generic_tasks; generic_tasks]
  | Some Planning.Event | None =>
      [generic_tasks; generic_tasks; generic_tasks; generic_tasks;
       generic_tasks]
  end.

End SubTasks.

(* ===================================================================== *)
(** ** Auxiliary definitions for the further properties *)
(* ===================================================================== *)

(** The characters a slug is made of: [[a-z0-9]] and the dash. *)
Definition is_slug_char (c : ascii) : bool :=
  Js.is_a_z0_9 c || Ascii.eqb c "-"%char.

(** The sub-domain (or repository) the simulated deployers derive from the
    configuration the runner builds for a plan: the slug, unless the title
    (and so the slug) is empty. *)
Definition slug_or (planTitle fallback : string) : string :=
  if Js.truthy planTitle then PlanVisualization.planSlug planTitle
  else fallback.

(* ===================================================================== *)
(** ** Auxiliary definitions for the runner's loop *)
(* ===================================================================== *)

Module Attempts.

(** The phases the preferences enable, in the order the loop body has
    them. *)
Definition enabled_phases (preferences : AutoStartPreferences) : list Phase :=
  ((if enableResearch preferences then [research] else []) ++
   (if enableExecution preferences then [execution] else []) ++
   (if enableDeployment preferences then [deployment] else []))%list.

(** The invocations for one plan: the phases in order, up to and
    including the first whose recorder raises. *)
Fixpoint until_raise (raises : Double.Invocation -> bool) (planId : string)
  (phases : list Phase) : list Double.Invocation :=
  match phases with
  | [] => []
  | ph :: rest =>
      (ph, planId)
        :: (if raises (ph, planId) then []
            else until_raise raises planId rest)
  end.

Definition attempts (raises : Double.Invocation -> bool)
  (preferences : AutoStartPreferences) (plan : TaskPlan)
  : list Double.Invocation :=
  until_raise raises (plan_id plan) (enabled_phases preferences).

(** No enabled phase of the plan raises. *)
Definition completes (raises : Double.Invocation -> bool)
  (preferences : AutoStartPreferences) (plan : TaskPlan) : bool :=
  forallb (fun ph => negb (raises (ph, plan_id plan)))
    (enabled_phases preferences).

(** The console entry of a plan one of whose phases raised. *)
Definition failure_entry (plan : TaskPlan) : ConsoleEntry :=
  {| label := failure_label plan;
     logged := {| message := "recorder failed" |} |}.

(** A render in which the automatic run is marked as running. *)
Definition running_ui : UiState :=
  {| expandedPlans := ∅; startedTasks := ∅; isAutoRunning := true;
     currentAutoTask := None; currentAutoPhase := None;
     autoPreferences := None; completedAutoTasks := ∅ |}.

(** The execution recorder raises for [plan-1], nothing else raises. *)
Definition first_execution_raises (i : Double.Invocation) : bool :=
  match i with
  | (execution, id) => String.eqb id "plan-1"
  | _ => false
  end.

End Attempts.

(** A computation of the runner that leaves the selection of plans, the
    running flag and the preferences as they are, and adds to the
    completed plans at most the identifiers [ids]. *)
Definition keeps_selection {W A} (ids : gset string)
  (c : M (PlanVisualization.Runner W) A) : Prop :=
  forall r,
    let u := PlanVisualization.ui r in
    let u' := PlanVisualization.ui (snd (c r)) in
    expandedPlans u' = expandedPlans u /\
    startedTasks u' = startedTasks u /\
    isAutoRunning u' = isAutoRunning u /\
    autoPreferences u' = autoPreferences u /\
    completedAutoTasks u ⊆ completedAutoTasks u' /\
    completedAutoTasks u' ⊆ completedAutoTasks u ∪ ids.

(** No call of a recorder raises. *)
Definition never_raises {W R E D : Type}
  (conductResearch : string -> string -> M W R)
  (executeTask : string -> string -> string -> M W E)
  (deployProject : string -> string -> gmap string string -> M W D) : Prop :=
  (forall planId query w,
      is_returned (fst (conductResearch planId query w)) = true) /\
  (forall planId type instructions w,
      is_returned (fst (executeTask planId type instructions w)) = true) /\
  (forall planId provider config w,
      is_returned (fst (deployProject planId provider config w)) = true).

(* ===================================================================== *)
(** ** Further JavaScript built-ins *)
(* ===================================================================== *)

Module JsGlobal.

(** The characters [encodeURIComponent] leaves as they are:
    [A-Z a-z 0-9 - _ . ! ~ * ' ( )]. *)
Definition is_unreserved (c : ascii) : bool :=
  Js.in_range 65 90 c || Js.in_range 97 122 c || Js.in_range 48 57 c ||
  existsb (Ascii.eqb c) ["-"; "_"; "."; "!"; "~"; "*"; "'"; "("; ")"]%char.

Definition hex_digit (n : nat) : ascii :=
  if Nat.ltb n 10 then ascii_of_nat (48 + n) else ascii_of_nat (55 + n).

(** [%XX] for one byte. *)
Definition percent (byte : nat) : string :=
  String "%" (String (hex_digit (byte / 16))
                (String (hex_digit (byte mod 16)) EmptyString)).

(** One code unit below U+0100: itself when unreserved, else the bytes
    of its UTF-8 encoding (one below U+0080, two from there on), each
    percent-encoded. *)
Definition encode_char (c : ascii) : string :=
  if is_unreserved c then String c EmptyString
  else if Nat.ltb (Js.code c) 128 then percent (Js.code c)
  else percent (192 + Js.code c / 64) +:+ percent (128 + Js.code c mod 64).

(** What [encodeURIComponent(s)] returns for a string [s] of this model
    (code units below U+0100, hence no surrogate). *)
Fixpoint percent_encode (s : string) : string :=
  match s with
  | EmptyString => EmptyString
  | String c s' => encode_char c +:+ percent_encode s'
  end.

(** A string that reaches the program from outside.  A string of this
    model is well-formed.  Of a string that holds a lone surrogate
    (JSON can carry one, written as an escape) the model keeps what the
    program reads of it: [shown] stands for its text where it is put
    into a template, and [lowerCaseIncludes k] is
    [s.toLowerCase().includes(k)].  Such a string is neither empty nor,
    a surrogate being no white space, blank. *)
Inductive Received :=
| WellFormed (s : string)
| LoneSurrogate (shown : string) (lowerCaseIncludes : string -> bool).

(** [`${r}`] *)
Definition text_of (r : Received) : string :=
  match r with
  | WellFormed s => s
  | LoneSurrogate shown _ => shown
  end.

(** Truthiness of a received string. *)
Definition is_truthy (r : Received) : bool :=
  match r with
  | WellFormed s => Js.truthy s
  | LoneSurrogate _ _ => true
  end.

(** [r.trim().length === 0] *)
Definition is_blank (r : Received) : bool :=
  match r with
  | WellFormed s => Z.of_nat (String.length (Js.trim s)) =? 0
  | LoneSurrogate _ _ => false
  end.

(** [r.toLowerCase().includes(k)] *)
Definition lower_includes (r : Received) (k : string) : bool :=
  match r with
  | WellFormed s => Js.includes (Js.toLowerCase s) k
  | LoneSurrogate _ lowerCaseIncludes => lowerCaseIncludes k
  end.

(** [new URIError('URI malformed')] *)
Definition URIError : JsError := {| message := "URI malformed" |}.

(** [encodeURIComponent(r)]: it throws a [URIError] on a lone
    surrogate. *)
Definition encodeURIComponent (r : Received) : Outcome string :=
  match r with
  | WellFormed s => Returned (percent_encode s)
  | LoneSurrogate _ _ => Thrown URIError
  end.

(** [s.split(sep)[0]] for a non-empty [sep]: [s] up to the first
    occurrence of [sep]. *)
Fixpoint split_head (s sep : string) : string :=
  if Js.startsWith s sep then EmptyString
  else match s with
       | EmptyString => EmptyString
       | String c s' => String c (split_head s' sep)
       end.

(** [a || b] on strings that may be absent: [a] when it is present and
    not empty. *)
Definition or_else (a : option string) (b : string) : string :=
  match a with
  | Some s => if Js.truthy s then s else b
  | None => b
  end.

(** Truthiness of a string that may be absent. *)
Definition present (a : option string) : bool :=
  match a with Some s => Js.truthy s | None => false end.

(** One step of an insertion that keeps equal elements in their order:
    [x], which came before all of [l], moves behind [y] only when
    [cmp x y > 0]. *)
Fixpoint insert_sorted {A} (cmp : A -> A -> Z) (x : A) (l : list A) : list A :=
  match l with
  | [] => [x]
  | y :: l' => if 0 <? cmp x y then y :: insert_sorted cmp x l' else x :: l
  end.

(** [l.sort(cmp)]: the sort is stable (ECMAScript 2019). *)
Definition sort {A} (cmp : A -> A -> Z) (l : list A) : list A :=
  foldr (insert_sorted cmp) [] l.

End JsGlobal.

(* ===================================================================== *)
(** ** [supabase/functions/research-agent/index.ts]

    The edge function the research recorder invokes.  What the three
    services it fetches from answer, and the texts that depend on the
    date, are decided by the environment [Web].  The bodies of the
    answers are typed as the services document them; the body of a
    request is not typed, and the query may be any string. *)
(* ===================================================================== *)

Module ResearchAgent.

(** [ResearchResult] *)
Record ResearchResult := {
  title : string;
  content : string;
  summary : option string;
  source_url : option string;
  relevance_score : Z
}.

(** [await fetch(url)] followed by [await response.json()]: one of the
    two promises rejects, or [response.ok] is false, or the body is
    parsed. *)
Inductive Fetched (A : Type) :=
| Rejected (e : JsError)
| NotOk
| Parsed (a : A).
Arguments Rejected {A} e.
Arguments NotOk {A}.
Arguments Parsed {A} a.

(** One entry of [data.RelatedTopics]. *)
Record Topic := { Text : option string; FirstURL : option string }.

(** The answer of the DuckDuckGo Instant Answer API. *)
Record InstantAnswer := {
  Abstract : option string;
  Heading : option string;
  AbstractURL : option string;
  RelatedTopics : option (list Topic)
}.

(** The answer of the Wikipedia page summary API; [desktop_page] is
    [data.content_urls?.desktop?.page]. *)
Record PageSummary := {
  page_title : option string;
  extract : option string;
  desktop_page : option string
}.

(** One entry of [data.items] of the GitHub repository search. *)
Record Repository := {
  full_name : string;
  description : option string;
  stargazers_count : Z;
  language : option string;
  updated_at : string;
  html_url : string
}.

Record RepositorySearch := { items : option (list Repository) }.

Record Web := {
  fetch_duckduckgo : string -> Fetched InstantAnswer;
  fetch_wikipedia : string -> Fetched PageSummary;
  fetch_github : string -> Fetched RepositorySearch;
  (** [new Date(s).toLocaleDateString()] *)
  toLocaleDateString : string -> string;
  (** [new Date().getFullYear()] *)
  getFullYear : Z;
  (** [new Date().toISOString()] *)
  toISOString : string;
  (** the message of the [TypeError] of destructuring [null] *)
  cannot_destructure_null : string;
  (** the message of the [TypeError] of calling [query.trim] on a query
      that has no such method *)
  trim_is_not_a_function : string
}.

(** The state of one call of [conductResearch]: the console and the
    local array [results] ([run_results]) the searches are pushed to. *)
Record Run := {
  run_console : list ConsoleEntry;
  run_results : list ResearchResult
}.

(** A computation that only completes: it returns or throws, and leaves
    the state as it is. *)
Definition settled {S A} (o : Outcome A) : M S A := fun s => (o, s).

(** [console.error(label, error)] *)
Definition log_error (l : string) (e : JsError) : M Run unit :=
  modify (fun s =>
    {| run_console := run_console s ++ [{| label := l; logged := e |}];
       run_results := run_results s |}).

(** [results.push(...found)] *)
Definition push (found : list ResearchResult) : M Run unit :=
  modify (fun s =>
    {| run_console := run_console s; run_results := run_results s ++ found |}).

(** [const response = await fetch(url); if (!response.ok) return [];
    const data = await response.json()], [None] standing for the early
    return. *)
Definition fetch_json {A} (answer : Fetched A) : M Run (option A) :=
  match answer with
  | Rejected e => throw e
  | NotOk => ret None
  | Parsed data => ret (Some data)
  end.

(** The result of the [Abstract] of an answer. *)
Definition abstract_result (data : InstantAnswer) : list ResearchResult :=
  match Abstract data with
  | Some abstract =>
      if Js.truthy abstract && (0 <? Z.of_nat (String.length abstract))
      then [ {| title := JsGlobal.or_else (Heading data) "DuckDuckGo Summary";
                content := abstract;
                summary := Some (Js.substring abstract 0 200 +:+ "...");
                source_url :=
                  (if JsGlobal.present (AbstractURL data)
                   then AbstractURL data else None);
                relevance_score := 8 |} ]
      else []
  | None => []
  end.

(** The body of [data.RelatedTopics.slice(0, 3).forEach(...)] for one
    topic. *)
Definition topic_result (topic : Topic) : list ResearchResult :=
  match Text topic, FirstURL topic with
  | Some text, Some url =>
      if Js.truthy text && Js.truthy url
      then [ {| title :=
                  (let head := JsGlobal.split_head text " - " in
                   if Js.truthy head then head else "Related Topic");
                content := text;
                summary := Some (Js.substring text 0 150 +:+ "...");
                source_url := Some url;
                relevance_score := 6 |} ]
      else []
  | _, _ => []
  end.

Definition topic_results (data : InstantAnswer) : list ResearchResult :=
  match RelatedTopics data with
  | Some topics => flat_map topic_result (take 3 topics)
  | None => []
  end.

(** [searchDuckDuckGo(query)] *)
Definition searchDuckDuckGo (web : Web) (query : JsGlobal.Received)
  : M Run (list ResearchResult) :=
  try_catch
    (let* encodedQuery := settled (JsGlobal.encodeURIComponent query) in
     let* response :=
       fetch_json
         (fetch_duckduckgo web
            ("https://api.duckduckgo.com/?q=" +:+ encodedQuery
             +:+ "&format=json&no_html=1&skip_disambig=1")) in
     match response with
     | None => ret []
     | Some data => ret (abstract_result data ++ topic_results data)%list
     end)
    (fun error =>
       await log_error "DuckDuckGo search error:" error then ret []).

(** [generateDomainSpecificContent(domain, query)]: the entry of
    [domainContent] for [domain], when there is one, is called with the
    query, and throws when [encodeURIComponent] does; the texts of the
    templates are read in [text_of].  A result is an object, so that
    [|| null] leaves it.  The only caller passes the names of
    [domains]; a [domain] that names a property [domainContent]
    inherits from [Object.prototype] is not modelled. *)
Definition generateDomainSpecificContent (domain : string)
  (query : JsGlobal.Received) : Outcome (option ResearchResult) :=
  let q := JsGlobal.text_of query in
  if String.eqb domain "reddit.com" then
    match JsGlobal.encodeURIComponent query with
    | Returned encoded =>
        Returned (Some
          {| title := "Reddit Discussion: " +:+ q;
             content := "Community discussions and user experiences related to " +:+ q +:+ ". Users share practical insights, common challenges, and real-world solutions. Popular threads include troubleshooting guides, recommendation threads, and success stories.";
             summary := Some ("Reddit community insights and discussions about " +:+ q);
             source_url := Some ("https://www.reddit.com/search/?q=" +:+ encoded);
             relevance_score := 7 |})
    | Thrown e => Thrown e
    end
  else if String.eqb domain "stackoverflow.com" then
    match JsGlobal.encodeURIComponent query with
    | Returned encoded =>
        Returned (Some
          {| title := "Stack Overflow: " +:+ q +:+ " Solutions";
             content := "Technical questions and expert answers related to " +:+ q +:+ ". Includes code examples, best practices, and common pitfalls to avoid. High-quality answers from experienced developers with upvoted solutions.";
             summary := Some ("Technical solutions and code examples for " +:+ q);
             source_url := Some ("https://stackoverflow.com/search?q=" +:+ encoded);
             relevance_score := 9 |})
    | Thrown e => Thrown e
    end
  else if String.eqb domain "medium.com" then
    match JsGlobal.encodeURIComponent query with
    | Returned encoded =>
        Returned (Some
          {| title := "Medium Articles: " +:+ q +:+ " Insights";
             content := "In-depth articles and tutorials about " +:+ q +:+ " written by industry experts and practitioners. Covers theoretical concepts, practical implementations, and case studies with real-world examples.";
             summary := Some ("Expert articles and tutorials about " +:+ q);
             source_url := Some ("https://medium.com/search?q=" +:+ encoded);
             relevance_score := 8 |})
    | Thrown e => Thrown e
    end
  else if String.eqb domain "dev.to" then
    match JsGlobal.encodeURIComponent query with
    | Returned encoded =>
        Returned (Some
          {| title := "Dev.to Community: " +:+ q;
             content := "Developer community posts about " +:+ q +:+ " including tutorials, project showcases, and technical discussions. Features beginner-friendly explanations and advanced techniques.";
             summary := Some ("Developer community content about " +:+ q);
             source_url := Some ("https://dev.to/search?q=" +:+ encoded);
             relevance_score := 7 |})
    | Thrown e => Thrown e
    end
  else Returned None.

Definition domains : list string :=
  [ "reddit.com"; "stackoverflow.com"; "medium.com"; "dev.to";
    "hackernews.com" ].

(** The body of the loop of [searchSpecificDomains] for one domain,
    [results] being the local array: what the call throws is caught and
    written to the console, and the array is left as it was. *)
Definition search_domain (query : JsGlobal.Received) (domain : string)
  (results : list ResearchResult) : M Run (list ResearchResult) :=
  try_catch
    (let searchQuery := "site:" +:+ domain +:+ " " +:+ JsGlobal.text_of query in
     let* domainResult :=
       settled (generateDomainSpecificContent domain query) in
     match domainResult with
     | Some found => ret (results ++ [found])%list
     | None => ret results
     end)
    (fun error =>
       await log_error ("Error searching " +:+ domain +:+ ":") error then
       ret results).

(** [for (const domain of ds) { ... }] *)
Fixpoint for_domains (query : JsGlobal.Received) (ds : list string)
  (results : list ResearchResult) : M Run (list ResearchResult) :=
  match ds with
  | [] => ret results
  | domain :: rest =>
      let* results' := search_domain query domain results in
      for_domains query rest results'
  end.

(** [searchSpecificDomains(query, depth)] *)
Definition searchSpecificDomains (query : JsGlobal.Received) (depth : string)
  : M Run (list ResearchResult) :=
  for_domains query
    (take (if String.eqb depth "basic" then 2 else 4) domains) [].

(** [searchWikipedia(query)] *)
Definition searchWikipedia (web : Web) (query : JsGlobal.Received)
  : M Run (list ResearchResult) :=
  try_catch
    (let* encodedQuery := settled (JsGlobal.encodeURIComponent query) in
     let* searchResponse :=
       fetch_json
         (fetch_wikipedia web
            ("https://en.wikipedia.org/api/rest_v1/page/summary/"
             +:+ encodedQuery)) in
     match searchResponse with
     | None => ret []
     | Some data =>
         match extract data with
         | Some text =>
             if Js.truthy text && (0 <? Z.of_nat (String.length text))
             then ret [ {| title :=
                             JsGlobal.or_else (page_title data)
                               "Wikipedia Article";
                           content := text;
                           summary :=
                             Some (Js.substring text 0 200 +:+ "...");
                           source_url := desktop_page data;
                           relevance_score := 7 |} ]
             else ret []
         | None => ret []
         end
     end)
    (fun error =>
       await log_error "Wikipedia search error:" error then ret []).

(** The result [searchGitHub] makes of one repository. *)
Definition repository_result (web : Web) (repo : Repository)
  : ResearchResult :=
  {| title := full_name repo +:+ " - GitHub Repository";
     content :=
       JsGlobal.or_else (description repo) "No description provided"
       +:+ "

Stars: " +:+ pretty (stargazers_count repo) +:+ "
Language: " +:+ JsGlobal.or_else (language repo) "Not specified" +:+ "
Last updated: " +:+ toLocaleDateString web (updated_at repo);
     summary :=
       Some (match description repo with
             | Some d =>
                 if Js.truthy d then Js.substring d 0 150 +:+ "..."
                 else "GitHub repository"
             | None => "GitHub repository"
             end);
     source_url := Some (html_url repo);
     relevance_score := Z.min 9 (stargazers_count repo / 1000 + 5) |}.

(** [searchGitHub(query)] *)
Definition searchGitHub (web : Web) (query : JsGlobal.Received)
  : M Run (list ResearchResult) :=
  try_catch
    (let* encodedQuery := settled (JsGlobal.encodeURIComponent query) in
     let* response :=
       fetch_json
         (fetch_github web
            ("https://api.github.com/search/repositories?q=" +:+ encodedQuery
             +:+ "&sort=stars&order=desc&per_page=3")) in
     match response with
     | None => ret []
     | Some data =>
         match items data with
         | Some repos => ret (map (repository_result web) repos)
         | None => ret []
         end
     end)
    (fun error =>
       await log_error "GitHub search error:" error then ret []).

(** [generateNewsContent(query)] *)
Definition generateNewsContent (web : Web) (query : JsGlobal.Received)
  : list ResearchResult :=
  let currentYear := getFullYear web in
  let query := JsGlobal.text_of query in
  [ {| title := pretty currentYear +:+ " Industry Trends: " +:+ query;
       content := "Latest industry developments and trends related to " +:+ query +:+ ". Market analysis shows continued growth and innovation in this sector with new technologies and methodologies emerging.";
       summary := Some ("Current industry trends and developments in " +:+ query);
       source_url := None;
       relevance_score := 6 |} ].

(** [searchNews(query)] *)
Definition searchNews (web : Web) (query : JsGlobal.Received)
  : M Run (list ResearchResult) :=
  ret (generateNewsContent web query).

Definition codeKeywords : list string :=
  [ "programming"; "development"; "code"; "software"; "web"; "app"; "api";
    "javascript"; "python"; "react"; "node"; "html"; "css"; "database" ].

(** [isCodeRelated(query)] *)
Definition isCodeRelated (query : JsGlobal.Received) : bool :=
  existsb (fun keyword => JsGlobal.lower_includes query keyword)
    codeKeywords.

(** The [try] block of [conductResearch]. *)
Definition try_block (web : Web) (query : JsGlobal.Received)
  (depth : string) : M Run unit :=
  let* duckDuckGoResults := searchDuckDuckGo web query in
  await push duckDuckGoResults then
  let* domainResults := searchSpecificDomains query depth in
  await push domainResults then
  let* wikipediaResults := searchWikipedia web query in
  await push wikipediaResults then
  await (if isCodeRelated query then
           let* githubResults := searchGitHub web query in
           push githubResults
         else ret tt) then
  let* newsResults := searchNews web query in
  push newsResults.

Definition maxResults (depth : string) : nat :=
  if String.eqb depth "basic" then 3%nat
  else if String.eqb depth "detailed" then 6%nat else 10%nat.

(** [(a, b) => b.relevance_score - a.relevance_score] *)
Definition by_score (a b : ResearchResult) : Z :=
  relevance_score b - relevance_score a.

(** [conductResearch(query, depth, sources)], started with the console
    as it is and an empty [results]. *)
Definition conductResearch (web : Web) (query : JsGlobal.Received)
  (depth : string) (sources : list string)
  : M (list ConsoleEntry) (list ResearchResult) :=
  fun console0 =>
    let '(_, s) :=
      try_catch (try_block web query depth)
        (fun error => log_error "Error in research methods:" error)
        {| run_console := console0; run_results := [] |} in
    (Returned (take (maxResults depth) (JsGlobal.sort by_score (run_results s))),
     run_console s).

(** A field of the parsed body: absent, a string, or a value of
    another type, of which its truthiness matters. *)
Inductive Field :=
| Undefined
| IsString (t : JsGlobal.Received)
| NotString (truthy : bool).

(** The fields the handler reads of the parsed body.  [sources] is
    read and never used. *)
Record Body := {
  req_query : Field;
  req_depth : Field;
  req_sources : option (list string)
}.

Record Request := {
  method : string;
  (** [await req.json()]: it rejects when the body is not JSON; [None]
      is the value [null]; any other value that is no object has none of
      the fields *)
  json : Outcome (option Body)
}.

(** [depth = 'detailed'] in the destructuring: the default is taken for
    an absent field only.  Of the depth the code asks whether it is
    ['basic'] or ['detailed']; the empty string stands for a depth that
    is no string of the model, which is neither. *)
Definition depth_of (f : Field) : string :=
  match f with
  | Undefined => "detailed"
  | IsString (JsGlobal.WellFormed s) => s
  | IsString (JsGlobal.LoneSurrogate _ _) => EmptyString
  | NotString _ => EmptyString
  end.

Inductive Payload :=
| NoPayload
| ErrorPayload (error : string) (message : option string)
| ResultsPayload (found : list ResearchResult) (query : JsGlobal.Received)
    (timestamp : string).

Record Reply := { status : Z; payload : Payload }.

(** The handler given to [serve]. *)
Definition handler (web : Web) (req : Request)
  : M (list ConsoleEntry) Reply :=
  if String.eqb (method req) "OPTIONS"
  then ret {| status := 200; payload := NoPayload |}
  else
    try_catch
      (let* parsed := settled (json req) in
       match parsed with
       | None => throw {| message := cannot_destructure_null web |}
       | Some body =>
           let depth := depth_of (req_depth body) in
           let sources := default [] (req_sources body) in
           match req_query body with
           | Undefined =>
               ret {| status := 400;
                      payload := ErrorPayload "Query is required" None |}
           | NotString truthy =>
               if negb truthy
               then ret {| status := 400;
                           payload := ErrorPayload "Query is required" None |}
               else throw {| message := trim_is_not_a_function web |}
           | IsString query =>
               if negb (JsGlobal.is_truthy query) || JsGlobal.is_blank query
               then ret {| status := 400;
                           payload := ErrorPayload "Query is required" None |}
               else
                 let* found := conductResearch web query depth sources in
                 ret {| status := 200;
                        payload :=
                          ResultsPayload found query (toISOString web) |}
           end
       end)
      (fun error =>
         await (modify (fun console0 =>
                  (console0 ++ [{| label := "Research error:";
                                   logged := error |}])%list)) then
         ret {| status := 500;
                payload :=
                  ErrorPayload "Research failed" (Some (message error)) |}).

(** The entry of [data.results] the recorder reads from the JSON text
    of a result: an absent field stays absent. *)
Definition to_raw (r : ResearchResult) : RawResult :=
  {| raw_source_url := source_url r; raw_title := title r;
     raw_content := content r; raw_summary := summary r;
     raw_relevance_score := Some (relevance_score r) |}.

(** The request [functions.invoke('research-agent', { body })] sends:
    the three fields are strings of the model. *)
Definition invoke_request (body : InvokeBody) : Request :=
  {| method := "POST";
     json :=
       Returned
         (Some {| req_query := IsString (JsGlobal.WellFormed (body_query body));
                  req_depth := IsString (JsGlobal.WellFormed (body_depth body));
                  req_sources := Some (body_sources body) |}) |}.

(** What [functions.invoke('research-agent', { body })] resolves to when
    the function is deployed and reached: the parsed text of a reply
    whose status is 2xx as [data], an error for any other status. *)
Definition invoke (web : Web) (body : InvokeBody) : Response EdgeData :=
  match fst (handler web (invoke_request body) []) with
  | Returned reply =>
      if (200 <=? status reply) && (status reply <? 300)
      then {| data :=
                Some {| results :=
                          match payload reply with
                          | ResultsPayload found _ _ =>
                              Some (map to_raw found)
                          | _ => None
                          end |};
              error := None |}
      else {| data := None;
              error :=
                Some {| pg_message :=
                          "Edge Function returned a non-2xx status code" |} |}
  | Thrown e => {| data := None; error := Some {| pg_message := message e |} |}
  end.

(** A web in which no service can be reached. *)
Definition offline : Web :=
  {| fetch_duckduckgo := fun _ =>
       Rejected {| message := "error sending request" |};
     fetch_wikipedia := fun _ =>
       Rejected {| message := "error sending request" |};
     fetch_github := fun _ =>
       Rejected {| message := "error sending request" |};
     toLocaleDateString := fun s => s;
     getFullYear := 2025;
     toISOString := "2025-06-10T00:00:00.000Z";
     cannot_destructure_null :=
       "Cannot destructure property 'query' of '(intermediate value)' as it is null.";
     trim_is_not_a_function := "query.trim is not a function" |}.

(** A web in which every service answers. *)
Definition online : Web :=
  {| fetch_duckduckgo := fun _ =>
       Parsed {| Abstract := Some "React is a library for user interfaces.";
                 Heading := Some "React";
                 AbstractURL := Some "https://en.wikipedia.org/wiki/React";
                 RelatedTopics :=
                   Some [ {| Text := Some "Vue - a framework";
                             FirstURL := Some "https://duckduckgo.com/Vue" |};
                          {| Text := None; FirstURL := None |} ] |};
     fetch_wikipedia := fun _ =>
       Parsed {| page_title := Some "React";
                 extract := Some "React is a JavaScript library.";
                 desktop_page := Some "https://en.wikipedia.org/wiki/React" |};
     fetch_github := fun _ =>
       Parsed {| items :=
                   Some [ {| full_name := "facebook/react";
                             description := Some "The library";
                             stargazers_count := 230000;
                             language := Some "JavaScript";
                             updated_at := "2025-06-01T00:00:00Z";
                             html_url := "https://github.com/facebook/react" |};
                          {| full_name := "someone/react-notes";
                             description := None;
                             stargazers_count := 12;
                             language := None;
                             updated_at := "2025-05-01T00:00:00Z";
                             html_url := "https://github.com/someone/react-notes" |} ] |};
     toLocaleDateString := fun s => s;
     getFullYear := 2025;
     toISOString := "2025-06-10T00:00:00.000Z";
     cannot_destructure_null :=
       "Cannot destructure property 'query' of '(intermediate value)' as it is null.";
     trim_is_not_a_function := "query.trim is not a function" |}.

End ResearchAgent.

(** A search returns its results and touches only the console, to which
    it adds at most one entry. *)
Definition search_ok (P : ResearchAgent.ResearchResult -> Prop)
  (c : M ResearchAgent.Run (list ResearchAgent.ResearchResult)) : Prop :=
  forall s, exists found logs,
    c s = (Returned found,
           {| ResearchAgent.run_console :=
                (ResearchAgent.run_console s ++ logs)%list;
              ResearchAgent.run_results := ResearchAgent.run_results s |}) /\
    (length logs <= 1)%nat /\ Forall P found.

(** The label of the console entry of a domain whose search threw. *)
Definition domain_label (domain : string) : string :=
  "Error searching " +:+ domain +:+ ":".


(** An environment whose edge function is the deployed one, reached
    through [web]. *)
Definition env_with_agent (fault : nat -> Call -> option PgError)
  (web : ResearchAgent.Web) : Env :=
  {| db_fault := fault;
     research_agent := fun _ body => ResearchAgent.invoke web body;
     script_output := fun _ i => i; api_response_json := fun _ i => i;
     config_json := fun _ i => i; readme_md := fun _ i => i;
     environment_setup_output := fun i => i;
     build_logs := fun _ provider _ => provider;
     date_now := fun _ => "0"; random_suffix := fun _ => "abcdefgh" |}.

(* ===================================================================== *)
(** ** The history queries of the three services

    [getResearchResults], [getExecutionHistory], [getDeploymentHistory]
    and [getExecutionOutputs] only read.  A [select] that fails resolves
    to [{ data: null }]; which of the selects of one call are answered
    is decided by [answered], indexed by their position in the call: 0
    for the requests, [S i] for the results of the [i]-th request.  Rows
    with equal sort keys are listed in the order of the table; the store
    leaves their order open. *)
(* ===================================================================== *)

Module History.

(** What a history query resolves to: [{ requests, results }], the
    object [results] keyed by request identity. *)
Record Listing (Q R : Type) := {
  requests : list Q;
  results : gmap nat (list R)
}.
Arguments requests {Q R} l.
Arguments results {Q R} l.

(** The rows of a table keyed by identity. *)
Definition rows {A} (table : gmap nat A) : list A :=
  map snd (map_to_list table).

(** [{ ascending: false }] and [{ ascending: true }] on a column. *)
Definition descending {A} (column : A -> Z) (a b : A) : Z :=
  column b - column a.

Definition ascending {A} (column : A -> Z) (a b : A) : Z :=
  column a - column b.

(** [const { data } = await from(table).select('*')...order(...)] *)
Definition select {A} (answered : bool) (table : list A) (keep : A -> bool)
  (order : A -> A -> Z) : option (list A) :=
  if answered then Some (JsGlobal.sort order (List.filter keep table))
  else None.

(** [for (const request of requests) { const { data: requestResults } =
    await ...; if (requestResults) results[request.id] = requestResults }] *)
Definition collect {Q R} (id : Q -> nat)
  (select_results : nat -> Q -> option (list R)) (listed : list Q)
  : gmap nat (list R) :=
  foldl (fun found entry =>
           match select_results (fst entry) (snd entry) with
           | Some requestResults => <[id (snd entry) := requestResults]> found
           | None => found
           end)
    ∅ (imap pair listed).

(** [getResearchResults(planId)] *)
Definition getResearchResults (answered : nat -> bool) (planId : string)
  (db : Db) : Listing ResearchRequest ResearchResult :=
  match select (answered 0%nat) (rows (research_requests db))
          (fun r => String.eqb (rq_plan_id r) planId)
          (descending (fun r => Z.of_nat (rq_created_at r))) with
  | None => {| requests := []; results := ∅ |}
  | Some listed =>
      {| requests := listed;
         results :=
           collect rq_id
             (fun i request =>
                select (answered (S i)) (research_results db)
                  (fun r => Nat.eqb (rr_request_id r) (rq_id request))
                  (descending rr_relevance_score))
             listed |}
  end.

(** [getExecutionHistory(planId)] *)
Definition getExecutionHistory (answered : nat -> bool) (planId : string)
  (db : Db) : Listing ExecutionRequest ExecutionResult :=
  match select (answered 0%nat) (rows (execution_requests db))
          (fun r => String.eqb (xq_plan_id r) planId)
          (descending (fun r => Z.of_nat (xq_created_at r))) with
  | None => {| requests := []; results := ∅ |}
  | Some listed =>
      {| requests := listed;
         results :=
           collect xq_id
             (fun i request =>
                select (answered (S i)) (execution_results db)
                  (fun r => Nat.eqb (xr_request_id r) (xq_id request))
                  (ascending (fun r => Z.of_nat (xr_created_at r))))
             listed |}
  end.

(** [getDeploymentHistory(planId)] *)
Definition getDeploymentHistory (answered : nat -> bool) (planId : string)
  (db : Db) : Listing DeploymentRequest DeploymentResult :=
  match select (answered 0%nat) (rows (deployment_requests db))
          (fun r => String.eqb (dq_plan_id r) planId)
          (descending (fun r => Z.of_nat (dq_created_at r))) with
  | None => {| requests := []; results := ∅ |}
  | Some listed =>
      {| requests := listed;
         results :=
           collect dq_id
             (fun i request =>
                select (answered (S i)) (deployment_results db)
                  (fun r => Nat.eqb (dr_request_id r) (dq_id request))
                  (ascending (fun r => Z.of_nat (dr_created_at r))))
             listed |}
  end.

(** [status === 'completed'] *)
Definition is_completed (st : RequestStatus) : bool :=
  match st with completed => true | _ => false end.

(** [getExecutionOutputs(planId)] *)
Definition getExecutionOutputs (answered : nat -> bool) (planId : string)
  (db : Db) : Listing ExecutionRequest ExecutionResult :=
  match select (answered 0%nat) (rows (execution_requests db))
          (fun r =>
             String.eqb (xq_plan_id r) planId
             && existsb (String.eqb (xq_execution_type r))
                  ["code_generation"; "file_creation"]
             && is_completed (xq_status r))
          (descending (fun r => Z.of_nat (xq_created_at r))) with
  | None => {| requests := []; results := ∅ |}
  | Some listed =>
      {| requests := listed;
         results :=
           collect xq_id
             (fun i request =>
                select (answered (S i)) (execution_results db)
                  (fun r => Nat.eqb (xr_request_id r) (xq_id request)
                            && xr_success r)
                  (ascending (fun r => Z.of_nat (xr_created_at r))))
             listed |}
  end.

(** Every select is answered. *)
Definition all_answered : nat -> bool := fun _ => true.

End History.

(* ===================================================================== *)
(** ** [App.tsx]: saving a generated plan

    The component writes three tables through the Supabase client.  A
    call on the client never rejects; whether it is refused, and the
    identities and timestamps the store hands out, are decided by the
    environment [Backend].  An insert returns its rows in the order they
    were sent. *)
(* ===================================================================== *)

Module App.

(** The signed-in user of [useSupabaseAuth]. *)
Record User := { user_id : string }.

(** [UserGoal] *)
Record UserGoal := {
  goal_id : string;
  goal_user_id : string;
  goal_title : string;
  goal_description : option string;
  goal_status : string;
  goal_created_at : nat
}.

(** [SubTask] *)
Record SubTask := {
  sub_id : string;
  sub_plan_id : string;
  sub_title : string;
  sub_description : option string;
  sub_sequence_order : Z;
  sub_completed : bool;
  sub_created_at : string
}.

(** The tables, in insertion order, the number of calls answered and the
    number of identities handed out. *)
Record Store := {
  served : nat;
  issued : nat;
  user_goals : list UserGoal;
  task_plans : list TaskPlan;
  sub_tasks : list SubTask
}.

Record Backend := {
  (** the error of the call with this number, when it is refused *)
  refuses : nat -> option PgError;
  (** the identity handed out with this number *)
  uuid : nat -> string;
  (** [now()] at the call with this number *)
  now : nat -> string
}.

(** The state of the component ([useState]). *)
Record State := {
  showAuthModal : bool;
  currentGoal : option UserGoal;
  plans : list TaskPlan;
  subTasks : gmap string (list SubTask);
  isGenerating : bool;
  savedGoals : list UserGoal;
  appError : option string
}.

Record World := {
  state : State;
  store : Store;
  app_console : list ConsoleEntry
}.

Definition initial_state : State :=
  {| showAuthModal := false; currentGoal := None; plans := [];
     subTasks := ∅; isGenerating := false; savedGoals := [];
     appError := None |}.

Definition empty_store : Store :=
  {| served := 0; issued := 0; user_goals := []; task_plans := [];
     sub_tasks := [] |}.

Definition set_state (f : State -> State) : M World unit :=
  modify (fun w =>
    {| state := f (state w); store := store w;
       app_console := app_console w |}).

Definition setShowAuthModal (v : bool) :=
  set_state (fun s =>
    {| showAuthModal := v; currentGoal := currentGoal s; plans := plans s;
       subTasks := subTasks s; isGenerating := isGenerating s;
       savedGoals := savedGoals s; appError := appError s |}).

Definition setCurrentGoal (v : option UserGoal) :=
  set_state (fun s =>
    {| showAuthModal := showAuthModal s; currentGoal := v; plans := plans s;
       subTasks := subTasks s; isGenerating := isGenerating s;
       savedGoals := savedGoals s; appError := appError s |}).

Definition setPlans (v : list TaskPlan) :=
  set_state (fun s =>
    {| showAuthModal := showAuthModal s; currentGoal := currentGoal s;
       plans := v; subTasks := subTasks s; isGenerating := isGenerating s;
       savedGoals := savedGoals s; appError := appError s |}).

Definition setSubTasks (v : gmap string (list SubTask)) :=
  set_state (fun s =>
    {| showAuthModal := showAuthModal s; currentGoal := currentGoal s;
       plans := plans s; subTasks := v; isGenerating := isGenerating s;
       savedGoals := savedGoals s; appError := appError s |}).

Definition setIsGenerating (v : bool) :=
  set_state (fun s =>
    {| showAuthModal := showAuthModal s; currentGoal := currentGoal s;
       plans := plans s; subTasks := subTasks s; isGenerating := v;
       savedGoals := savedGoals s; appError := appError s |}).

Definition setSavedGoals (v : list UserGoal) :=
  set_state (fun s =>
    {| showAuthModal := showAuthModal s; currentGoal := currentGoal s;
       plans := plans s; subTasks := subTasks s;
       isGenerating := isGenerating s; savedGoals := v;
       appError := appError s |}).

Definition setAppError (v : option string) :=
  set_state (fun s =>
    {| showAuthModal := showAuthModal s; currentGoal := currentGoal s;
       plans := plans s; subTasks := subTasks s;
       isGenerating := isGenerating s; savedGoals := savedGoals s;
       appError := v |}).

(** [console.error(label, error)] *)
Definition log_error (l : string) (e : JsError) : M World unit :=
  modify (fun w =>
    {| state := state w; store := store w;
       app_console := app_console w ++ [{| label := l; logged := e |}] |}).

(** One call on the client: the counter advances; a refused call
    resolves to [{ data: null, error }] and leaves the tables as they
    are, otherwise [act] is applied and its value becomes [data]. *)
Definition client_call {A} (backend : Backend)
  (act : nat -> Store -> A * Store) : M World (Response A) :=
  fun w =>
    let n := served (store w) in
    let counted (s : Store) :=
      {| served := S (served s); issued := issued s;
         user_goals := user_goals s; task_plans := task_plans s;
         sub_tasks := sub_tasks s |} in
    match refuses backend n with
    | Some e =>
        (Returned {| data := None; error := Some e |},
         {| state := state w; store := counted (store w);
            app_console := app_console w |})
    | None =>
        let '(a, s) := act n (store w) in
        (Returned {| data := Some a; error := None |},
         {| state := state w; store := counted s;
            app_console := app_console w |})
    end.

(** [from('user_goals').insert({ user_id, title, description, status })
      .select().single()] *)
Definition insert_goal (backend : Backend) (userId title description
  status : string) : M World (Response UserGoal) :=
  client_call backend (fun n s =>
    let row := {| goal_id := uuid backend (issued s);
                  goal_user_id := userId; goal_title := title;
                  goal_description := Some description;
                  goal_status := status; goal_created_at := n |} in
    (row, {| served := served s; issued := S (issued s);
             user_goals := user_goals s ++ [row];
             task_plans := task_plans s; sub_tasks := sub_tasks s |})).

(** The row the store makes of [{ ...plan, goal_id }]. *)
Definition plan_row (backend : Backend) (n first : nat) (i : nat)
  (entry : Planning.TaskPlanDraft * string) : TaskPlan :=
  {| plan_id := uuid backend (first + i);
     plan_goal_id := snd entry;
     plan_title := Planning.title (fst entry);
     plan_description := Planning.description (fst entry);
     plan_sequence_order := Planning.sequence_order (fst entry);
     plan_estimated_duration := Planning.estimated_duration (fst entry);
     plan_priority := Planning.priority (fst entry);
     plan_status := Planning.status (fst entry);
     plan_created_at := now backend n |}.

(** [from('task_plans').insert(plansToInsert).select()] *)
Definition insert_plans (backend : Backend)
  (plansToInsert : list (Planning.TaskPlanDraft * string))
  : M World (Response (list TaskPlan)) :=
  client_call backend (fun n s =>
    let saved := imap (plan_row backend n (issued s)) plansToInsert in
    (saved, {| served := served s;
               issued := issued s + length plansToInsert;
               user_goals := user_goals s;
               task_plans := task_plans s ++ saved;
               sub_tasks := sub_tasks s |})).

(** The row the store makes of [{ ...subTask, plan_id }]. *)
Definition sub_task_row (backend : Backend) (n first : nat) (i : nat)
  (entry : SubTasks.SubTaskDraft * string) : SubTask :=
  {| sub_id := uuid backend (first + i);
     sub_plan_id := snd entry;
     sub_title := SubTasks.title (fst entry);
     sub_description := SubTasks.description (fst entry);
     sub_sequence_order := SubTasks.sequence_order (fst entry);
     sub_completed := SubTasks.completed (fst entry);
     sub_created_at := now backend n |}.

(** [from('sub_tasks').insert(allSubTasks).select()] *)
Definition insert_sub_tasks (backend : Backend)
  (allSubTasks : list (SubTasks.SubTaskDraft * string))
  : M World (Response (list SubTask)) :=
  client_call backend (fun n s =>
    let saved := imap (sub_task_row backend n (issued s)) allSubTasks in
    (saved, {| served := served s;
               issued := issued s + length allSubTasks;
               user_goals := user_goals s;
               task_plans := task_plans s;
               sub_tasks := sub_tasks s ++ saved |})).

(** [from('user_goals').select('*').eq('user_id', id)
      .order('created_at', { ascending: false })] *)
Definition select_goals (backend : Backend) (userId : string)
  : M World (Response (list UserGoal)) :=
  client_call backend (fun _ s =>
    (JsGlobal.sort
       (History.descending (fun g => Z.of_nat (goal_created_at g)))
       (List.filter (fun g => String.eqb (goal_user_id g) userId)
          (user_goals s)),
     s)).

(** [error?.message || 'Unknown error'] *)
Definition message_or_unknown (e : option PgError) : string :=
  match e with
  | Some e => if Js.truthy (pg_message e) then pg_message e
              else "Unknown error"
  | None => "Unknown error"
  end.

(** [loadSavedGoals()] *)
Definition loadSavedGoals (backend : Backend) (user : option User)
  : M World unit :=
  match user with
  | None => ret tt
  | Some user =>
      try_catch
        (let* answer := select_goals backend (user_id user) in
         match error answer with
         | Some error =>
             await log_error "Error loading goals:"
                     {| message := pg_message error |} then
             setAppError (Some ("Database error: " +:+ pg_message error))
         | None =>
             match data answer with
             | Some goals => setSavedGoals goals
             | None => ret tt
             end
         end)
        (fun error =>
           await log_error "Error in loadSavedGoals:" error then
           setAppError (Some ("Failed to load goals: " +:+ message error)))
  end.

(** [savedPlans.forEach((plan, planIndex) => { ... allSubTasks.push({
    ...subTask, plan_id: plan.id }) })] *)
Definition allSubTasks (savedPlans : list TaskPlan)
  (generatedSubTasks : gmap nat (list SubTasks.SubTaskDraft))
  : list (SubTasks.SubTaskDraft * string) :=
  List.concat
    (imap (fun planIndex plan =>
             let planSubTasks :=
               default [] (generatedSubTasks !! planIndex) in
             map (fun subTask => (subTask, plan_id plan)) planSubTasks)
       savedPlans).

(** [savedSubTasks?.forEach(subTask => { if (!subTasksByPlan[
    subTask.plan_id]) subTasksByPlan[subTask.plan_id] = [];
    subTasksByPlan[subTask.plan_id].push(subTask) })] *)
Definition subTasksByPlan (savedSubTasks : option (list SubTask))
  : gmap string (list SubTask) :=
  foldl (fun byPlan subTask =>
           <[sub_plan_id subTask :=
               (default [] (byPlan !! sub_plan_id subTask) ++ [subTask])%list]>
             byPlan)
    ∅ (default [] savedSubTasks).

(** The [try] block of [handleGoalSubmit]; it ends with the call of
    [loadSavedGoals()], which is not awaited: the part of it behind its
    [await] runs when the handler is through. *)
Definition try_block (backend : Backend) (user : User) (goalText : string)
  : M World unit :=
  let '(generatedPlans, generatedSubTasks) :=
    SubTasks.generateTaskPlan goalText in
  let* savedGoalAnswer :=
    insert_goal backend (user_id user) goalText
      ("Generated plan for: " +:+ goalText) "planning" in
  match error savedGoalAnswer, data savedGoalAnswer with
  | None, Some savedGoal =>
      let plansToInsert :=
        map (fun plan => (plan, goal_id savedGoal)) generatedPlans in
      let* savedPlansAnswer := insert_plans backend plansToInsert in
      match error savedPlansAnswer, data savedPlansAnswer with
      | None, Some savedPlans =>
          let all := allSubTasks savedPlans generatedSubTasks in
          await (if (0 <? Z.of_nat (length all))
                 then
                   let* savedSubTasksAnswer :=
                     insert_sub_tasks backend all in
                   await (match error savedSubTasksAnswer with
                          | Some subTasksError =>
                              log_error "Error saving sub-tasks:"
                                {| message := pg_message subTasksError |}
                          | None => ret tt
                          end) then
                   setSubTasks (subTasksByPlan (data savedSubTasksAnswer))
                 else ret tt) then
          await setCurrentGoal (Some savedGoal) then
          setPlans savedPlans
      | plansError, _ =>
          throw {| message := "Failed to save plans: "
                              +:+ message_or_unknown plansError |}
      end
  | goalError, _ =>
      throw {| message := "Failed to save goal: "
                          +:+ message_or_unknown goalError |}
  end.

(** [handleGoalSubmit(goalText)], followed, when the [try] block came to
    its end, by the rest of the [loadSavedGoals()] it started. *)
Definition handleGoalSubmit (backend : Backend) (user : option User)
  (goalText : string) : M World unit :=
  match user with
  | None => setShowAuthModal true
  | Some signedIn =>
      await setIsGenerating true then
      await setAppError None then
      fun w =>
        let '(tried, w1) := try_block backend signedIn goalText w in
        let '(_, w2) :=
          match tried with
          | Returned _ => (Returned tt, w1)
          | Thrown error =>
              (await log_error "Error generating plan:" error then
               setAppError
                 (Some ("Failed to generate plan: " +:+ message error))) w1
          end in
        let '(_, w3) := setIsGenerating false w2 in
        match tried with
        | Returned _ => loadSavedGoals backend user w3
        | Thrown _ => (Returned tt, w3)
        end
  end.

(** The draft a stored sub-task was made of. *)
Definition sub_task_draft (t : SubTask) : SubTasks.SubTaskDraft :=
  {| SubTasks.title := sub_title t;
     SubTasks.description := sub_description t;
     SubTasks.sequence_order := sub_sequence_order t;
     SubTasks.completed := sub_completed t |}.

(** The draft a stored plan was made of. *)
Definition plan_draft (p : TaskPlan) : Planning.TaskPlanDraft :=
  {| Planning.title := plan_title p;
     Planning.description := plan_description p;
     Planning.sequence_order := plan_sequence_order p;
     Planning.estimated_duration := plan_estimated_duration p;
     Planning.priority := plan_priority p;
     Planning.status := plan_status p |}.

(** The checklists of the saved plans, plan after plan, each sub-task
    with the identity of its plan. *)
Definition checklist_entries (savedPlans : list TaskPlan)
  : list (SubTasks.SubTaskDraft * string) :=
  List.concat
    (map (fun p => map (fun d => (d, plan_id p))
                     (SubTasks.subTasksFor (plan_draft p)))
       savedPlans).

(** A stored sub-task as the pair it was sent as. *)
Definition sub_task_entry (t : SubTask) : SubTasks.SubTaskDraft * string :=
  (sub_task_draft t, sub_plan_id t).

(** Where a handler starts. *)
Definition start (s : Store) : World :=
  {| state := initial_state; store := s; app_console := [] |}.

(** A backend that refuses nothing and numbers its identities. *)
Definition willing : Backend :=
  {| refuses := fun _ => None;
     uuid := fun n => pretty n;
     now := fun _ => "2025-06-10T00:00:00Z" |}.

(** A backend that refuses the call numbered [n]. *)
Definition refusing (n : nat) : Backend :=
  {| refuses := fun m =>
       if Nat.eqb m n then Some {| pg_message := "permission denied" |}
       else None;
     uuid := fun n => pretty n;
     now := fun _ => "2025-06-10T00:00:00Z" |}.

End App.
(* ===================================================================== *)
(** * Properties *)
(* ===================================================================== *)

(** ** Proof automation *)

(** Reduce the projections and setters of the store, nothing else. *)
Ltac store_cbn :=
  cbn [clock journal next_id timer_ms console research_requests
       research_results execution_requests execution_results
       deployment_requests deployment_results tick take_ids
       set_research_requests set_research_results set_execution_requests
       set_execution_results set_deployment_requests set_deployment_results
       fst snd data error rq_id xq_id dq_id].

(** Case analysis on the answer of the store to one call. *)
Ltac case_ok :=
  match goal with
  | |- context [if ok ?e ?n ?c then _ else _] => destruct (ok e n c)
  end.

(** The three writes that follow [performExecution]. *)
Ltac finish_execution env db :=
  unfold Execution.insert_results, Execution.insert_error_row,
    Execution.update_status, client_call, ret, throw;
  store_cbn;
  destruct (db_fault env (S (clock db)) _); store_cbn;
  destruct (db_fault env (S (S (clock db))) _); store_cbn;
  try destruct (db_fault env (S (S (S (clock db)))) _); store_cbn;
  rewrite <- ?app_assoc; repeat split; reflexivity.

(** The three writes that follow [performDeployment]. *)
Ltac finish_deployment env db :=
  unfold Deployment.insert_result, Deployment.update_status, client_call,
    ret, throw;
  store_cbn;
  destruct (db_fault env (S (clock db)) _); store_cbn;
  destruct (db_fault env (S (S (clock db))) _); store_cbn;
  try destruct (db_fault env (S (S (S (clock db)))) _); store_cbn;
  cbn [Deployment.success];
  rewrite <- ?app_assoc, ?app_nil_r; repeat split; try reflexivity;
  eexists; split; reflexivity.


(** ** Plan-template selection *)

Section PlanTemplates.

Import Planning.

(** The if-chain of the source scans the keyword table top-down. *)
Lemma analyze_selected (goal : string) :
  analyzeGoalAndCreatePlans goal =
  match selected goal with
  | Some g => template g
  | None => generic_plans
  end.
Proof.
  unfold analyzeGoalAndCreatePlans, selected, matches.
  cbn [find existsb keywords].
  repeat match goal with
         | |- context [Js.includes ?a ?b] =>
             generalize (Js.includes a b); intros [|]; cbn [orb template];
             try reflexivity
         end.
Qed.

Lemma selected_matches (goal : string) (g : Group) :
  selected goal = Some g -> matches g goal = true.
Proof.
  unfold selected. intros H. apply find_some in H. tauto.
Qed.

Lemma selected_first (goal : string) (g h : Group) :
  selected goal = Some g -> matches h goal = true -> (rank g <= rank h)%nat.
Proof.
  unfold selected. cbn [find].
  destruct (matches Business goal) eqn:B;
    [intros [= <-] _; destruct h; cbn; lia|].
  destruct (matches Learn goal) eqn:L;
    [intros [= <-] Hh; destruct h; cbn; try lia;
     rewrite ?B in Hh; discriminate|].
  destruct (matches Travel goal) eqn:T;
    [intros [= <-] Hh; destruct h; cbn; try lia;
     rewrite ?B, ?L in Hh; discriminate|].
  destruct (matches Event goal) eqn:Ev;
    [intros [= <-] Hh; destruct h; cbn; try lia;
     rewrite ?B, ?L, ?T in Hh; discriminate|].
  discriminate.
Qed.

Lemma selected_some (goal : string) (g : Group) :
  matches g goal = true -> exists g', selected goal = Some g'.
Proof.
  intros Hg. destruct (selected goal) eqn:S; [eauto|].
  unfold selected in S.
  pose proof (find_none _ _ S g) as N. cbn beta in N.
  rewrite N in Hg; [discriminate|]. destruct g; cbn; tauto.
Qed.

(** C3, as the source has it: every goal gets a non-empty template; the
    business, learn, event and generic templates have five steps, the
    travel template has four. *)
Theorem analyzeGoalAndCreatePlans_length (goal : string) :
  analyzeGoalAndCreatePlans goal <> [] /\
  length (analyzeGoalAndCreatePlans goal) =
    match selected goal with
    | Some Travel => 4%nat
    | _ => 5%nat
    end.
Proof.
  rewrite analyze_selected.
  destruct (selected goal) as [[]|]; split; solve [discriminate | reflexivity].
Qed.

(** Counterexample to C3 as stated: a travel goal gets four steps, not
    five. *)
Lemma travel_template_has_four_steps :
  length (analyzeGoalAndCreatePlans "Plan a vacation to Japan") <> 5%nat.
Proof. vm_compute. discriminate. Qed.

(** C4: when the lower-cased goal contains keywords of two (or more)
    groups, the template returned is that of the matching group tested
    first in the order business, learn, travel, event; "learn to travel"
    gets the learn template, which differs from the travel template. *)
Theorem keyword_precedence (goal : string) (g1 g2 : Group) :
  g1 <> g2 ->
  matches g1 goal = true ->
  matches g2 goal = true ->
  (exists g,
      matches g goal = true /\
      (forall h, matches h goal = true -> (rank g <= rank h)%nat) /\
      analyzeGoalAndCreatePlans goal = template g) /\
  analyzeGoalAndCreatePlans "learn to travel" = learning_plans /\
  learning_plans <> travel_plans.
Proof.
  intros _ H1 _. split; [|split; [reflexivity|discriminate]].
  destruct (selected_some goal g1 H1) as [g Hg].
  exists g. split; [eauto using selected_matches|].
  split; [eauto using selected_first|].
  rewrite analyze_selected, Hg. reflexivity.
Qed.

(** The goal "learn to travel" matches the learn and the travel group. *)
Lemma keyword_precedence_witness :
  (exists g,
      matches g "learn to travel" = true /\
      (forall h, matches h "learn to travel" = true -> (rank g <= rank h)%nat) /\
      analyzeGoalAndCreatePlans "learn to travel" = template g) /\
  analyzeGoalAndCreatePlans "learn to travel" = learning_plans /\
  learning_plans <> travel_plans.
Proof.
  apply (keyword_precedence "learn to travel" Learn Travel).
  - discriminate.
  - reflexivity.
  - reflexivity.
Defined.

End PlanTemplates.

(** ** The deployment slug *)

Section Slug.

Import PlanVisualization.

Lemma take_length_all (s : string) (n : nat) :
  Js.take (Nat.min n (String.length s)) s = Js.take n s.
Proof.
  revert n. induction s as [|c s IH]; intros [|n]; cbn; try reflexivity.
  f_equal. apply IH.
Qed.

Lemma substring_from_start (s : string) (n : nat) :
  Js.substring s 0 n = Js.take n s.
Proof.
  unfold Js.substring. cbn [Nat.min].
  rewrite Nat.max_0_l, Nat.sub_0_r. cbn [Js.drop].
  apply take_length_all.
Qed.

Lemma take_firstn (s : string) (n : nat) :
  Js.take n s = string_of_list_ascii (firstn n (list_ascii_of_string s)).
Proof.
  revert n. induction s as [|c s IH]; intros [|n]; cbn; try reflexivity.
  f_equal. apply IH.
Qed.

Lemma replace_lower_map (s : string) :
  list_ascii_of_string (Js.replace_non_alnum (Js.toLowerCase s)) =
  map slug_char (list_ascii_of_string s).
Proof.
  induction s as [|c s IH]; cbn; [reflexivity|].
  rewrite IH. reflexivity.
Qed.

Lemma length_string_of_list (l : list ascii) :
  String.length (string_of_list_ascii l) = length l.
Proof. induction l; cbn; congruence. Qed.

Lemma length_list_of_string (s : string) :
  length (list_ascii_of_string s) = String.length s.
Proof. induction s; cbn; congruence. Qed.

(** C8: the slug of a plan title is the title lower-cased, with every
    character outside [[a-z0-9]] replaced by a dash, cut to its first 30
    characters; it is what the configuration of each provider carries,
    and "Market Research & Validation!!" gives
    "market-research---validation--". *)
Theorem planSlug_by_words (planTitle : string) :
  planSlug planTitle = slug_by_words planTitle /\
  String.length (planSlug planTitle) = Nat.min 30 (String.length planTitle) /\
  (forall plan : TaskPlan,
      generateAutoDeploymentConfig plan "netlify_static" !! "subdomain"
        = Some (planSlug (plan_title plan)) /\
      generateAutoDeploymentConfig plan "vercel_static" !! "projectName"
        = Some (planSlug (plan_title plan)) /\
      generateAutoDeploymentConfig plan "github_pages" !! "repository"
        = Some (planSlug (plan_title plan))) /\
  planSlug "Market Research & Validation!!" = "market-research---validation--".
Proof.
  assert (E : planSlug planTitle = slug_by_words planTitle).
  { unfold planSlug, slug_by_words.
    rewrite substring_from_start, take_firstn, replace_lower_map.
    reflexivity. }
  split; [exact E|]. split.
  - rewrite E. unfold slug_by_words.
    rewrite length_string_of_list, length_firstn, length_map.
    rewrite length_list_of_string. reflexivity.
  - split; [|reflexivity].
    intros plan. split; [|split].
    + change (generateAutoDeploymentConfig plan "netlify_static")
        with (<["subdomain" := planSlug (plan_title plan)]>
                ({["buildCommand" := "npm run build"]} : gmap string string)).
      apply lookup_insert_eq.
    + change (generateAutoDeploymentConfig plan "vercel_static")
        with (<["projectName" := planSlug (plan_title plan)]>
                ({["framework" := "react"]} : gmap string string)).
      apply lookup_insert_eq.
    + change (generateAutoDeploymentConfig plan "github_pages")
        with (<["username" := "auto-user"]>
                ({["repository" := planSlug (plan_title plan)]}
                   : gmap string string)).
      rewrite lookup_insert_ne by discriminate.
      apply lookup_singleton_eq.
Qed.

End Slug.

(** ** The auto-start runner *)

Section Runner.

Import PlanVisualization.

Context {W R E D : Type}.
Variable conductResearch : string -> string -> M W R.
Variable executeTask : string -> string -> string -> M W E.
Variable deployProject : string -> string -> gmap string string -> M W D.
Variable plans : list TaskPlan.
Variable render : UiState.

Lemma keeps_console_ret {A} (a : A) : keeps_console (W := W) (ret a).
Proof. intros r. reflexivity. Qed.

Lemma keeps_console_bind {A B} (c : M (Runner W) A) (k : A -> M (Runner W) B) :
  keeps_console c -> (forall a, keeps_console (k a)) ->
  keeps_console (bind c k).
Proof.
  intros Hc Hk r. unfold bind. specialize (Hc r).
  destruct (c r) as [[a|e] r1]; cbn in *; [|assumption].
  rewrite Hk. assumption.
Qed.

Lemma keeps_console_set_ui (f : UiState -> UiState) :
  keeps_console (set_ui (W := W) f).
Proof. intros r. reflexivity. Qed.

Lemma keeps_console_delay (ms : Z) : keeps_console (delay (W := W) ms).
Proof. intros r. reflexivity. Qed.

Lemma keeps_console_call {A} (c : M W A) : keeps_console (call c).
Proof. intros r. unfold call. destruct (c (world r)). reflexivity. Qed.

Lemma keeps_console_if {A} (b : bool) (c1 c2 : M (Runner W) A) :
  keeps_console c1 -> keeps_console c2 ->
  keeps_console (if b then c1 else c2).
Proof. destruct b; auto. Qed.

Lemma run_plan_keeps_console preferences plan is_last :
  keeps_console
    (run_plan conductResearch executeTask deployProject preferences plan
       is_last).
Proof.
  unfold run_plan, setCurrentAutoPhase, addCompletedAutoTask.
  repeat first
    [ apply keeps_console_bind; [|intros ?]
    | apply keeps_console_if
    | apply keeps_console_ret
    | apply keeps_console_set_ui
    | apply keeps_console_delay
    | apply keeps_console_call ].
Qed.

(** The loop always runs to its end; what it adds to the console is one
    entry for some of the plans it visited. *)
Lemma for_plans_returns preferences (rest : list TaskPlan) (r : Runner W) :
  exists r' failures,
    for_plans conductResearch executeTask deployProject render preferences
      rest r = (Returned tt, r') /\
    runner_console r' = (runner_console r ++ failures)%list /\
    Forall (fun entry =>
              exists plan, In plan rest /\ label entry = failure_label plan)
           failures.
Proof.
  revert r. induction rest as [|plan rest IH]; intros r.
  - exists r, []. cbn. rewrite app_nil_r. auto.
  - cbn [for_plans]. destruct (negb (isAutoRunning render)).
    { exists r, []. cbn. rewrite app_nil_r. auto. }
    unfold bind at 1. cbn [setCurrentAutoTask set_ui modify].
    unfold bind at 1. unfold try_catch.
    match goal with
    | |- context [run_plan _ _ _ _ _ ?l ?s] =>
        pose proof (run_plan_keeps_console preferences plan l s) as K;
        destruct (run_plan conductResearch executeTask deployProject
                    preferences plan l s) as [[[]|e] r1]
    end; cbn in K; cbn beta iota zeta.
    + destruct (IH r1) as (r' & fs & Hrun & Hcon & Hall).
      exists r', fs. split; [exact Hrun|]. split.
      * rewrite Hcon, K. reflexivity.
      * eapply Forall_impl; [exact Hall|].
        intros entry (p & Hp & Hl). exists p. split; [right|]; assumption.
    + cbn [log_error modify].
      match goal with
      | |- context [for_plans _ _ _ _ _ rest ?s] =>
          destruct (IH s) as (r' & fs & Hrun & Hcon & Hall)
      end.
      exists r', ({| label := failure_label plan; logged := e |} :: fs).
      split; [exact Hrun|]. split.
      * rewrite Hcon. cbn. rewrite K, <- app_assoc. reflexivity.
      * constructor.
        -- exists plan. split; [left|]; reflexivity.
        -- eapply Forall_impl; [exact Hall|].
           intros entry (p & Hp & Hl). exists p. split; [right|]; assumption.
Qed.

(** When the render that owns the handler has [isAutoRunning] false, the
    loop leaves at its first test. *)
Lemma for_plans_stale preferences (rest : list TaskPlan) (r : Runner W) :
  isAutoRunning render = false ->
  for_plans conductResearch executeTask deployProject render preferences
    rest r = (Returned tt, r).
Proof. intros H. destruct rest; cbn; [|rewrite H]; reflexivity. Qed.

Lemma handleAutoStartAll_stale preferences (r : Runner W) :
  isAutoRunning render = false ->
  world (snd (handleAutoStartAll conductResearch executeTask deployProject
                plans render preferences r)) = world r.
Proof.
  intros H. unfold handleAutoStartAll.
  unfold bind at 1. cbn [setAutoPreferences set_ui modify].
  unfold bind at 1. cbn [setIsAutoRunning set_ui modify].
  unfold bind at 1. cbn [setStartedTasks set_ui modify].
  unfold bind at 1. cbn [setExpandedPlans set_ui modify].
  unfold bind at 1. rewrite for_plans_stale by assumption.
  reflexivity.
Qed.

End Runner.

(** ** The runner against the test double *)

Section RunnerOrder.

Import PlanVisualization.

Variable raises : Double.Invocation -> bool.
Variable render : UiState.
Variable preferences : AutoStartPreferences.

Hypothesis running : isAutoRunning render = true.
Hypothesis never_raises : forall i, raises i = false.
Hypothesis with_research : enableResearch preferences = true.
Hypothesis with_execution : enableExecution preferences = true.
Hypothesis with_deployment : enableDeployment preferences = true.

Lemma for_plans_step_major (rest : list TaskPlan)
  (r : Runner (list Double.Invocation)) :
  world (snd (for_plans (Double.conductResearch raises)
                (Double.executeTask raises) (Double.deployProject raises)
                render preferences rest r))
  = (world r ++ Double.step_major rest)%list.
Proof.
  revert r. induction rest as [|plan rest IH]; intros r.
  - cbn. rewrite app_nil_r. reflexivity.
  - cbn [for_plans]. rewrite running. cbn [negb].
    unfold bind at 1. cbn [setCurrentAutoTask set_ui modify].
    unfold bind at 1. unfold try_catch, run_plan.
    rewrite with_research, with_execution, with_deployment.
    unfold Double.conductResearch, Double.executeTask, Double.deployProject,
      Double.recorder, call, bind.
    rewrite !never_raises.
    cbn [setCurrentAutoPhase addCompletedAutoTask set_ui modify delay ret
         world ui runner_console waited_ms fst snd].
    destruct (pauseBetweenTasks preferences &&
              negb match rest with [] => true | _ :: _ => false end);
      cbn [delay modify ret]; rewrite IH; cbn [world Double.step_major flat_map];
      rewrite <- !app_assoc; reflexivity.
Qed.

(** Had the loop been entered, three enabled phases and recorders that
    never raise would give the step-major, phase-minor order. *)
Lemma handleAutoStartAll_step_major (plans : list TaskPlan)
  (r : Runner (list Double.Invocation)) :
  world (snd (handleAutoStartAll (Double.conductResearch raises)
                (Double.executeTask raises) (Double.deployProject raises)
                plans render preferences r))
  = (world r ++ Double.step_major plans)%list.
Proof.
  unfold handleAutoStartAll.
  unfold bind at 1. cbn [setAutoPreferences set_ui modify].
  unfold bind at 1. cbn [setIsAutoRunning set_ui modify].
  unfold bind at 1. cbn [setStartedTasks set_ui modify].
  unfold bind at 1. cbn [setExpandedPlans set_ui modify].
  unfold bind at 1.
  match goal with
  | |- context [for_plans ?a ?b ?c ?d ?e ?f ?s] =>
      pose proof (for_plans_step_major f s) as Hw;
      destruct (for_plans a b c d e f s) as [[[]|err] r1]
  end; cbn in Hw |- *; exact Hw.
Qed.

End RunnerOrder.

(** C1, the run the component can make: the handler belongs to a render
    whose [isAutoRunning] is false (the component's first render, and the
    only one that shows the start button), so with two plans and all three
    phases enabled the test double logs no invocation, where step-major
    order has six; with the real recorders the store receives no call. *)
Theorem handleAutoStartAll_from_idle_invokes_nothing :
  let never : Double.Invocation -> bool := fun _ => false in
  let env := Scenario.env_of Scenario.no_fault Scenario.edge_up in
  PlanVisualization.world (snd (PlanVisualization.handleAutoStartAll
                (Double.conductResearch never) (Double.executeTask never)
                (Double.deployProject never)
                Scenario.two_plans initial_ui Scenario.all_phases
                (PlanVisualization.start initial_ui []))) = [] /\
  length (Double.step_major Scenario.two_plans) = 6%nat /\
  journal (PlanVisualization.world (snd (PlanVisualization.handleAutoStartAll
                (fun planId query =>
                   Research.conductResearch env planId query "detailed")
                (Execution.executeTask env)
                (fun planId ty config =>
                   Deployment.deployProject env planId ty config None)
                Scenario.two_plans initial_ui Scenario.all_phases
                (PlanVisualization.start initial_ui empty_db)))) = [].
Proof.
  cbv zeta. split; [|split].
  - apply handleAutoStartAll_stale. reflexivity.
  - reflexivity.
  - rewrite handleAutoStartAll_stale by reflexivity. reflexivity.
Qed.

(** ** The recorders, path by path *)

Section ResearchRecorder.

Variable env : Env.

Lemma stored_rows_draft (now : nat) (rows : list (nat * Research.ResearchResultDraft)) :
  forall n,
    map research_draft
      (imap (fun i r => Research.stored_row (n + i) now r) rows)
    = map snd rows.
Proof.
  induction rows as [|[rid [u t c s z]] rows IH]; intros n; [reflexivity|].
  cbn [imap map]. f_equal.
  rewrite <- (IH (S n)). f_equal. apply imap_ext. intros i x _.
  cbn. f_equal. lia.
Qed.

Lemma research_catch_block (request : ResearchRequest) (query : string)
  (e : JsError) (s : Db) :
  let rid := rq_id request in
  let fb := Research.generateFallbackResults query in
  let tU := clock s in
  let tF := S (clock s) in
  let saved :=
    imap (fun i r => Research.stored_row (next_id s + i) tF r)
      (map (Research.fallback_to_insert rid) fb) in
  let out := Research.catch_block env request query e s in
  fst out = (if ok env tF (InsertRows "research_results")
             then Returned (Research.Persisted saved)
             else Returned (Research.InMemory fb)) /\
  journal (snd out) =
    (journal s ++ [UpdateStatus "research_requests" rid failed;
                  InsertRows "research_results"])%list /\
  research_requests (snd out) =
    (if ok env tU (UpdateStatus "research_requests" rid failed)
     then alter (Research.with_status failed) rid (research_requests s)
     else research_requests s) /\
  research_results (snd out) =
    (research_results s ++
     if ok env tF (InsertRows "research_results") then saved else [])%list.
Proof.
  intros rid fb tU tF saved out. subst out saved tF tU fb rid.
  unfold Research.catch_block, bind, try_catch, console_error, modify,
    Research.update_status, Research.insert_results, client_call, ret, ok.
  store_cbn.
  destruct (db_fault env (clock s) _); store_cbn;
    destruct (db_fault env (S (clock s)) _); store_cbn;
    rewrite <- ?app_assoc, ?app_nil_r, ?length_map; repeat split; reflexivity.
Qed.

Lemma fallback_rows_unchanged (query : string) (rid : nat) :
  map snd (map (Research.fallback_to_insert rid)
             (Research.generateFallbackResults query))
  = Research.generateFallbackResults query.
Proof.
  unfold Research.generateFallbackResults.
  repeat match goal with
         | |- context [Js.includes ?a ?b] =>
             generalize (Js.includes a b); intros [|]; cbn [orb];
             try reflexivity
         end.
Qed.

(** What one call of [conductResearch] does, path by path. *)
Lemma conductResearch_run (planId query depth : string) (db : Db) :
  let c := clock db in
  let rid := next_id db in
  let row := {| rq_id := rid; rq_plan_id := planId; rq_query := query;
                rq_status := in_progress; rq_created_at := c |} in
  let reply := research_agent env (S c) (research_body query depth) in
  let fb := Research.generateFallbackResults query in
  let saved :=
    imap (fun i r => Research.stored_row (rid + 1 + i) (S (S c)) r)
      (map (Research.to_insert rid) (results_of reply)) in
  let tU := if usable reply then S (S (S c)) else S (S c) in
  let fbsaved :=
    imap (fun i r => Research.stored_row (rid + 1 + i) (S tU) r)
      (map (Research.fallback_to_insert rid) fb) in
  let out := Research.conductResearch env planId query depth db in
  if ok env c (InsertRows "research_requests") then
    if usable reply && ok env (S (S c)) (InsertRows "research_results") then
      fst out = Returned (Research.Persisted saved) /\
      journal (snd out) =
        (journal db ++
         [InsertRows "research_requests"; Invoke "research-agent";
          InsertRows "research_results";
          UpdateStatus "research_requests" rid completed])%list /\
      research_requests (snd out) =
        (if ok env (S (S (S c))) (UpdateStatus "research_requests" rid completed)
         then alter (Research.with_status completed) rid
                (<[rid := row]> (research_requests db))
         else <[rid := row]> (research_requests db)) /\
      research_results (snd out) = (research_results db ++ saved)%list
    else
      fst out = (if ok env (S tU) (InsertRows "research_results")
                 then Returned (Research.Persisted fbsaved)
                 else Returned (Research.InMemory fb)) /\
      journal (snd out) =
        (journal db ++
         [InsertRows "research_requests"; Invoke "research-agent"] ++
         (if usable reply then [InsertRows "research_results"] else []) ++
         [UpdateStatus "research_requests" rid failed;
          InsertRows "research_results"])%list /\
      research_requests (snd out) =
        (if ok env tU (UpdateStatus "research_requests" rid failed)
         then alter (Research.with_status failed) rid
                (<[rid := row]> (research_requests db))
         else <[rid := row]> (research_requests db)) /\
      research_results (snd out) =
        (research_results db ++
         if ok env (S tU) (InsertRows "research_results")
         then fbsaved else [])%list
  else
    fst out = Thrown {| message := "Failed to create research request" |} /\
    journal (snd out) = (journal db ++ [InsertRows "research_requests"])%list /\
    research_requests (snd out) = research_requests db /\
    research_results (snd out) = research_results db.
Proof.
  cbv zeta.
  unfold Research.conductResearch, bind, Research.insert_request,
    client_call, ok.
  destruct (db_fault env (clock db) _); store_cbn;
    [repeat split; reflexivity|].
  unfold try_catch, Research.try_block, bind, Research.functions_invoke.
  store_cbn. fold (research_body query depth).
  unfold usable, results_of.
  destruct (research_agent env (S (clock db)) (research_body query depth))
    as [[[[raw|]]|] [e|]]; cbn [error data andb throw];
    try (pose proof (research_catch_block) as C;
         cbv zeta in C;
         match goal with
         | |- context [Research.catch_block env ?r query ?e ?s] =>
             specialize (C r query e s);
             destruct C as (C1 & C2 & C3 & C4);
             rewrite C1, C2, C3, C4
         end;
         unfold ok; store_cbn; rewrite <- ?app_assoc;
         repeat split; reflexivity).
  unfold Research.insert_results, client_call.
  store_cbn.
  destruct (db_fault env (S (S (clock db))) _); store_cbn; cbn [throw].
  - pose proof (research_catch_block) as C. cbv zeta in C.
    match goal with
    | |- context [Research.catch_block env ?r query ?e ?s] =>
        specialize (C r query e s);
        destruct C as (C1 & C2 & C3 & C4);
        rewrite C1, C2, C3, C4
    end.
    unfold ok. store_cbn. rewrite <- ?app_assoc. repeat split; reflexivity.
  - unfold Research.update_status, client_call, ret. store_cbn.
    destruct (db_fault env (S (S (S (clock db)))) _); store_cbn;
      rewrite <- ?app_assoc, ?length_map; repeat split; reflexivity.
Qed.

End ResearchRecorder.

Section ExecutionRecorder.

Variable env : Env.

(** What one call of [executeTask] does, path by path. *)
Lemma executeTask_run (planId ty instructions : string) (db : Db) :
  let c := clock db in
  let rid := next_id db in
  let row := {| xq_id := rid; xq_plan_id := planId; xq_execution_type := ty;
                xq_instructions := instructions; xq_status := in_progress;
                xq_created_at := c |} in
  let original :=
    {| message := if known_execution_type ty
                  then "Failed to save execution results"
                  else "Unknown execution type" |} in
  let tU := if known_execution_type ty then S (S (S c)) else S (S c) in
  let out := Execution.executeTask env planId ty instructions db in
  if ok env c (InsertRows "execution_requests") then
    if known_execution_type ty && ok env (S c) (InsertRows "execution_results")
    then
      is_returned (fst out) = true /\
      journal (snd out) =
        (journal db ++
         [InsertRows "execution_requests"; InsertRows "execution_results";
          UpdateStatus "execution_requests" rid completed])%list /\
      execution_requests (snd out) =
        (if ok env (S (S c)) (UpdateStatus "execution_requests" rid completed)
         then alter (Execution.with_status completed) rid
                (<[rid := row]> (execution_requests db))
         else <[rid := row]> (execution_requests db))
    else
      fst out = Thrown original /\
      journal (snd out) =
        (journal db ++
         [InsertRows "execution_requests"] ++
         (if known_execution_type ty then [InsertRows "execution_results"]
          else []) ++
         [InsertRows "execution_results";
          UpdateStatus "execution_requests" rid failed])%list /\
      execution_requests (snd out) =
        (if ok env tU (UpdateStatus "execution_requests" rid failed)
         then alter (Execution.with_status failed) rid
                (<[rid := row]> (execution_requests db))
         else <[rid := row]> (execution_requests db))
  else
    fst out = Thrown {| message := "Failed to create execution request" |} /\
    journal (snd out) = (journal db ++ [InsertRows "execution_requests"])%list /\
    execution_requests (snd out) = execution_requests db.
Proof.
  cbv zeta.
  unfold Execution.executeTask, bind, Execution.insert_request,
    client_call, ok.
  destruct (db_fault env (clock db) _); store_cbn;
    [repeat split; reflexivity|].
  unfold try_catch, Execution.try_block, Execution.catch_block, bind,
    Execution.performExecution, known_execution_type.
  cbn [existsb xq_execution_type].
  destruct (String.eqb ty "code_generation"); cbn [orb andb].
  { unfold Execution.generateCode, bind, sleep_db, modify, ret.
    finish_execution env db. }
  destruct (String.eqb ty "script_execution"); cbn [orb andb].
  { unfold Execution.executeScript, bind, sleep_db, modify, ret.
    finish_execution env db. }
  destruct (String.eqb ty "api_call"); cbn [orb andb].
  { unfold Execution.makeApiCall, bind, sleep_db, modify, ret.
    finish_execution env db. }
  destruct (String.eqb ty "file_creation"); cbn [orb andb].
  { unfold Execution.createFiles, bind, sleep_db, modify, ret.
    finish_execution env db. }
  destruct (String.eqb ty "environment_setup"); cbn [orb andb].
  { unfold Execution.setupEnvironment, bind, sleep_db, modify, ret.
    finish_execution env db. }
  finish_execution env db.
Qed.

End ExecutionRecorder.

Section DeploymentRecorder.

Variable env : Env.

(** What one call of [deployProject] does, path by path. *)
Lemma deployProject_run (planId ty : string) (config : gmap string string)
  (xid : option nat) (db : Db) :
  let c := clock db in
  let rid := next_id db in
  let row := {| dq_id := rid; dq_plan_id := planId;
                dq_execution_request_id := xid; dq_deployment_type := ty;
                dq_configuration := config; dq_status := in_progress;
                dq_created_at := c |} in
  let original :=
    {| message := if known_deployment_type ty
                  then "Failed to save deployment result"
                  else "Unknown deployment type" |} in
  let tE := if known_deployment_type ty then S (S c) else S c in
  let erow :=
    Deployment.stored_row (rid + 1) tE (Deployment.error_row row original) in
  let out := Deployment.deployProject env planId ty config xid db in
  if ok env c (InsertRows "deployment_requests") then
    if known_deployment_type ty
       && ok env (S c) (InsertRows "deployment_results")
    then
      (exists saved, fst out = Returned (Some saved) /\
                     dr_success saved = true) /\
      journal (snd out) =
        (journal db ++
         [InsertRows "deployment_requests"; InsertRows "deployment_results";
          UpdateStatus "deployment_requests" rid completed])%list /\
      deployment_requests (snd out) =
        (if ok env (S (S c)) (UpdateStatus "deployment_requests" rid completed)
         then alter (Deployment.with_status completed) rid
                (<[rid := row]> (deployment_requests db))
         else <[rid := row]> (deployment_requests db))
    else
      fst out = (if ok env tE (InsertRows "deployment_results")
                 then Returned (Some erow) else Thrown original) /\
      journal (snd out) =
        (journal db ++
         [InsertRows "deployment_requests"] ++
         (if known_deployment_type ty then [InsertRows "deployment_results"]
          else []) ++
         [InsertRows "deployment_results";
          UpdateStatus "deployment_requests" rid failed])%list /\
      deployment_requests (snd out) =
        (if ok env (S tE) (UpdateStatus "deployment_requests" rid failed)
         then alter (Deployment.with_status failed) rid
                (<[rid := row]> (deployment_requests db))
         else <[rid := row]> (deployment_requests db)) /\
      deployment_results (snd out) =
        (deployment_results db ++
         if ok env tE (InsertRows "deployment_results") then [erow] else [])%list
  else
    fst out = Thrown {| message := "Failed to create deployment request" |} /\
    journal (snd out) = (journal db ++ [InsertRows "deployment_requests"])%list /\
    deployment_requests (snd out) = deployment_requests db /\
    deployment_results (snd out) = deployment_results db.
Proof.
  cbv zeta.
  unfold Deployment.deployProject, bind, Deployment.insert_request,
    client_call, ok.
  destruct (db_fault env (clock db) _); store_cbn;
    [repeat split; reflexivity|].
  unfold try_catch, Deployment.try_block, Deployment.catch_block, bind,
    Deployment.performDeployment, known_deployment_type.
  cbn [existsb dq_deployment_type].
  destruct (String.eqb ty "netlify_static"); cbn [orb andb].
  { unfold Deployment.deployToNetlify, bind, sleep_db, modify, ret.
    finish_deployment env db. }
  destruct (String.eqb ty "vercel_static"); cbn [orb andb].
  { unfold Deployment.deployToVercel, bind, sleep_db, modify, ret.
    finish_deployment env db. }
  destruct (String.eqb ty "github_pages"); cbn [orb andb].
  { unfold Deployment.deployToGitHub, bind, sleep_db, modify, ret.
    finish_deployment env db. }
  destruct (String.eqb ty "custom_hosting"); cbn [orb andb].
  { unfold Deployment.deployToCustomHost, bind, sleep_db, modify, ret.
    finish_deployment env db. }
  finish_deployment env db.
Qed.

End DeploymentRecorder.

(** ** The recorders, claim by claim *)

Section RecorderClaims.

Variable env : Env.

Lemma status_updates_app (db db' : Db) (l : list Call) :
  journal db' = (journal db ++ l)%list ->
  status_updates db db' = filter (fun c => is_status_update c = true) l.
Proof.
  intros H. unfold status_updates. rewrite H, drop_app_length. reflexivity.
Qed.

(** C2, as the source has it: [conductResearch] raises exactly when the
    write that creates the request fails; [executeTask] also raises after
    every later failure (an execution type without a case, or a failed
    insert of the results); [deployProject] also raises when a later
    failure is followed by a failed insert of the error row. *)
Theorem recorders_raise_exactly_when
  (planId query depth ty instructions dty : string)
  (config : gmap string string) (xid : option nat) (db : Db) :
  let c := clock db in
  is_returned (fst (Research.conductResearch env planId query depth db))
    = ok env c (InsertRows "research_requests") /\
  is_returned (fst (Execution.executeTask env planId ty instructions db))
    = ok env c (InsertRows "execution_requests")
      && (known_execution_type ty
          && ok env (S c) (InsertRows "execution_results")) /\
  is_returned (fst (Deployment.deployProject env planId dty config xid db))
    = ok env c (InsertRows "deployment_requests")
      && (if known_deployment_type dty
          then ok env (S c) (InsertRows "deployment_results")
               || ok env (S (S c)) (InsertRows "deployment_results")
          else ok env (S c) (InsertRows "deployment_results")).
Proof.
  cbv zeta. split; [|split].
  - pose proof (conductResearch_run env planId query depth db) as H.
    cbv zeta in H.
    destruct (ok env (clock db) (InsertRows "research_requests")).
    + destruct (usable _ && ok env _ _).
      * destruct H as (-> & _). reflexivity.
      * destruct H as (-> & _). destruct (ok env _ _); reflexivity.
    + destruct H as (-> & _). reflexivity.
  - pose proof (executeTask_run env planId ty instructions db) as H.
    cbv zeta in H.
    destruct (ok env (clock db) (InsertRows "execution_requests")); cbn [andb].
    + destruct (known_execution_type ty && ok env _ _).
      * destruct H as (-> & _). reflexivity.
      * destruct H as (-> & _). reflexivity.
    + destruct H as (-> & _). reflexivity.
  - pose proof (deployProject_run env planId dty config xid db) as H.
    cbv zeta in H.
    destruct (ok env (clock db) (InsertRows "deployment_requests")); cbn [andb].
    + destruct (known_deployment_type dty); cbn [andb] in H.
      * destruct (ok env (S (clock db)) _); cbn [orb].
        -- destruct H as ((saved & -> & _) & _). reflexivity.
        -- destruct H as (-> & _). destruct (ok env _ _); reflexivity.
      * destruct H as (-> & _). destruct (ok env _ _); reflexivity.
    + destruct H as (-> & _). reflexivity.
Qed.

(** C5, as the source has it: once the request row is created, a recorder
    sends exactly one status update for it, to [completed] on the success
    path and to [failed] on every catch path; the row then has that status
    when the store applies the update, and stays [in_progress] when the
    update itself fails. *)
Theorem status_terminal_when_update_applies
  (planId query depth ty instructions dty : string)
  (config : gmap string string) (xid : option nat) (db : Db) :
  let c := clock db in
  let rid := next_id db in
  (ok env c (InsertRows "research_requests") = true ->
   let reply := research_agent env (S c) (research_body query depth) in
   let st := if usable reply
                && ok env (S (S c)) (InsertRows "research_results")
             then completed else failed in
   let tU := if usable reply then S (S (S c)) else S (S c) in
   let db' := snd (Research.conductResearch env planId query depth db) in
   (st = completed \/ st = failed) /\
   status_updates db db' = [UpdateStatus "research_requests" rid st] /\
   research_status db' rid =
     Some (if ok env tU (UpdateStatus "research_requests" rid st)
           then st else in_progress)) /\
  (ok env c (InsertRows "execution_requests") = true ->
   let good := known_execution_type ty
               && ok env (S c) (InsertRows "execution_results") in
   let st := if good then completed else failed in
   let tU := if good then S (S c)
             else if known_execution_type ty then S (S (S c)) else S (S c) in
   let db' := snd (Execution.executeTask env planId ty instructions db) in
   (st = completed \/ st = failed) /\
   status_updates db db' = [UpdateStatus "execution_requests" rid st] /\
   execution_status db' rid =
     Some (if ok env tU (UpdateStatus "execution_requests" rid st)
           then st else in_progress)) /\
  (ok env c (InsertRows "deployment_requests") = true ->
   let good := known_deployment_type dty
               && ok env (S c) (InsertRows "deployment_results") in
   let st := if good then completed else failed in
   let tU := if good then S (S c)
             else if known_deployment_type dty then S (S (S c)) else S (S c) in
   let db' := snd (Deployment.deployProject env planId dty config xid db) in
   (st = completed \/ st = failed) /\
   status_updates db db' = [UpdateStatus "deployment_requests" rid st] /\
   deployment_status db' rid =
     Some (if ok env tU (UpdateStatus "deployment_requests" rid st)
           then st else in_progress)).
Proof.
  cbv zeta. split; [|split]; intros Hc.
  - pose proof (conductResearch_run env planId query depth db) as H.
    cbv zeta in H. rewrite Hc in H.
    destruct (usable _ && ok env _ _) eqn:Hgood.
    + destruct H as (_ & Hj & Hq & _).
      apply andb_prop in Hgood. destruct Hgood as [Hu _].
      rewrite Hu in *.
      split; [auto|]. split.
      * rewrite (status_updates_app _ _ _ Hj). reflexivity.
      * unfold research_status. rewrite Hq.
        case_ok; rewrite ?lookup_alter_eq, lookup_insert_eq; reflexivity.
    + destruct H as (_ & Hj & Hq & _).
      split; [auto|]. split.
      * rewrite (status_updates_app _ _ _ Hj).
        destruct (usable _); reflexivity.
      * unfold research_status. rewrite Hq.
        case_ok; rewrite ?lookup_alter_eq, lookup_insert_eq; reflexivity.
  - pose proof (executeTask_run env planId ty instructions db) as H.
    cbv zeta in H. rewrite Hc in H.
    destruct (known_execution_type ty && ok env _ _).
    + destruct H as (_ & Hj & Hq).
      split; [auto|]. split.
      * rewrite (status_updates_app _ _ _ Hj). reflexivity.
      * unfold execution_status. rewrite Hq.
        case_ok; rewrite ?lookup_alter_eq, lookup_insert_eq; reflexivity.
    + destruct H as (_ & Hj & Hq).
      split; [auto|]. split.
      * rewrite (status_updates_app _ _ _ Hj).
        destruct (known_execution_type ty); reflexivity.
      * unfold execution_status. rewrite Hq.
        case_ok; rewrite ?lookup_alter_eq, lookup_insert_eq; reflexivity.
  - pose proof (deployProject_run env planId dty config xid db) as H.
    cbv zeta in H. rewrite Hc in H.
    destruct (known_deployment_type dty && ok env _ _).
    + destruct H as (_ & Hj & Hq).
      split; [auto|]. split.
      * rewrite (status_updates_app _ _ _ Hj). reflexivity.
      * unfold deployment_status. rewrite Hq.
        case_ok; rewrite ?lookup_alter_eq, lookup_insert_eq; reflexivity.
    + destruct H as (_ & Hj & Hq & _).
      split; [auto|]. split.
      * rewrite (status_updates_app _ _ _ Hj).
        destruct (known_deployment_type dty); reflexivity.
      * unfold deployment_status. rewrite Hq.
        destruct (known_deployment_type dty);
          case_ok; rewrite ?lookup_alter_eq, lookup_insert_eq; reflexivity.
Qed.

End RecorderClaims.

Section ResearchClaims.

Variable env : Env.

Lemma stored_rows_request (now rid : nat)
  (rows : list (nat * Research.ResearchResultDraft)) :
  Forall (fun r => fst r = rid) rows ->
  forall n,
    Forall (fun r => rr_request_id r = rid)
      (imap (fun i r => Research.stored_row (n + i) now r) rows).
Proof.
  induction 1 as [|r rows Hr _ IH]; intros n; [constructor|].
  cbn [imap]. constructor; [exact Hr|].
  specialize (IH (S n)).
  erewrite imap_ext; [exact IH|].
  intros i x _. cbn. f_equal. lia.
Qed.

Lemma clamp_score_range (score : option Z) :
  1 <= Research.clamp_score score <= 10.
Proof. unfold Research.clamp_score. lia. Qed.

(** The fallback results are made from the query: three of them, each
    with the query at the end of its title. *)
Lemma fallback_results_from_query (query : string) :
  length (Research.generateFallbackResults query) = 3%nat /\
  Forall (fun r => exists heading, Research.title r = heading +:+ query)
    (Research.generateFallbackResults query).
Proof.
  unfold Research.generateFallbackResults.
  repeat match goal with
         | |- context [Js.includes ?a ?b] =>
             generalize (Js.includes a b); intros [|]; cbn [orb]
         end;
    (split; [reflexivity|]);
    repeat constructor; cbn; eexists; reflexivity.
Qed.

(** C6, as the source has it: once the request row is created, a failure
    of the edge function or of the insert of its results makes
    [conductResearch] send the status update to [failed] and return,
    instead of raising,
    the three fallback results generated from the query: the rows the
    store saved for them, or, when that insert fails too, the fallback
    results held in memory.  The request reads [failed] when the store
    applies the update; the answer to the update is not read, and when
    the store refuses it the request stays [in_progress]. *)
Theorem conductResearch_falls_back (planId query depth : string) (db : Db) :
  let c := clock db in
  let rid := next_id db in
  let reply := research_agent env (S c) (research_body query depth) in
  let fb := Research.generateFallbackResults query in
  let tU := if usable reply then S (S (S c)) else S (S c) in
  let out := Research.conductResearch env planId query depth db in
  ok env c (InsertRows "research_requests") = true ->
  usable reply && ok env (S (S c)) (InsertRows "research_results") = false ->
  status_updates db (snd out)
  = [UpdateStatus "research_requests" rid failed] /\
  research_status (snd out) rid =
    Some (if ok env tU (UpdateStatus "research_requests" rid failed)
          then failed else in_progress) /\
  length fb = 3%nat /\
  Forall (fun r => exists heading, Research.title r = heading +:+ query) fb /\
  (if ok env (S tU) (InsertRows "research_results")
   then exists rows,
       fst out = Returned (Research.Persisted rows) /\
       map research_draft rows = fb /\
       Forall (fun r => rr_request_id r = rid) rows /\
       research_results (snd out) = (research_results db ++ rows)%list
   else fst out = Returned (Research.InMemory fb) /\
        research_results (snd out) = research_results db).
Proof.
  cbv zeta. intros Hc Hf.
  pose proof (conductResearch_run env planId query depth db) as H.
  cbv zeta in H. rewrite Hc, Hf in H.
  destruct H as (Ho & Hj & Hq & Hr).
  split; [|split; [|split; [|split]]].
  - rewrite (status_updates_app _ _ _ Hj).
    destruct (usable _); reflexivity.
  - unfold research_status. rewrite Hq.
    case_ok; rewrite ?lookup_alter_eq, lookup_insert_eq; reflexivity.
  - apply fallback_results_from_query.
  - apply fallback_results_from_query.
  - revert Ho Hr. case_ok; intros Ho Hr.
    + eexists. split; [exact Ho|]. split; [|split; [|exact Hr]].
      * rewrite stored_rows_draft. apply fallback_rows_unchanged.
      * apply stored_rows_request. apply Forall_map.
        apply Forall_true. reflexivity.
    + split; [exact Ho|]. rewrite Hr. apply app_nil_r.
Qed.

(** On the integers [clamp_number] is [clamp_score]. *)
Lemma clamp_number_of_integer (z : Z) :
  Research.clamp_number (Some (QArith_base.inject_Z z))
  = QArith_base.inject_Z (Research.clamp_score (Some z)).
Proof.
  unfold Research.clamp_number, Research.clamp_score.
  assert (QArith_base.Qeq_bool (QArith_base.inject_Z z)
            (QArith_base.inject_Z 0) = (z =? 0)) as ->.
  { unfold QArith_base.Qeq_bool, QArith_base.inject_Z. cbn.
    rewrite Z.mul_1_r. destruct z; reflexivity. }
  assert (forall a b,
             Qminmax.Qmax (QArith_base.inject_Z a) (QArith_base.inject_Z b)
             = QArith_base.inject_Z (Z.max a b)) as Hmax.
  { intros a b. unfold Qminmax.Qmax, GenericMinMax.gmax, Z.max,
      QArith_base.Qcompare, QArith_base.inject_Z. cbn.
    rewrite !Z.mul_1_r. destruct (a ?= b); reflexivity. }
  assert (forall a b,
             Qminmax.Qmin (QArith_base.inject_Z a) (QArith_base.inject_Z b)
             = QArith_base.inject_Z (Z.min a b)) as Hmin.
  { intros a b. unfold Qminmax.Qmin, GenericMinMax.gmin, Z.min,
      QArith_base.Qcompare, QArith_base.inject_Z. cbn.
    rewrite !Z.mul_1_r. destruct (a ?= b); reflexivity. }
  cbv zeta.
  destruct (z =? 0); rewrite Hmax, Hmin; reflexivity.
Qed.

(** C9, as the source has it: on the success path of [conductResearch]
    the rows saved to [research_results] carry the clamped scores, all
    between 1
    and 10; a missing score gives 5, and so does a score of 0, which
    [score || 5] takes for a missing one; any other score [z] gives
    [min(10, max(1, z))].  The expression keeps every number between 1
    and 10 and rounds none: the score saved is an integer when the
    score received is one. *)
Theorem persisted_scores_in_range (planId query depth : string) (db : Db) :
  let c := clock db in
  let reply := research_agent env (S c) (research_body query depth) in
  let out := Research.conductResearch env planId query depth db in
  ok env c (InsertRows "research_requests") = true ->
  usable reply = true ->
  ok env (S (S c)) (InsertRows "research_results") = true ->
  (exists rows,
      fst out = Returned (Research.Persisted rows) /\
      research_results (snd out) = (research_results db ++ rows)%list /\
      map rr_relevance_score rows =
        map (fun raw => Research.clamp_score (raw_relevance_score raw))
          (results_of reply) /\
      Forall (fun r => 1 <= rr_relevance_score r <= 10) rows) /\
  Research.clamp_score None = 5 /\
  Research.clamp_score (Some 0) = 5 /\
  (forall z, z <> 0 -> Research.clamp_score (Some z) = Z.min 10 (Z.max 1 z)) /\
  (forall score,
      QArith_base.Qle (QArith_base.inject_Z 1) (Research.clamp_number score) /\
      QArith_base.Qle (Research.clamp_number score) (QArith_base.inject_Z 10)) /\
  (forall z,
      Research.clamp_number (Some (QArith_base.inject_Z z))
      = QArith_base.inject_Z (Research.clamp_score (Some z))).
Proof.
  cbv zeta. intros Hc Hu Hi.
  pose proof (conductResearch_run env planId query depth db) as H.
  cbv zeta in H. rewrite Hc, Hu, Hi in H. cbn [andb] in H.
  destruct H as (Ho & _ & _ & Hr).
  assert (Hs : forall rows : list ResearchResult,
             map rr_relevance_score rows
             = map Research.relevance_score (map research_draft rows)).
  { intros rows. rewrite map_map. reflexivity. }
  split; [|split; [reflexivity|split; [reflexivity|]]].
  - eexists. split; [exact Ho|]. split; [exact Hr|].
    assert (Hm : forall n now,
       map rr_relevance_score
         (imap (fun i r => Research.stored_row (n + i) now r)
            (map (Research.to_insert (next_id db))
               (results_of (research_agent env (S (clock db))
                              (research_body query depth)))))
       = map (fun raw => Research.clamp_score (raw_relevance_score raw))
           (results_of (research_agent env (S (clock db))
                          (research_body query depth)))).
    { intros n now. rewrite Hs, stored_rows_draft, !map_map. reflexivity. }
    split; [apply Hm|].
    apply List.Forall_forall. intros r Hin.
    apply (in_map rr_relevance_score) in Hin. rewrite Hm in Hin.
    apply in_map_iff in Hin. destruct Hin as (raw & <- & _).
    apply clamp_score_range.
  - split; [|split].
    + intros z Hz. unfold Research.clamp_score.
      destruct (Z.eqb_spec z 0); [contradiction|reflexivity].
    + intros score. unfold Research.clamp_number. split.
      * apply Qminmax.Q.min_glb; [discriminate|apply Qminmax.Q.le_max_l].
      * apply Qminmax.Q.le_min_l.
    + apply clamp_number_of_integer.
Qed.

End ResearchClaims.

Section DeploymentClaims.

Variable env : Env.

(** C10: when the deployment fails after its request row was created
    (a deployment type without a case, or a failed insert of the result)
    and the insert of the error row succeeds, [deployProject] returns
    that saved row, with [success] false and the error's message; it
    raises the original error when the insert of the error row fails,
    and only then. *)
Theorem deployProject_returns_error_row (planId ty : string)
  (config : gmap string string) (xid : option nat) (db : Db) :
  let c := clock db in
  let rid := next_id db in
  let original :=
    {| message := if known_deployment_type ty
                  then "Failed to save deployment result"
                  else "Unknown deployment type" |} in
  let tE := if known_deployment_type ty then S (S c) else S c in
  let out := Deployment.deployProject env planId ty config xid db in
  ok env c (InsertRows "deployment_requests") = true ->
  known_deployment_type ty && ok env (S c) (InsertRows "deployment_results")
    = false ->
  (if ok env tE (InsertRows "deployment_results")
   then exists saved,
       fst out = Returned (Some saved) /\
       dr_success saved = false /\
       dr_request_id saved = rid /\
       dr_error_message saved = Some (message original) /\
       In saved (deployment_results (snd out))
   else fst out = Thrown original) /\
  is_returned (fst out) = ok env tE (InsertRows "deployment_results").
Proof.
  cbv zeta. intros Hc Hf.
  pose proof (deployProject_run env planId ty config xid db) as H.
  cbv zeta in H. rewrite Hc, Hf in H.
  destruct H as (Ho & _ & _ & Hr).
  revert Ho Hr. case_ok; intros Ho Hr.
  - split; [|rewrite Ho; reflexivity].
    eexists. split; [exact Ho|].
    repeat split; try reflexivity.
    rewrite Hr. apply in_app_iff. right. left. reflexivity.
  - split; [exact Ho|]. rewrite Ho. reflexivity.
Qed.

End DeploymentClaims.

(** ** Concrete runs *)

(** Counterexample to C2 as stated: the request row is created (call 0
    succeeds), the insert of the execution results (call 1) fails, and
    [executeTask] raises that error to its caller. *)
Lemma executeTask_raises_after_creation :
  ok (Scenario.env_of (Scenario.fault_at 1) Scenario.edge_up) 0
     (InsertRows "execution_requests") = true /\
  fst Runs.execution_results_fail
    = Thrown {| message := "Failed to save execution results" |} /\
  execution_status (snd Runs.execution_results_fail) 0 = Some failed.
Proof. vm_compute. repeat split. Qed.

(** Counterexample to C5 as stated: the request row is created, the edge
    function is down, the status update to [failed] (call 2) fails, and
    [conductResearch] returns with the request still [in_progress]. *)
Lemma research_request_left_in_progress :
  ok (Scenario.env_of (Scenario.fault_at 2) Scenario.edge_down) 0
     (InsertRows "research_requests") = true /\
  is_returned (fst Runs.research_update_fails) = true /\
  research_status (snd Runs.research_update_fails) 0 = Some in_progress.
Proof. vm_compute. repeat split. Qed.

(** Counterexample to C6 as stated: the request row is created, the edge
    function is down, [conductResearch] returns the three fallback
    results it saved, and the request is not [failed]: the store refused
    the status update (call 2) and the request is still [in_progress]. *)
Lemma fallback_returned_with_request_in_progress :
  ok (Scenario.env_of (Scenario.fault_at 2) Scenario.edge_down) 0
     (InsertRows "research_requests") = true /\
  usable Scenario.edge_down = false /\
  (exists rows,
      fst Runs.research_update_fails = Returned (Research.Persisted rows) /\
      map research_draft rows
      = Research.generateFallbackResults "Market Research best practices" /\
      length rows = 3%nat) /\
  research_status (snd Runs.research_update_fails) 0 = Some in_progress /\
  research_status (snd Runs.research_update_fails) 0 <> Some failed.
Proof.
  split; [reflexivity|]. split; [reflexivity|]. split.
  - eexists. split; [vm_compute; reflexivity|].
    split; vm_compute; reflexivity.
  - split; [vm_compute; reflexivity|]. vm_compute. discriminate.
Qed.

(** The score 7.5 is sent to the table as it is. *)
Lemma fractional_score_is_not_rounded :
  Research.clamp_number (Some (QArith_base.Qmake 15 2))
  = QArith_base.Qmake 15 2.
Proof. reflexivity. Qed.

(** Counterexample to C9 as stated: every write succeeds and the edge
    function sends one result with the score 0; the row saved for it
    has the score 5, where [min(10, max(1, 0))] is 1. *)
Lemma zero_score_is_stored_as_five :
  map raw_relevance_score ZeroScore.zero_raw = [Some 0] /\
  Z.min 10 (Z.max 1 0) = 1 /\
  exists row,
    fst ZeroScore.research_zero_score
    = Returned (Research.Persisted [row]) /\
    research_results (snd ZeroScore.research_zero_score) = [row] /\
    rr_relevance_score row = 5 /\
    rr_relevance_score row <> Z.min 10 (Z.max 1 0).
Proof.
  split; [reflexivity|]. split; [reflexivity|].
  eexists. split; [vm_compute; reflexivity|].
  split; [vm_compute; reflexivity|].
  split; [reflexivity|]. vm_compute. discriminate.
Qed.

(** The three recorders on runs where every write succeeds. *)
Lemma status_terminal_when_update_applies_witness :
  (status_updates empty_db (snd Runs.research_edge_up)
     = [UpdateStatus "research_requests" 0 completed] /\
   research_status (snd Runs.research_edge_up) 0 = Some completed) /\
  (status_updates empty_db (snd Runs.execution_all_good)
     = [UpdateStatus "execution_requests" 0 completed] /\
   execution_status (snd Runs.execution_all_good) 0 = Some completed) /\
  (status_updates empty_db (snd Runs.deployment_all_good)
     = [UpdateStatus "deployment_requests" 0 completed] /\
   deployment_status (snd Runs.deployment_all_good) 0 = Some completed).
Proof.
  destruct (status_terminal_when_update_applies
              (Scenario.env_of Scenario.no_fault Scenario.edge_up)
              "plan-1" "Market Research best practices" "detailed"
              "code_generation" "Create implementation for: Market Research"
              "netlify_static" {[ "subdomain" := "market-research" ]} None
              empty_db) as (HR & HE & HD).
  split; [|split].
  - exact (proj2 (HR eq_refl)).
  - exact (proj2 (HE eq_refl)).
  - exact (proj2 (HD eq_refl)).
Defined.

(** The research recorder with the edge function down. *)
Lemma conductResearch_falls_back_witness :
  status_updates empty_db (snd Runs.research_edge_down)
  = [UpdateStatus "research_requests" 0 failed] /\
  research_status (snd Runs.research_edge_down) 0 = Some failed /\
  length (Research.generateFallbackResults "Market Research best practices")
  = 3%nat /\
  Forall (fun r => exists heading,
              Research.title r
              = heading +:+ "Market Research best practices")
    (Research.generateFallbackResults "Market Research best practices") /\
  exists rows,
    fst Runs.research_edge_down = Returned (Research.Persisted rows) /\
    map research_draft rows
      = Research.generateFallbackResults "Market Research best practices" /\
    Forall (fun r => rr_request_id r = 0%nat) rows /\
    research_results (snd Runs.research_edge_down) = ([] ++ rows)%list.
Proof.
  exact (conductResearch_falls_back
           (Scenario.env_of Scenario.no_fault Scenario.edge_down)
           "plan-1" "Market Research best practices" "detailed" empty_db
           eq_refl eq_refl).
Defined.

(** The research recorder with an edge function that sends the scores 42
    and none. *)
Lemma persisted_scores_in_range_witness :
  exists rows,
    fst Runs.research_edge_up = Returned (Research.Persisted rows) /\
    research_results (snd Runs.research_edge_up) = ([] ++ rows)%list /\
    map rr_relevance_score rows = [10; 5] /\
    Forall (fun r => 1 <= rr_relevance_score r <= 10) rows.
Proof.
  exact (proj1 (persisted_scores_in_range
                  (Scenario.env_of Scenario.no_fault Scenario.edge_up)
                  "plan-1" "Market Research best practices" "detailed"
                  empty_db eq_refl eq_refl eq_refl)).
Defined.

(** The deployment recorder when the insert of the result fails and the
    insert of the error row succeeds. *)
Lemma deployProject_returns_error_row_witness :
  exists saved,
    fst Runs.deployment_result_fails = Returned (Some saved) /\
    dr_success saved = false /\
    dr_request_id saved = 0%nat /\
    dr_error_message saved = Some "Failed to save deployment result" /\
    In saved (deployment_results (snd Runs.deployment_result_fails)).
Proof.
  exact (proj1 (deployProject_returns_error_row
                  (Scenario.env_of (Scenario.fault_at 1) Scenario.edge_up)
                  "plan-1" "netlify_static"
                  {[ "subdomain" := "market-research" ]} None empty_db
                  eq_refl eq_refl)).
Defined.

(* ===================================================================== *)
(** * Further properties *)
(* ===================================================================== *)

(** ** Sub-tasks and the generated plan *)

Section GeneratedPlan.

Import SubTasks.

(** X1: whatever the plan title, [generateSubTasks] returns five
    sub-tasks, numbered 1 to 5 in list order, none of them completed. *)
Theorem generateSubTasks_shape (planTitle planDescription : string) :
  map sequence_order (generateSubTasks planTitle planDescription)
    = [1; 2; 3; 4; 5] /\
  Forall (fun t => completed t = false)
    (generateSubTasks planTitle planDescription).
Proof.
  unfold generateSubTasks.
  repeat match goal with
         | |- context [Js.includes ?a ?b] =>
             generalize (Js.includes a b); intros [|]; cbn [orb]
         end;
    (split; [reflexivity|repeat constructor]).
Qed.

Lemma plans_by_selected (goal : string) :
  Planning.analyzeGoalAndCreatePlans goal =
  match Planning.selected goal with
  | Some g => Planning.template g
  | None => Planning.generic_plans
  end.
Proof. apply analyze_selected. Qed.

(** The object built by [forEach] holds, at each index, the sub-tasks of
    the plan at that index. *)
Lemma forEach_lookup (plans : list Planning.TaskPlanDraft) :
  forall (start : nat) (acc : gmap nat (list SubTaskDraft)) (i : nat),
    foldl (fun (acc : gmap nat (list SubTaskDraft))
               (entry : nat * Planning.TaskPlanDraft) =>
             <[fst entry := subTasksFor (snd entry)]> acc)
          acc (imap (fun k p => (start + k, p)%nat) plans) !! i
    = if decide (start <= i < start + length plans)%nat
      then subTasksFor <$> plans !! (i - start)%nat
      else acc !! i.
Proof.
  induction plans as [|p plans IH]; intros start acc i.
  - cbn. case_decide; [exfalso; lia|reflexivity].
  - cbn [imap foldl fst snd].
    rewrite (imap_ext _ (fun k q => (S start + k, q)%nat))
      by (intros; cbn; f_equal; lia).
    rewrite IH. cbn [length].
    destruct (decide (i = start)) as [->|Hne].
    + rewrite Nat.add_0_r.
      case_decide; [exfalso; lia|]. case_decide; [|exfalso; lia].
      rewrite lookup_insert_eq, Nat.sub_diag. reflexivity.
    + rewrite Nat.add_0_r.
      case_decide.
      * case_decide; [|exfalso; lia].
        replace (i - start)%nat with (S (i - S start)) by lia. reflexivity.
      * case_decide; [exfalso; lia|].
        rewrite lookup_insert_ne by congruence. reflexivity.
Qed.

Lemma generateSubTasks_length (planTitle planDescription : string) :
  length (generateSubTasks planTitle planDescription) = 5%nat.
Proof.
  unfold generateSubTasks.
  repeat match goal with
         | |- context [Js.includes ?a ?b] =>
             generalize (Js.includes a b); intros [|]; cbn [orb]
         end; reflexivity.
Qed.

(** X2: in the answer of [generateTaskPlan], [subTasks] has an entry
    exactly at the indices of [plans], and the entry at index [i] is the
    checklist of the title of plan [i]; every entry has five sub-tasks. *)
Theorem generateTaskPlan_subTasks (goal : string) (i : nat) :
  let plans := fst (generateTaskPlan goal) in
  let subTasks := snd (generateTaskPlan goal) in
  plans = Planning.analyzeGoalAndCreatePlans goal /\
  subTasks !! i = subTasksFor <$> plans !! i /\
  (is_Some (subTasks !! i) <-> (i < length plans)%nat) /\
  (forall tasks, subTasks !! i = Some tasks -> length tasks = 5%nat).
Proof.
  cbv zeta. unfold generateTaskPlan. cbn [fst snd].
  assert (E : foldl (fun (acc : gmap nat (list SubTaskDraft))
                         (entry : nat * Planning.TaskPlanDraft) =>
                       <[fst entry := subTasksFor (snd entry)]> acc)
                    ∅ (imap pair (Planning.analyzeGoalAndCreatePlans goal)) !! i
              = subTasksFor <$> Planning.analyzeGoalAndCreatePlans goal !! i).
  { etransitivity;
      [exact (forEach_lookup (Planning.analyzeGoalAndCreatePlans goal)
                0 ∅ i)|].
    cbn [Nat.add]. rewrite Nat.sub_0_r, lookup_empty.
    case_decide; [reflexivity|].
    rewrite lookup_ge_None_2 by lia. reflexivity. }
  split; [reflexivity|]. split; [exact E|]. split.
  - rewrite E, fmap_is_Some. apply lookup_lt_is_Some.
  - intros tasks. rewrite E.
    destruct (Planning.analyzeGoalAndCreatePlans goal !! i) as [p|];
      [|discriminate].
    intros [= <-]. unfold subTasksFor. apply generateSubTasks_length.
Qed.

(** X3: the plans of every goal are numbered 1, 2, ... in list order and
    all start [pending]. *)
Theorem generated_plans_numbered (goal : string) (i : nat)
  (p : Planning.TaskPlanDraft) :
  Planning.analyzeGoalAndCreatePlans goal !! i = Some p ->
  Planning.sequence_order p = Z.of_nat i + 1 /\
  Planning.status p = plan_pending.
Proof.
  rewrite plans_by_selected.
  destruct (Planning.selected goal) as [[]|];
    (do 5 (destruct i as [|i]; [intros [= <-]; split; reflexivity|]);
     intros H; discriminate H).
Qed.

Lemma generated_plans_numbered_witness :
  Planning.sequence_order
    (Planning.step "Business Plan Development"
       "Create a comprehensive business plan including financial projections and strategy"
       2 "1-2 weeks" high) = Z.of_nat 1 + 1 /\
  Planning.status
    (Planning.step "Business Plan Development"
       "Create a comprehensive business plan including financial projections and strategy"
       2 "1-2 weeks" high) = plan_pending.
Proof.
  apply (generated_plans_numbered "Start a business" 1). reflexivity.
Defined.

(** X4: which checklist each generated plan gets.  Only the first plan of
    the learn and of the travel template and the first two plans of the
    business template get a checklist of their own; every other plan gets
    the generic checklist. *)
Theorem generated_checklists (goal : string) :
  map subTasksFor (fst (generateTaskPlan goal))
    = checklists (Planning.selected goal).
Proof.
  unfold generateTaskPlan. cbn [fst]. rewrite plans_by_selected.
  destruct (Planning.selected goal) as [[]|]; vm_compute; reflexivity.
Qed.

End GeneratedPlan.

(** ** Strings *)

Section Strings.

Lemma toLowerCase_app (a b : string) :
  Js.toLowerCase (a +:+ b) = Js.toLowerCase a +:+ Js.toLowerCase b.
Proof.
  induction a as [|c a IH]; [reflexivity|].
  change (String (Js.lower_char c) (Js.toLowerCase (a +:+ b))
          = String (Js.lower_char c) (Js.toLowerCase a +:+ Js.toLowerCase b)).
  f_equal. exact IH.
Qed.

Lemma startsWith_nil (s : string) : Js.startsWith s "" = true.
Proof. destruct s; reflexivity. Qed.

Lemma startsWith_app_l (a b k : string) :
  Js.startsWith a k = true -> Js.startsWith (a +:+ b) k = true.
Proof.
  revert a. induction k as [|c k IH]; intros a; [intros _; apply startsWith_nil|].
  destruct a as [|d a]; [discriminate|].
  change (Ascii.eqb c d && Js.startsWith a k = true ->
          Ascii.eqb c d && Js.startsWith (a +:+ b) k = true).
  destruct (Ascii.eqb c d); cbn [andb]; [apply IH|discriminate].
Qed.

Lemma startsWith_self (s b : string) : Js.startsWith (s +:+ b) s = true.
Proof.
  induction s as [|c s IH]; [apply startsWith_nil|].
  change (Ascii.eqb c c && Js.startsWith (s +:+ b) s = true).
  rewrite Ascii.eqb_refl. exact IH.
Qed.

Lemma includes_startsWith (s k : string) :
  Js.startsWith s k = true -> Js.includes s k = true.
Proof. intros H. destruct s; cbn in *; rewrite H; reflexivity. Qed.

Lemma includes_app_r (a s k : string) :
  Js.includes s k = true -> Js.includes (a +:+ s) k = true.
Proof.
  intros H. induction a as [|c a IH]; [exact H|].
  change (Js.startsWith (String c (a +:+ s)) k
          || Js.includes (a +:+ s) k = true).
  rewrite IH. apply orb_true_r.
Qed.

Lemma includes_app_l (a b k : string) :
  Js.includes a k = true -> Js.includes (a +:+ b) k = true.
Proof.
  induction a as [|c a IH].
  - cbn. rewrite orb_false_r. intros H.
    apply includes_startsWith. apply (startsWith_app_l "" b k H).
  - change (Js.startsWith (String c a) k || Js.includes a k = true ->
            Js.startsWith (String c a +:+ b) k
            || Js.includes (a +:+ b) k = true).
    intros H. apply orb_prop in H. destruct H as [H|H].
    + rewrite (startsWith_app_l (String c a) b k H). reflexivity.
    + rewrite (IH H). apply orb_true_r.
Qed.

(** A text built around [s] contains [s]. *)
Lemma includes_embedded (a s b : string) :
  Js.includes (a +:+ s +:+ b) s = true.
Proof.
  apply includes_app_r, includes_startsWith, startsWith_self.
Qed.

End Strings.

(** ** Fallback research results *)

Section Fallback.

Import Research.

(** X5: for every query, [generateFallbackResults] gives three results;
    each has a title that ends with the query, a non-empty source URL and
    a score between 6 and 9, and the row built from it for the insert
    carries the same fields. *)
Theorem generateFallbackResults_shape (query : string) (rid : nat) :
  length (generateFallbackResults query) = 3%nat /\
  Forall (fun r =>
            (exists heading, title r = heading +:+ query) /\
            (exists url, source_url r = Some url /\ Js.truthy url = true) /\
            6 <= relevance_score r <= 9)
         (generateFallbackResults query) /\
  map snd (map (fallback_to_insert rid) (generateFallbackResults query))
    = generateFallbackResults query.
Proof.
  split; [|split; [|apply fallback_rows_unchanged]];
    unfold generateFallbackResults;
    repeat match goal with
           | |- context [Js.includes ?a ?b] =>
               generalize (Js.includes a b); intros [|]; cbn [orb]
           end;
    try reflexivity;
    repeat constructor; cbn; try lia;
    try (eexists; reflexivity);
    try (eexists; split; reflexivity).
Qed.

(** X6: with the depth [comprehensive] the query the runner builds names
    "market research" itself, so whatever the plan, the fallback results
    of that query are the market ones. *)
Theorem comprehensive_query_falls_back_to_market (plan : TaskPlan) :
  generateFallbackResults
    (PlanVisualization.generateAutoResearchQuery plan "comprehensive")
  = market_results
      (PlanVisualization.generateAutoResearchQuery plan "comprehensive").
Proof.
  change (PlanVisualization.generateAutoResearchQuery plan "comprehensive")
    with ("Comprehensive analysis including market research, case studies, and detailed implementation for: "
          +:+ (plan_title plan +:+ " best practices and implementation guide")).
  unfold generateFallbackResults.
  rewrite toLowerCase_app.
  rewrite (includes_app_l _ _ "market") by reflexivity.
  reflexivity.
Qed.

End Fallback.

(** ** The slug, once more *)

Section SlugShape.

Import PlanVisualization.

Lemma planSlug_chars (planTitle : string) :
  planSlug planTitle =
  string_of_list_ascii
    (firstn 30 (map slug_char (list_ascii_of_string planTitle))).
Proof.
  unfold planSlug.
  rewrite substring_from_start, take_firstn, replace_lower_map.
  reflexivity.
Qed.

Lemma slug_char_idempotent (c : ascii) : slug_char (slug_char c) = slug_char c.
Proof. destruct c as [[] [] [] [] [] [] [] []]; reflexivity. Qed.

Lemma slug_char_in_alphabet (c : ascii) : is_slug_char (slug_char c) = true.
Proof. destruct c as [[] [] [] [] [] [] [] []]; reflexivity. Qed.

Lemma list_of_string_of_list (l : list ascii) :
  list_ascii_of_string (string_of_list_ascii l) = l.
Proof. induction l; cbn; congruence. Qed.

(** X7: a slug has at most 30 characters, all of them in [[a-z0-9-]], and
    the slug of a slug is that slug. *)
Theorem planSlug_shape (planTitle : string) :
  (String.length (planSlug planTitle) <= 30)%nat /\
  Forall (fun c => is_slug_char c = true)
         (list_ascii_of_string (planSlug planTitle)) /\
  planSlug (planSlug planTitle) = planSlug planTitle.
Proof.
  rewrite !planSlug_chars, !list_of_string_of_list. split; [|split].
  - rewrite length_string_of_list, length_firstn. lia.
  - apply Forall_take. apply Forall_map. apply Forall_true.
    intros c. apply slug_char_in_alphabet.
  - f_equal. rewrite <- firstn_map, map_map.
    rewrite (map_ext _ slug_char) by apply slug_char_idempotent.
    rewrite firstn_firstn. f_equal.
Qed.

Lemma truthy_planSlug (planTitle : string) :
  Js.truthy (planSlug planTitle) = Js.truthy planTitle.
Proof.
  rewrite planSlug_chars. destruct planTitle; reflexivity.
Qed.

End SlugShape.

(** ** Generated code *)

Section GeneratedCode.

Import Execution.

Lemma generateCodeByType_embeds (codeType instructions : string) :
  Js.includes (generateCodeByType codeType instructions) instructions = true.
Proof.
  unfold generateCodeByType.
  repeat match goal with
         | |- context [String.eqb ?a ?b] => destruct (String.eqb a b)
         end;
    match goal with
    | |- Js.includes (?f instructions) _ = true => unfold f
    end;
    repeat first
      [ apply includes_startsWith, startsWith_self
      | apply includes_app_r ].
Qed.

(** X8: [generateCode] waits 1.5 s, touches nothing else, and resolves to
    one successful result of type [code] whose content contains the
    instructions verbatim; the type it detects is one of eight names, and
    [css], which has no template of its own, gets the general template. *)
Theorem generateCode_result (instructions : string) (db : Db) :
  exists text,
    generateCode instructions db
      = (Returned [{| output_type := "code"; content := text;
                      file_path := None; success := true;
                      error_message := None |}],
         snd (sleep_db 1500 db)) /\
    Js.includes text instructions = true /\
    In (detectCodeType instructions)
       ["react"; "api"; "database"; "html"; "css"; "python"; "javascript";
        "general"] /\
    generateCodeByType "css" instructions
      = generateCodeByType "general" instructions.
Proof.
  exists (generateCodeByType (detectCodeType instructions) instructions).
  split; [reflexivity|]. split; [apply generateCodeByType_embeds|].
  split; [|reflexivity].
  unfold detectCodeType.
  repeat match goal with
         | |- context [Js.includes ?a ?b] =>
             generalize (Js.includes a b); intros [|]; cbn [orb]
         end;
    cbn; tauto.
Qed.

End GeneratedCode.

(** ** Simulated deployments of the runner's configuration *)

Section DeployedUrls.

Import PlanVisualization Deployment.

Variable env : Env.

Lemma config_netlify (plan : TaskPlan) :
  generateAutoDeploymentConfig plan "netlify_static"
  = <["subdomain" := planSlug (plan_title plan)]>
      ({["buildCommand" := "npm run build"]} : gmap string string).
Proof. reflexivity. Qed.

Lemma config_vercel (plan : TaskPlan) :
  generateAutoDeploymentConfig plan "vercel_static"
  = <["projectName" := planSlug (plan_title plan)]>
      ({["framework" := "react"]} : gmap string string).
Proof. reflexivity. Qed.

Lemma config_github (plan : TaskPlan) :
  generateAutoDeploymentConfig plan "github_pages"
  = <["username" := "auto-user"]>
      ({["repository" := planSlug (plan_title plan)]} : gmap string string).
Proof. reflexivity. Qed.

Lemma config_or_slug (planTitle fallback : string) :
  (if Js.truthy (planSlug planTitle) then planSlug planTitle else fallback)
  = slug_or planTitle fallback.
Proof. unfold slug_or. rewrite truthy_planSlug. reflexivity. Qed.

(** X9: what the simulated deployers make of the configuration the runner
    builds for a plan.  Netlify serves the plan's slug as sub-domain and
    GitHub Pages as repository of [auto-user] (a random project name,
    respectively [project], when the title is empty); Vercel is given the
    slug as [projectName] but reads [subdomain], so its URL is a random
    project name whatever the plan. *)
Theorem deployed_urls_of_auto_config (plan : TaskPlan) (db : Db) :
  let t := plan_title plan in
  let random := "project-" +:+ random_suffix env (clock db) in
  (exists d,
      fst (deployToNetlify env
             (generateAutoDeploymentConfig plan "netlify_static") db)
      = Returned d /\
      deployment_url d
      = Some ("https://" +:+ slug_or t random +:+ ".netlify.app")) /\
  (exists d,
      fst (deployToVercel env
             (generateAutoDeploymentConfig plan "vercel_static") db)
      = Returned d /\
      deployment_url d = Some ("https://" +:+ random +:+ ".vercel.app")) /\
  (exists d,
      fst (deployToGitHub env
             (generateAutoDeploymentConfig plan "github_pages") db)
      = Returned d /\
      deployment_url d
      = Some ("https://auto-user.github.io/" +:+ slug_or t "project")).
Proof.
  cbv zeta. split; [|split].
  - rewrite config_netlify.
    unfold deployToNetlify, bind, sleep_db, modify, ret, config_or.
    cbn [fst snd clock].
    eexists. split; [reflexivity|]. cbn [deployment_url].
    rewrite lookup_insert_eq, config_or_slug. reflexivity.
  - rewrite config_vercel.
    unfold deployToVercel, bind, sleep_db, modify, ret, config_or.
    cbn [fst snd clock].
    eexists. split; [reflexivity|]. cbn [deployment_url].
    rewrite lookup_insert_ne by discriminate.
    rewrite lookup_singleton_ne by discriminate. reflexivity.
  - rewrite config_github.
    unfold deployToGitHub, bind, sleep_db, modify, ret, config_or.
    cbn [fst snd clock].
    eexists. split; [reflexivity|]. cbn [deployment_url].
    rewrite lookup_insert_eq.
    rewrite lookup_insert_ne by discriminate.
    rewrite lookup_singleton_eq, config_or_slug. reflexivity.
Qed.

End DeployedUrls.

(** ** The recorders and the tables *)

(** Case analysis on every answer of the store, as the run reaches it. *)
Ltac destruct_faults :=
  repeat (match goal with
          | |- context [db_fault ?e ?n ?c] => destruct (db_fault e n c)
          end; store_cbn).

Section ExecutionTables.

Variable env : Env.

Ltac close_saved :=
  match goal with
  | |- forall saved, _ = Returned saved -> _ =>
      let H := fresh in
      intros ? H; try discriminate H;
      cbv [id default from_option] in H; injection H as <-;
      repeat split; try discriminate; repeat constructor
  | |- _ = false -> _ =>
      let H := fresh in
      intros H; try discriminate H;
      repeat split; try (cbn; lia); repeat constructor
  | |- Forall _ _ => repeat constructor
  end.

Ltac close_rows :=
  cbn [imap map length Execution.stored_row Execution.output_type
       Execution.content Execution.file_path Execution.success
       Execution.error_message fst snd is_returned];
  split; [|repeat split; reflexivity];
  first
    [ eexists; split; [reflexivity|]
    | exists []; split; [symmetry; apply app_nil_r|] ];
  (split; [close_saved|split; close_saved]).

(** What [executeTask] does to the tables. *)
Lemma executeTask_tables (planId ty instructions : string) (db : Db) :
  let out := Execution.executeTask env planId ty instructions db in
  (exists added,
      execution_results (snd out) = (execution_results db ++ added)%list /\
      Forall (fun r => xr_request_id r = next_id db) added /\
      (is_returned (fst out) = false ->
       (length added <= 1)%nat /\
       Forall (fun r => xr_success r = false /\ xr_output_type r = "error")
              added) /\
      (forall saved, fst out = Returned saved ->
                     added = saved /\ saved <> [] /\
                     Forall (fun r => xr_success r = true) saved)) /\
  research_requests (snd out) = research_requests db /\
  research_results (snd out) = research_results db /\
  deployment_requests (snd out) = deployment_requests db /\
  deployment_results (snd out) = deployment_results db.
Proof.
  cbv zeta.
  unfold Execution.executeTask, bind, Execution.insert_request, client_call.
  destruct (db_fault env (clock db) _); store_cbn; [close_rows|].
  unfold try_catch, Execution.try_block, Execution.catch_block, bind,
    Execution.performExecution.
  cbn [xq_execution_type].
  unfold Execution.insert_results, Execution.insert_error_row,
    Execution.update_status, client_call, ret, throw.
  destruct (String.eqb ty "code_generation").
  { unfold Execution.generateCode, Execution.one_output, bind, sleep_db,
      modify, ret.
    store_cbn. destruct_faults; close_rows. }
  destruct (String.eqb ty "script_execution").
  { unfold Execution.executeScript, Execution.one_output, bind, sleep_db,
      modify, ret.
    store_cbn. destruct_faults; close_rows. }
  destruct (String.eqb ty "api_call").
  { unfold Execution.makeApiCall, Execution.one_output, bind, sleep_db,
      modify, ret.
    store_cbn. destruct_faults; close_rows. }
  destruct (String.eqb ty "file_creation").
  { unfold Execution.createFiles, Execution.generateFiles, bind, sleep_db,
      modify, ret.
    store_cbn. destruct_faults; close_rows. }
  destruct (String.eqb ty "environment_setup").
  { unfold Execution.setupEnvironment, Execution.one_output, bind, sleep_db,
      modify, ret.
    store_cbn. destruct_faults; close_rows. }
  store_cbn. destruct_faults; close_rows.
Qed.

End ExecutionTables.

Section ResearchTables.

Variable env : Env.

(** [conductResearch] leaves the tables of the other two domains alone. *)
Lemma conductResearch_other_tables (planId query depth : string) (db : Db) :
  let out := Research.conductResearch env planId query depth db in
  execution_requests (snd out) = execution_requests db /\
  execution_results (snd out) = execution_results db /\
  deployment_requests (snd out) = deployment_requests db /\
  deployment_results (snd out) = deployment_results db.
Proof.
  cbv zeta.
  unfold Research.conductResearch, bind, Research.insert_request, client_call.
  destruct (db_fault env (clock db) _); store_cbn;
    [repeat split; reflexivity|].
  unfold try_catch, Research.try_block, Research.catch_block, bind,
    try_catch, Research.functions_invoke, Research.insert_results,
    Research.update_status, client_call, console_error, modify, ret, throw.
  store_cbn.
  destruct (research_agent env (S (clock db)) _)
    as [[[[raw|]]|] [e|]]; cbn [error data];
    destruct_faults; repeat split; reflexivity.
Qed.

End ResearchTables.

Section DeploymentTables.

Variable env : Env.

Ltac close_deployment :=
  cbn [Deployment.stored_row Deployment.error_row fst snd is_returned
       length];
  split; [|repeat split; reflexivity];
  first
    [ eexists; split; [reflexivity|]
    | exists []; split; [symmetry; apply app_nil_r|] ];
  (split; [repeat constructor|split; [cbn; lia|]]);
  let H := fresh in
  intros ? H; try discriminate H; injection H as <-; reflexivity.

(** What [deployProject] does to the tables. *)
Lemma deployProject_tables (planId ty : string) (config : gmap string string)
  (xid : option nat) (db : Db) :
  let out := Deployment.deployProject env planId ty config xid db in
  (exists added,
      deployment_results (snd out) = (deployment_results db ++ added)%list /\
      Forall (fun r => dr_request_id r = next_id db) added /\
      (length added <= 1)%nat /\
      (forall saved, fst out = Returned (Some saved) -> added = [saved])) /\
  research_requests (snd out) = research_requests db /\
  research_results (snd out) = research_results db /\
  execution_requests (snd out) = execution_requests db /\
  execution_results (snd out) = execution_results db.
Proof.
  cbv zeta.
  unfold Deployment.deployProject, bind, Deployment.insert_request,
    client_call.
  destruct (db_fault env (clock db) _); store_cbn; [close_deployment|].
  unfold try_catch, Deployment.try_block, Deployment.catch_block, bind,
    Deployment.performDeployment.
  cbn [dq_deployment_type].
  unfold Deployment.insert_result, Deployment.update_status, client_call,
    ret, throw.
  destruct (String.eqb ty "netlify_static").
  { unfold Deployment.deployToNetlify, bind, sleep_db, modify, ret.
    store_cbn. destruct_faults; close_deployment. }
  destruct (String.eqb ty "vercel_static").
  { unfold Deployment.deployToVercel, bind, sleep_db, modify, ret.
    store_cbn. destruct_faults; close_deployment. }
  destruct (String.eqb ty "github_pages").
  { unfold Deployment.deployToGitHub, bind, sleep_db, modify, ret.
    store_cbn. destruct_faults; close_deployment. }
  destruct (String.eqb ty "custom_hosting").
  { unfold Deployment.deployToCustomHost, bind, sleep_db, modify, ret.
    store_cbn. destruct_faults; close_deployment. }
  store_cbn. destruct_faults; close_deployment.
Qed.

End DeploymentTables.

Section RecorderInvariants.

Variable env : Env.

Lemma stored_rows_Forall (P : Research.ResearchResultDraft -> Prop)
  (now : nat) (rows : list (nat * Research.ResearchResultDraft)) :
  Forall (fun r => P (snd r)) rows ->
  forall n,
    Forall (fun s => P (research_draft s))
      (imap (fun i r => Research.stored_row (n + i) now r) rows).
Proof.
  induction 1 as [|[rid d] rows Hr _ IH]; intros n; [constructor|].
  cbn [imap]. constructor; [destruct d; exact Hr|].
  specialize (IH (S n)).
  erewrite imap_ext; [exact IH|].
  intros i x _. cbn. f_equal. lia.
Qed.

Lemma fallback_scores (query : string) :
  Forall (fun d => 1 <= Research.relevance_score d <= 10)
         (Research.generateFallbackResults query).
Proof.
  unfold Research.generateFallbackResults.
  repeat match goal with
         | |- context [Js.includes ?a ?b] =>
             generalize (Js.includes a b); intros [|]; cbn [orb]
         end;
    repeat constructor; cbn; lia.
Qed.

Lemma saved_rows_checked {A} (rid now n : nat) (drafts : list A)
  (f : nat -> A -> nat * Research.ResearchResultDraft) :
  (forall d, fst (f rid d) = rid) ->
  Forall (fun d => 1 <= Research.relevance_score (snd (f rid d)) <= 10)
         drafts ->
  Forall (fun r => rr_request_id r = rid /\ 1 <= rr_relevance_score r <= 10)
    (imap (fun i r => Research.stored_row (n + i) now r) (map (f rid) drafts)).
Proof.
  intros Hid Hs. apply Forall_and. split.
  - apply stored_rows_request. apply Forall_map. apply Forall_true.
    exact Hid.
  - apply (stored_rows_Forall
             (fun d => 1 <= Research.relevance_score d <= 10)).
    apply Forall_map. exact Hs.
Qed.

(** The rows [conductResearch] adds, on every path. *)
Lemma conductResearch_rows_checked_aux (planId query depth : string) (db : Db) :
  let out := Research.conductResearch env planId query depth db in
  exists added,
    research_results (snd out) = (research_results db ++ added)%list /\
    Forall (fun r => rr_request_id r = next_id db /\
                     1 <= rr_relevance_score r <= 10) added /\
    (forall rows, fst out = Returned (Research.Persisted rows) ->
                  added = rows).
Proof.
  cbv zeta.
  pose proof (conductResearch_run env planId query depth db) as H.
  cbv zeta in H.
  destruct (ok env (clock db) (InsertRows "research_requests")).
  - destruct (usable _ && ok env _ _).
    + destruct H as (Ho & _ & _ & Hr).
      eexists. split; [exact Hr|]. split.
      * unfold results_of.
        apply (saved_rows_checked _ _ _ _
                 (fun rid raw => Research.to_insert rid raw));
          [reflexivity|].
        apply Forall_true. intros raw. apply clamp_score_range.
      * rewrite Ho. intros rows [= <-]. reflexivity.
    + destruct H as (Ho & _ & _ & Hr).
      revert Ho Hr. case_ok; intros Ho Hr.
      * eexists. split; [exact Hr|]. split.
        -- apply (saved_rows_checked _ _ _ _ Research.fallback_to_insert);
             [reflexivity|].
           apply fallback_scores.
        -- rewrite Ho. intros rows [= <-]. reflexivity.
      * exists []. split; [exact Hr|]. split; [constructor|].
        rewrite Ho. discriminate.
  - destruct H as (Ho & _ & _ & Hr).
    exists []. split; [rewrite Hr; symmetry; apply app_nil_r|].
    split; [constructor|]. rewrite Ho. discriminate.
Qed.

(** X10: on every path, the rows [conductResearch] adds to
    [research_results] belong to the request it created and carry a score
    between 1 and 10, the range the table's check constraint demands; the
    rows it returns as persisted are exactly the rows it added. *)
Theorem conductResearch_rows_checked (planId query depth : string) (db : Db) :
  let out := Research.conductResearch env planId query depth db in
  exists added,
    research_results (snd out) = (research_results db ++ added)%list /\
    Forall (fun r => rr_request_id r = next_id db /\
                     1 <= rr_relevance_score r <= 10) added /\
    (forall rows, fst out = Returned (Research.Persisted rows) ->
                  added = rows).
Proof. apply conductResearch_rows_checked_aux. Qed.

(** X11: a recorder only touches what belongs to its own invocation.
    Every other request of its table keeps its row, its result table only
    grows, by rows of the request it created, and the tables of the other
    two domains stay as they are. *)
Theorem recorders_keep_to_their_rows
  (planId query depth ty instructions dty : string)
  (config : gmap string string) (xid : option nat) (db : Db) (other : nat) :
  other <> next_id db ->
  (let db' := snd (Research.conductResearch env planId query depth db) in
   research_requests db' !! other = research_requests db !! other /\
   (exists added,
       research_results db' = (research_results db ++ added)%list /\
       Forall (fun r => rr_request_id r = next_id db) added) /\
   execution_requests db' = execution_requests db /\
   execution_results db' = execution_results db /\
   deployment_requests db' = deployment_requests db /\
   deployment_results db' = deployment_results db) /\
  (let db' := snd (Execution.executeTask env planId ty instructions db) in
   execution_requests db' !! other = execution_requests db !! other /\
   (exists added,
       execution_results db' = (execution_results db ++ added)%list /\
       Forall (fun r => xr_request_id r = next_id db) added) /\
   research_requests db' = research_requests db /\
   research_results db' = research_results db /\
   deployment_requests db' = deployment_requests db /\
   deployment_results db' = deployment_results db) /\
  (let db' := snd (Deployment.deployProject env planId dty config xid db) in
   deployment_requests db' !! other = deployment_requests db !! other /\
   (exists added,
       deployment_results db' = (deployment_results db ++ added)%list /\
       Forall (fun r => dr_request_id r = next_id db) added) /\
   research_requests db' = research_requests db /\
   research_results db' = research_results db /\
   execution_requests db' = execution_requests db /\
   execution_results db' = execution_results db).
Proof.
  intros Hother. cbv zeta. split; [|split].
  - split; [|split].
    + pose proof (conductResearch_run env planId query depth db) as H.
      cbv zeta in H.
      destruct (ok env (clock db) (InsertRows "research_requests")).
      * destruct (usable _ && ok env _ _);
          destruct H as (_ & _ & -> & _);
          case_ok;
          rewrite ?lookup_alter_ne, lookup_insert_ne by congruence;
          reflexivity.
      * destruct H as (_ & _ & -> & _). reflexivity.
    + destruct (conductResearch_rows_checked_aux planId query depth db)
        as (added & Hr & Hall & _).
      exists added. split; [exact Hr|].
      eapply Forall_impl; [exact Hall|]. intros r [Hid _]. exact Hid.
    + apply conductResearch_other_tables.
  - pose proof (executeTask_tables env planId ty instructions db) as T.
    cbv zeta in T. destruct T as ((added & Hr & Hall & _) & T).
    split; [|split; [exists added; split; assumption|exact T]].
    pose proof (executeTask_run env planId ty instructions db) as H.
    cbv zeta in H.
    destruct (ok env (clock db) (InsertRows "execution_requests")).
    + destruct (known_execution_type ty && ok env _ _);
        destruct H as (_ & _ & ->);
        case_ok;
        rewrite ?lookup_alter_ne, lookup_insert_ne by congruence;
        reflexivity.
    + destruct H as (_ & _ & ->). reflexivity.
  - pose proof (deployProject_tables env planId dty config xid db) as T.
    cbv zeta in T. destruct T as ((added & Hr & Hall & _) & T).
    split; [|split; [exists added; split; assumption|exact T]].
    pose proof (deployProject_run env planId dty config xid db) as H.
    cbv zeta in H.
    destruct (ok env (clock db) (InsertRows "deployment_requests")).
    + destruct (known_deployment_type dty && ok env _ _).
      * destruct H as (_ & _ & ->).
        case_ok;
          rewrite ?lookup_alter_ne, lookup_insert_ne by congruence;
          reflexivity.
      * destruct H as (_ & _ & -> & _).
        case_ok;
          rewrite ?lookup_alter_ne, lookup_insert_ne by congruence;
          reflexivity.
    + destruct H as (_ & _ & -> & _). reflexivity.
Qed.

End RecorderInvariants.

Lemma recorders_keep_to_their_rows_witness :
  7%nat <> next_id empty_db /\
  execution_requests (snd Runs.execution_all_good) !! 7%nat
  = execution_requests empty_db !! 7%nat.
Proof.
  split; [discriminate|].
  exact (proj1 (proj1 (proj2
    (recorders_keep_to_their_rows (Scenario.env_of Scenario.no_fault
                                     Scenario.edge_up)
       "plan-1" "Market Research best practices" "detailed"
       "code_generation" "Create implementation for: Market Research"
       "netlify_static" ∅ None empty_db 7%nat
       ltac:(discriminate))))).
Defined.

Section RecorderRows.

Variable env : Env.

(** X12: the rows of one [executeTask].  When it returns, the rows it
    returns are exactly the rows it added to [execution_results]: at least
    one, all successful.  When it raises, it has added at most one row, an
    error row ([success] false, type [error]). *)
Theorem executeTask_rows (planId ty instructions : string) (db : Db) :
  let out := Execution.executeTask env planId ty instructions db in
  exists added,
    execution_results (snd out) = (execution_results db ++ added)%list /\
    Forall (fun r => xr_request_id r = next_id db) added /\
    (is_returned (fst out) = false ->
     (length added <= 1)%nat /\
     Forall (fun r => xr_success r = false /\ xr_output_type r = "error")
            added) /\
    (forall saved, fst out = Returned saved ->
                   added = saved /\ saved <> [] /\
                   Forall (fun r => xr_success r = true) saved).
Proof. exact (proj1 (executeTask_tables env planId ty instructions db)). Qed.

(** X13: one [deployProject] adds at most one row to
    [deployment_results], a row of the request it created; a row it
    returns is that row. *)
Theorem deployProject_rows (planId ty : string) (config : gmap string string)
  (xid : option nat) (db : Db) :
  let out := Deployment.deployProject env planId ty config xid db in
  exists added,
    deployment_results (snd out) = (deployment_results db ++ added)%list /\
    Forall (fun r => dr_request_id r = next_id db) added /\
    (length added <= 1)%nat /\
    (forall saved, fst out = Returned (Some saved) -> added = [saved]).
Proof. exact (proj1 (deployProject_tables env planId ty config xid db)). Qed.

(** X14: [performExecution] has a case for five execution types.  For
    each it waits between 1 and 3 seconds, sends nothing to the store and
    resolves to at least one result, all successful; for any other type
    it throws "Unknown execution type" at once. *)
Theorem performExecution_cases (ty instructions : string) (db : Db) :
  if known_execution_type ty
  then exists results ms,
      Execution.performExecution env ty instructions db
        = (Returned results, snd (sleep_db ms db)) /\
      1000 <= ms <= 3000 /\
      results <> [] /\
      Forall (fun r => Execution.success r = true /\
                       Execution.error_message r = None) results
  else Execution.performExecution env ty instructions db
       = (Thrown {| message := "Unknown execution type" |}, db).
Proof.
  unfold known_execution_type, Execution.performExecution.
  cbn [existsb].
  destruct (String.eqb ty "code_generation"); cbn [orb].
  { eexists _, 1500. split; [reflexivity|].
    split; [lia|]. split; [discriminate|]. repeat constructor. }
  destruct (String.eqb ty "script_execution"); cbn [orb].
  { eexists _, 2000. split; [reflexivity|].
    split; [lia|]. split; [discriminate|]. repeat constructor. }
  destruct (String.eqb ty "api_call"); cbn [orb].
  { eexists _, 1000. split; [reflexivity|].
    split; [lia|]. split; [discriminate|]. repeat constructor. }
  destruct (String.eqb ty "file_creation"); cbn [orb].
  { eexists _, 1500. split; [reflexivity|].
    split; [lia|]. split; [discriminate|]. repeat constructor. }
  destruct (String.eqb ty "environment_setup"); cbn [orb].
  { eexists _, 3000. split; [reflexivity|].
    split; [lia|]. split; [discriminate|]. repeat constructor. }
  reflexivity.
Qed.

(** X15: the calls of one invocation.  A recorder first sends the insert
    of its request; when that fails it sends nothing else.  Otherwise
    [conductResearch] sends three or four more calls, [executeTask] and
    [deployProject] two or three. *)
Theorem recorder_calls
  (planId query depth ty instructions dty : string)
  (config : gmap string string) (xid : option nat) (db : Db) :
  (exists more,
      journal (snd (Research.conductResearch env planId query depth db))
        = (journal db ++ InsertRows "research_requests" :: more)%list /\
      length more =
        if ok env (clock db) (InsertRows "research_requests")
        then if usable (research_agent env (S (clock db))
                          (research_body query depth))
                && negb (ok env (S (S (clock db)))
                           (InsertRows "research_results"))
             then 4%nat else 3%nat
        else 0%nat) /\
  (exists more,
      journal (snd (Execution.executeTask env planId ty instructions db))
        = (journal db ++ InsertRows "execution_requests" :: more)%list /\
      length more =
        if ok env (clock db) (InsertRows "execution_requests")
        then if known_execution_type ty
                && negb (ok env (S (clock db))
                           (InsertRows "execution_results"))
             then 3%nat else 2%nat
        else 0%nat) /\
  (exists more,
      journal (snd (Deployment.deployProject env planId dty config xid db))
        = (journal db ++ InsertRows "deployment_requests" :: more)%list /\
      length more =
        if ok env (clock db) (InsertRows "deployment_requests")
        then if known_deployment_type dty
                && negb (ok env (S (clock db))
                           (InsertRows "deployment_results"))
             then 3%nat else 2%nat
        else 0%nat).
Proof.
  split; [|split].
  - pose proof (conductResearch_run env planId query depth db) as H.
    cbv zeta in H.
    destruct (ok env (clock db) (InsertRows "research_requests")).
    + destruct (usable _) eqn:Hu; cbn [andb] in *.
      * destruct (ok env (S (S (clock db))) _); cbn [negb];
          destruct H as (_ & -> & _); eexists; split; reflexivity.
      * destruct H as (_ & -> & _). eexists; split; reflexivity.
    + destruct H as (_ & -> & _). eexists; split; reflexivity.
  - pose proof (executeTask_run env planId ty instructions db) as H.
    cbv zeta in H.
    destruct (ok env (clock db) (InsertRows "execution_requests")).
    + destruct (known_execution_type ty); cbn [andb] in *.
      * destruct (ok env (S (clock db)) _); cbn [negb];
          destruct H as (_ & -> & _); eexists; split; reflexivity.
      * destruct H as (_ & -> & _). eexists; split; reflexivity.
    + destruct H as (_ & -> & _). eexists; split; reflexivity.
  - pose proof (deployProject_run env planId dty config xid db) as H.
    cbv zeta in H.
    destruct (ok env (clock db) (InsertRows "deployment_requests")).
    + destruct (known_deployment_type dty); cbn [andb] in *.
      * destruct (ok env (S (clock db)) _); cbn [negb];
          destruct H as (_ & -> & _); eexists; split; reflexivity.
      * destruct H as (_ & -> & _). eexists; split; reflexivity.
    + destruct H as (_ & -> & _). eexists; split; reflexivity.
Qed.

End RecorderRows.

(** ** The runner: what a run leaves in the component state *)

Section RunnerState.

Import PlanVisualization.

Context {W R E D : Type}.
Variable conductResearch : string -> string -> M W R.
Variable executeTask : string -> string -> string -> M W E.
Variable deployProject : string -> string -> gmap string string -> M W D.
Variable plans : list TaskPlan.
Variable render : UiState.

Lemma keeps_selection_ret {A} ids (a : A) :
  keeps_selection (W := W) ids (ret a).
Proof. intros r. cbn. repeat split; try reflexivity; set_solver. Qed.

Lemma keeps_selection_weaken {A} ids ids' (c : M (Runner W) A) :
  ids ⊆ ids' -> keeps_selection ids c -> keeps_selection ids' c.
Proof.
  intros Hsub Hc r. destruct (Hc r) as (? & ? & ? & ? & ? & ?).
  repeat split; try assumption. set_solver.
Qed.

Lemma keeps_selection_bind {A B} ids (c : M (Runner W) A)
  (k : A -> M (Runner W) B) :
  keeps_selection ids c -> (forall a, keeps_selection ids (k a)) ->
  keeps_selection ids (bind c k).
Proof.
  intros Hc Hk r. unfold bind. specialize (Hc r).
  destruct (c r) as [[a|e] r1]; cbn in *; [|assumption].
  specialize (Hk a r1). cbv zeta in Hk.
  destruct Hc as (? & ? & ? & ? & ? & ?).
  destruct Hk as (? & ? & ? & ? & ? & ?).
  repeat split; [congruence..|set_solver|set_solver].
Qed.

Lemma keeps_selection_try {A} ids (c : M (Runner W) A)
  (h : JsError -> M (Runner W) A) :
  keeps_selection ids c -> (forall e, keeps_selection ids (h e)) ->
  keeps_selection ids (try_catch c h).
Proof.
  intros Hc Hh r. unfold try_catch. specialize (Hc r).
  destruct (c r) as [[a|e] r1]; cbn in *; [assumption|].
  specialize (Hh e r1). cbv zeta in Hh.
  destruct Hc as (? & ? & ? & ? & ? & ?).
  destruct Hh as (? & ? & ? & ? & ? & ?).
  repeat split; [congruence..|set_solver|set_solver].
Qed.

Lemma keeps_selection_phase ids v :
  keeps_selection (W := W) ids (setCurrentAutoPhase v).
Proof. intros r. cbn. repeat split; try reflexivity; set_solver. Qed.

Lemma keeps_selection_task ids v :
  keeps_selection (W := W) ids (setCurrentAutoTask v).
Proof. intros r. cbn. repeat split; try reflexivity; set_solver. Qed.

Lemma keeps_selection_completed ids id :
  id ∈ ids -> keeps_selection (W := W) ids (addCompletedAutoTask id).
Proof. intros Hin r. cbn. repeat split; try reflexivity; set_solver. Qed.

Lemma keeps_selection_delay ids ms :
  keeps_selection (W := W) ids (delay ms).
Proof. intros r. cbn. repeat split; try reflexivity; set_solver. Qed.

Lemma keeps_selection_log ids l e :
  keeps_selection (W := W) ids (log_error l e).
Proof. intros r. cbn. repeat split; try reflexivity; set_solver. Qed.

Lemma keeps_selection_call {A} ids (c : M W A) :
  keeps_selection ids (call c).
Proof.
  intros r. unfold call. destruct (c (world r)). cbn.
  repeat split; try reflexivity; set_solver.
Qed.

Lemma keeps_selection_if {A} ids (b : bool) (c1 c2 : M (Runner W) A) :
  keeps_selection ids c1 -> keeps_selection ids c2 ->
  keeps_selection ids (if b then c1 else c2).
Proof. destruct b; auto. Qed.

Lemma run_plan_keeps_selection preferences plan is_last :
  keeps_selection {[ plan_id plan ]}
    (run_plan conductResearch executeTask deployProject preferences plan
       is_last).
Proof.
  unfold run_plan.
  repeat first
    [ apply keeps_selection_bind; [|intros ?]
    | apply keeps_selection_if
    | apply keeps_selection_ret
    | apply keeps_selection_phase
    | apply keeps_selection_delay
    | apply keeps_selection_call
    | apply keeps_selection_completed; set_solver ].
Qed.

Lemma for_plans_keeps_selection preferences (rest : list TaskPlan) :
  keeps_selection (list_to_set (map plan_id rest))
    (for_plans conductResearch executeTask deployProject render preferences
       rest).
Proof.
  induction rest as [|plan rest IH].
  - apply keeps_selection_ret.
  - cbn [for_plans]. apply keeps_selection_if; [apply keeps_selection_ret|].
    apply keeps_selection_bind; [apply keeps_selection_task|intros _].
    apply keeps_selection_bind; [|intros _].
    + apply keeps_selection_try.
      * eapply keeps_selection_weaken; [|apply run_plan_keeps_selection].
        cbn. set_solver.
      * intros e. apply keeps_selection_log.
    + eapply keeps_selection_weaken; [|exact IH]. cbn. set_solver.
Qed.

(** X16: whatever the recorders do, a run of [handleAutoStartAll]
    replaces the started and the expanded plans by the identifiers of
    all plans, stores the preferences, removes no plan from the completed
    ones and adds only identifiers of its plans to them. *)
Theorem handleAutoStartAll_marks_plans
  (preferences : AutoStartPreferences) (r : Runner W) :
  let r' := snd (handleAutoStartAll conductResearch executeTask deployProject
                   plans render preferences r) in
  let ids : gset string := list_to_set (map plan_id plans) in
  startedTasks (ui r') = ids /\
  expandedPlans (ui r') = ids /\
  autoPreferences (ui r') = Some preferences /\
  completedAutoTasks (ui r) ⊆ completedAutoTasks (ui r') /\
  completedAutoTasks (ui r') ⊆ completedAutoTasks (ui r) ∪ ids.
Proof.
  cbv zeta.
  destruct (handleAutoStartAll conductResearch executeTask deployProject
              plans render preferences r) as [o r'] eqn:Hall.
  revert Hall. unfold handleAutoStartAll.
  unfold bind at 1. cbn [setAutoPreferences set_ui modify].
  unfold bind at 1. cbn [setIsAutoRunning set_ui modify].
  unfold bind at 1. cbn [setStartedTasks set_ui modify].
  unfold bind at 1. cbn [setExpandedPlans set_ui modify].
  unfold bind at 1.
  match goal with
  | |- context [for_plans _ _ _ _ _ plans ?s] =>
      pose proof (for_plans_keeps_selection preferences plans s) as K;
      destruct (for_plans_returns conductResearch executeTask deployProject
                  render preferences plans s) as (r1 & fs & Hrun & _)
  end.
  rewrite Hrun in K |- *. cbn in K |- *.
  intros Hall. injection Hall as _ <-. cbn.
  destruct K as (? & ? & _ & ? & ? & ?).
  repeat split; assumption.
Qed.

(** When the whole body of an iteration returns, the plan has been added
    to the completed ones. *)
Lemma run_plan_completes preferences plan is_last (r : Runner W) :
  fst (run_plan conductResearch executeTask deployProject preferences plan
         is_last r) = Returned tt ->
  plan_id plan ∈
    completedAutoTasks
      (ui (snd (run_plan conductResearch executeTask deployProject
                  preferences plan is_last r))).
Proof.
  unfold run_plan.
  destruct (enableResearch preferences), (enableExecution preferences),
    (enableDeployment preferences), (pauseBetweenTasks preferences && negb is_last);
    unfold bind, call;
    cbn [setCurrentAutoPhase addCompletedAutoTask set_ui modify delay ret
         world ui runner_console waited_ms fst snd];
    repeat (match goal with
            | |- context [conductResearch ?a ?b ?w] =>
                destruct (conductResearch a b w) as [[?|?] ?]
            | |- context [executeTask ?a ?b ?c ?w] =>
                destruct (executeTask a b c w) as [[?|?] ?]
            | |- context [deployProject ?a ?b ?c ?w] =>
                destruct (deployProject a b c w) as [[?|?] ?]
            end; cbn);
    cbn;
    intros H; try discriminate H; set_solver.
Qed.

Lemma for_plans_accounts preferences (rest : list TaskPlan) (s : Runner W) :
  isAutoRunning render = true ->
  exists r' failures,
    for_plans conductResearch executeTask deployProject render preferences
      rest s = (Returned tt, r') /\
    runner_console r' = (runner_console s ++ failures)%list /\
    forall plan, In plan rest ->
      plan_id plan ∈ completedAutoTasks (ui r') \/
      exists entry, In entry failures /\ label entry = failure_label plan.
Proof.
  intros running. revert s. induction rest as [|plan rest IH]; intros s.
  - exists s, []. cbn. rewrite app_nil_r. split; [reflexivity|].
    split; [reflexivity|]. intros ? [].
  - cbn [for_plans]. rewrite running. cbn [negb].
    unfold bind at 1. cbn [setCurrentAutoTask set_ui modify].
    unfold bind at 1. unfold try_catch.
    match goal with
    | |- context [run_plan _ _ _ _ _ ?l ?s0] =>
        pose proof (run_plan_keeps_console conductResearch executeTask
                      deployProject preferences plan l s0) as K;
        pose proof (run_plan_completes preferences plan l s0) as C;
        destruct (run_plan conductResearch executeTask deployProject
                    preferences plan l s0) as [[[]|e] r1]
    end; cbn in K, C; cbn beta iota zeta.
    + destruct (IH r1) as (r' & fs & Hrun & Hcon & Hall).
      pose proof (for_plans_keeps_selection preferences rest r1) as S.
      cbv zeta in S. rewrite Hrun in S. cbn in S.
      destruct S as (_ & _ & _ & _ & Hmono & _).
      exists r', fs. split; [exact Hrun|].
      split; [rewrite Hcon, K; reflexivity|].
      intros p [<-|Hp]; [left|exact (Hall p Hp)].
      apply Hmono, C. reflexivity.
    + cbn [log_error modify].
      match goal with
      | |- context [for_plans _ _ _ _ _ rest ?s1] =>
          destruct (IH s1) as (r' & fs & Hrun & Hcon & Hall)
      end.
      exists r', ({| label := failure_label plan; logged := e |} :: fs).
      split; [exact Hrun|].
      split; [rewrite Hcon; cbn; rewrite K, <- app_assoc; reflexivity|].
      intros p [<-|Hp].
      * right. eexists. split; [left; reflexivity|reflexivity].
      * destruct (Hall p Hp) as [?|(entry & ? & ?)]; [left; assumption|].
        right. exists entry. split; [right|]; assumption.
Qed.

(** When no recorder raises, the body of an iteration returns. *)
Lemma run_plan_returns preferences plan is_last (r : Runner W) :
  never_raises conductResearch executeTask deployProject ->
  fst (run_plan conductResearch executeTask deployProject preferences plan
         is_last r) = Returned tt.
Proof.
  intros (Hr & He & Hd). unfold run_plan.
  destruct (enableResearch preferences), (enableExecution preferences),
    (enableDeployment preferences), (pauseBetweenTasks preferences && negb is_last);
    unfold bind, call;
    cbn [setCurrentAutoPhase addCompletedAutoTask set_ui modify delay ret
         world ui runner_console waited_ms fst snd];
    repeat (match goal with
            | |- context [conductResearch ?a ?b ?w] =>
                pose proof (Hr a b w);
                destruct (conductResearch a b w) as [[?|?] ?]
            | |- context [executeTask ?a ?b ?c ?w] =>
                pose proof (He a b c w);
                destruct (executeTask a b c w) as [[?|?] ?]
            | |- context [deployProject ?a ?b ?c ?w] =>
                pose proof (Hd a b c w);
                destruct (deployProject a b c w) as [[?|?] ?]
            end; cbn in *; try discriminate);
    reflexivity.
Qed.

(** When no recorder raises, the loop writes nothing to the console. *)
Lemma for_plans_quiet preferences (rest : list TaskPlan) (s : Runner W) :
  never_raises conductResearch executeTask deployProject ->
  runner_console
    (snd (for_plans conductResearch executeTask deployProject render
            preferences rest s))
  = runner_console s.
Proof.
  intros quiet. revert s. induction rest as [|plan rest IH]; intros s.
  - reflexivity.
  - cbn [for_plans]. destruct (negb (isAutoRunning render)); [reflexivity|].
    unfold bind at 1. cbn [setCurrentAutoTask set_ui modify].
    unfold bind at 1. unfold try_catch.
    match goal with
    | |- context [run_plan _ _ _ _ _ ?l ?s0] =>
        pose proof (run_plan_keeps_console conductResearch executeTask
                      deployProject preferences plan l s0) as K;
        pose proof (run_plan_returns preferences plan l s0 quiet) as C;
        destruct (run_plan conductResearch executeTask deployProject
                    preferences plan l s0) as [[[]|e] r1]
    end; cbn in K, C; [|discriminate C].
    rewrite IH. exact K.
Qed.

(** C7: whatever the recorders do, and however many of them raise, a run
    of [handleAutoStartAll] returns normally and leaves the component
    idle ([isAutoRunning] false, no current task, no current phase).
    All it shows of failed steps is entries of the console, each with the
    label of a plan.  In a run that enters the loop every plan that is
    not among the completed ones afterwards has such an entry; a run
    whose render has [isAutoRunning] false invokes no recorder and logs
    nothing, and so does a run in which no recorder raises. *)
Theorem handleAutoStartAll_reaches_idle
  (preferences : AutoStartPreferences) (r : Runner W) :
  exists r' failures,
    handleAutoStartAll conductResearch executeTask deployProject plans render
      preferences r = (Returned tt, r') /\
    isAutoRunning (ui r') = false /\
    currentAutoTask (ui r') = None /\
    currentAutoPhase (ui r') = None /\
    runner_console r' = (runner_console r ++ failures)%list /\
    Forall (fun entry =>
              exists plan, In plan plans /\ label entry = failure_label plan)
           failures /\
    (isAutoRunning render = true ->
     forall plan, In plan plans ->
       plan_id plan ∈ completedAutoTasks (ui r') \/
       exists entry, In entry failures /\ label entry = failure_label plan) /\
    (isAutoRunning render = false -> failures = [] /\ world r' = world r) /\
    (never_raises conductResearch executeTask deployProject ->
     failures = []).
Proof.
  unfold handleAutoStartAll.
  unfold bind at 1. cbn [setAutoPreferences set_ui modify].
  unfold bind at 1. cbn [setIsAutoRunning set_ui modify].
  unfold bind at 1. cbn [setStartedTasks set_ui modify].
  unfold bind at 1. cbn [setExpandedPlans set_ui modify].
  unfold bind at 1.
  match goal with
  | |- context [for_plans _ _ _ _ _ plans ?s] =>
      destruct (for_plans_returns conductResearch executeTask deployProject
                  render preferences plans s)
        as (r1 & fs & Hrun & Hcon & Hall);
      pose proof (for_plans_accounts preferences plans s) as Hacc;
      pose proof (for_plans_stale conductResearch executeTask deployProject
                    render preferences plans s) as Hstale;
      pose proof (for_plans_quiet preferences plans s) as Hquiet
  end.
  rewrite Hrun in Hacc, Hstale, Hquiet |- *.
  eexists _, fs. split; [reflexivity|].
  cbn [ui runner_console world isAutoRunning currentAutoTask currentAutoPhase
       completedAutoTasks setIsAutoRunning setCurrentAutoTask
       setCurrentAutoPhase set_ui modify bind fst snd] in *.
  split; [reflexivity|]. split; [reflexivity|]. split; [reflexivity|].
  split; [exact Hcon|]. split; [exact Hall|]. split; [|split].
  - intros running.
    destruct (Hacc running) as (r2 & fs2 & Heq & Hcon2 & Hplans).
    injection Heq as <-.
    rewrite Hcon in Hcon2. apply app_inv_head in Hcon2. subst fs2.
    exact Hplans.
  - intros stale. specialize (Hstale stale). injection Hstale as ->.
    cbn [runner_console world] in Hcon |- *.
    split; [|reflexivity].
    rewrite <- (app_nil_r (runner_console r)) in Hcon at 1.
    apply app_inv_head in Hcon. symmetry. exact Hcon.
  - intros quiet. specialize (Hquiet quiet).
    rewrite Hcon in Hquiet.
    rewrite <- (app_nil_r (runner_console r)) in Hquiet at 2.
    apply app_inv_head in Hquiet. exact Hquiet.
Qed.

(** X17: in a run whose render has [isAutoRunning] true, every plan is
    accounted for: it is among the completed plans afterwards, or the
    console has received the entry of its failure. *)
Theorem handleAutoStartAll_accounts_for_plans
  (preferences : AutoStartPreferences) (r : Runner W) :
  isAutoRunning render = true ->
  let r' := snd (handleAutoStartAll conductResearch executeTask deployProject
                   plans render preferences r) in
  exists failures,
    runner_console r' = (runner_console r ++ failures)%list /\
    forall plan, In plan plans ->
      plan_id plan ∈ completedAutoTasks (ui r') \/
      exists entry, In entry failures /\ label entry = failure_label plan.
Proof.
  intros running. cbv zeta.
  destruct (handleAutoStartAll conductResearch executeTask deployProject
              plans render preferences r) as [o r'] eqn:Hall.
  revert Hall. unfold handleAutoStartAll.
  unfold bind at 1. cbn [setAutoPreferences set_ui modify].
  unfold bind at 1. cbn [setIsAutoRunning set_ui modify].
  unfold bind at 1. cbn [setStartedTasks set_ui modify].
  unfold bind at 1. cbn [setExpandedPlans set_ui modify].
  unfold bind at 1. cbn [snd].
  match goal with
  | |- context [for_plans _ _ _ _ _ plans ?s0] =>
      destruct (for_plans_accounts preferences plans s0 running)
        as (r1 & fs & Hrun & Hcon & Hacc)
  end.
  rewrite Hrun. cbn in Hcon |- *.
  intros H. injection H as _ <-. cbn.
  exists fs. split; [exact Hcon|exact Hacc].
Qed.

End RunnerState.

(** ** The runner against the test double, with recorders that raise *)

Section RunnerAttempts.

Import PlanVisualization.

Variable raises : Double.Invocation -> bool.
Variable render : UiState.
Variable preferences : AutoStartPreferences.

Hypothesis running : isAutoRunning render = true.

Lemma run_plan_attempts (plan : TaskPlan) (is_last : bool)
  (r : Runner (list Double.Invocation)) :
  exists o r',
    run_plan (Double.conductResearch raises) (Double.executeTask raises)
      (Double.deployProject raises) preferences plan is_last r = (o, r') /\
    world r' = (world r ++ Attempts.attempts raises preferences plan)%list /\
    runner_console r' = runner_console r /\
    if Attempts.completes raises preferences plan
    then o = Returned tt /\
         completedAutoTasks (ui r')
         = completedAutoTasks (ui r) ∪ {[ plan_id plan ]}
    else o = Thrown {| message := "recorder failed" |} /\
         completedAutoTasks (ui r') = completedAutoTasks (ui r).
Proof.
  unfold run_plan, Attempts.attempts, Attempts.completes,
    Attempts.enabled_phases.
  unfold Double.conductResearch, Double.executeTask, Double.deployProject,
    Double.recorder, call, bind.
  destruct (enableResearch preferences), (enableExecution preferences),
    (enableDeployment preferences);
    cbn [app Attempts.until_raise forallb andb negb
         setCurrentAutoPhase addCompletedAutoTask set_ui modify delay ret
         world ui runner_console waited_ms fst snd];
    repeat (match goal with
            | |- context [raises ?i] => destruct (raises i)
            end;
            cbn [app Attempts.until_raise forallb andb negb
                 setCurrentAutoPhase addCompletedAutoTask set_ui modify
                 delay ret
                 world ui runner_console waited_ms fst snd]);
    try (destruct (pauseBetweenTasks preferences && negb is_last);
         cbn [delay modify ret ui world runner_console waited_ms]);
    eexists _, _; (split; [reflexivity|]);
    cbn [world ui runner_console completedAutoTasks];
    rewrite <- ?app_assoc, ?app_nil_r; repeat split; reflexivity.
Qed.

Lemma for_plans_attempts (rest : list TaskPlan)
  (r : Runner (list Double.Invocation)) :
  exists r',
    for_plans (Double.conductResearch raises) (Double.executeTask raises)
      (Double.deployProject raises) render preferences rest r
    = (Returned tt, r') /\
    world r' = (world r ++ flat_map (Attempts.attempts raises preferences)
                             rest)%list /\
    completedAutoTasks (ui r')
    = completedAutoTasks (ui r) ∪
      list_to_set (map plan_id
                     (List.filter (Attempts.completes raises preferences)
                        rest)) /\
    runner_console r'
    = (runner_console r ++
       map Attempts.failure_entry
         (List.filter (fun p => negb (Attempts.completes raises preferences p))
            rest))%list.
Proof.
  revert r. induction rest as [|plan rest IH]; intros r.
  - exists r. cbn. rewrite !app_nil_r, union_empty_r_L. repeat split.
  - cbn [for_plans]. rewrite running. cbn [negb].
    unfold bind at 1. cbn [setCurrentAutoTask set_ui modify].
    unfold bind at 1. unfold try_catch.
    cbn [flat_map List.filter].
    match goal with
    | |- context [run_plan _ _ _ _ _ ?l ?s] =>
        destruct (run_plan_attempts plan l s) as (o & r1 & -> & Hw & Hl & Hc)
    end.
    cbn [world ui runner_console completedAutoTasks] in Hw, Hl, Hc.
    destruct (Attempts.completes raises preferences plan);
      destruct Hc as (-> & Hc); cbn [negb map list_to_set].
    + destruct (IH r1) as (r' & Hrun & Hw' & Hc' & Hl').
      exists r'. split; [exact Hrun|].
      rewrite Hw', Hc', Hl', Hw, Hc, Hl, <- !app_assoc, <- !(assoc_L (∪)).
      repeat split.
    + cbn [log_error modify].
      match goal with
      | |- context [for_plans _ _ _ _ _ rest ?s] =>
          destruct (IH s) as (r' & Hrun & Hw' & Hc' & Hl')
      end.
      cbn [world ui runner_console] in Hw', Hc', Hl'.
      exists r'. split; [exact Hrun|].
      rewrite Hw', Hc', Hl', Hw, Hc, Hl, <- !app_assoc.
      repeat split.
Qed.

(** X18: with recorders that record their invocation and raise as
    [raises] says, a run from a render with [isAutoRunning] true invokes,
    plan after plan, the enabled phases in the order research, execution,
    deployment up to and including the first that raises; it adds to the
    completed plans exactly those none of whose phases raised, and
    writes one console entry for each of the others, in the order of the
    plans. *)
Theorem handleAutoStartAll_attempts (plans : list TaskPlan)
  (r : Runner (list Double.Invocation)) :
  let r' := snd (handleAutoStartAll (Double.conductResearch raises)
                   (Double.executeTask raises) (Double.deployProject raises)
                   plans render preferences r) in
  world r'
  = (world r ++ flat_map (Attempts.attempts raises preferences) plans)%list /\
  completedAutoTasks (ui r')
  = completedAutoTasks (ui r) ∪
    list_to_set (map plan_id
                   (List.filter (Attempts.completes raises preferences)
                      plans)) /\
  runner_console r'
  = (runner_console r ++
     map Attempts.failure_entry
       (List.filter (fun p => negb (Attempts.completes raises preferences p))
          plans))%list.
Proof.
  cbv zeta.
  destruct (handleAutoStartAll (Double.conductResearch raises)
              (Double.executeTask raises) (Double.deployProject raises)
              plans render preferences r) as [o r'] eqn:Hall.
  revert Hall. unfold handleAutoStartAll.
  unfold bind at 1. cbn [setAutoPreferences set_ui modify].
  unfold bind at 1. cbn [setIsAutoRunning set_ui modify].
  unfold bind at 1. cbn [setStartedTasks set_ui modify].
  unfold bind at 1. cbn [setExpandedPlans set_ui modify].
  unfold bind at 1. cbn [snd].
  match goal with
  | |- context [for_plans _ _ _ _ _ plans ?s0] =>
      destruct (for_plans_attempts plans s0) as (r1 & Hrun & Hw & Hc & Hl)
  end.
  rewrite Hrun. cbn in Hw, Hc, Hl |- *.
  intros H. injection H as _ <-. cbn.
  split; [exact Hw|]. split; [exact Hc|exact Hl].
Qed.

End RunnerAttempts.

Lemma handleAutoStartAll_accounts_for_plans_witness :
  isAutoRunning Attempts.running_ui = true /\
  exists failures,
    PlanVisualization.runner_console
      (snd (PlanVisualization.handleAutoStartAll
              (Double.conductResearch Attempts.first_execution_raises)
              (Double.executeTask Attempts.first_execution_raises)
              (Double.deployProject Attempts.first_execution_raises)
              Scenario.two_plans Attempts.running_ui Scenario.all_phases
              (PlanVisualization.start Attempts.running_ui [])))
    = ([] ++ failures)%list /\
    forall plan, In plan Scenario.two_plans ->
      plan_id plan ∈
        completedAutoTasks
          (PlanVisualization.ui
             (snd (PlanVisualization.handleAutoStartAll
                     (Double.conductResearch Attempts.first_execution_raises)
                     (Double.executeTask Attempts.first_execution_raises)
                     (Double.deployProject Attempts.first_execution_raises)
                     Scenario.two_plans Attempts.running_ui
                     Scenario.all_phases
                     (PlanVisualization.start Attempts.running_ui [])))) \/
      exists entry, In entry failures /\ label entry = failure_label plan.
Proof.
  split; [reflexivity|].
  apply (handleAutoStartAll_accounts_for_plans
           (Double.conductResearch Attempts.first_execution_raises)
           (Double.executeTask Attempts.first_execution_raises)
           (Double.deployProject Attempts.first_execution_raises)
           Scenario.two_plans Attempts.running_ui Scenario.all_phases
           (PlanVisualization.start Attempts.running_ui [])).
  reflexivity.
Defined.

Lemma handleAutoStartAll_attempts_witness :
  isAutoRunning Attempts.running_ui = true /\
  PlanVisualization.world
    (snd (PlanVisualization.handleAutoStartAll
            (Double.conductResearch Attempts.first_execution_raises)
            (Double.executeTask Attempts.first_execution_raises)
            (Double.deployProject Attempts.first_execution_raises)
            Scenario.two_plans Attempts.running_ui Scenario.all_phases
            (PlanVisualization.start Attempts.running_ui [])))
  = [ (research, "plan-1"); (execution, "plan-1");
      (research, "plan-2"); (execution, "plan-2"); (deployment, "plan-2") ].
Proof.
  split; [reflexivity|].
  exact (proj1 (handleAutoStartAll_attempts Attempts.first_execution_raises
                  Attempts.running_ui Scenario.all_phases eq_refl
                  Scenario.two_plans
                  (PlanVisualization.start Attempts.running_ui []))).
Defined.

(** ** The [research-agent] edge function *)

Section StableSort.

Import JsGlobal ResearchAgent.

Lemma insert_sorted_length (x : ResearchResult) l :
  length (insert_sorted by_score x l) = S (length l).
Proof.
  induction l as [|y l IH]; cbn; [reflexivity|].
  destruct (0 <? by_score x y); cbn; [rewrite IH|]; reflexivity.
Qed.

Lemma sort_length (l : list ResearchResult) :
  length (sort by_score l) = length l.
Proof.
  induction l as [|x l IH]; cbn; [reflexivity|].
  unfold sort in IH. rewrite insert_sorted_length, IH. reflexivity.
Qed.

Lemma insert_sorted_Forall (P : ResearchResult -> Prop) x l :
  P x -> Forall P l -> Forall P (insert_sorted by_score x l).
Proof.
  intros Hx Hl. induction Hl as [|y l Hy Hl IH]; cbn.
  - repeat constructor. exact Hx.
  - destruct (0 <? by_score x y); repeat constructor; assumption.
Qed.

Lemma sort_Forall (P : ResearchResult -> Prop) l :
  Forall P l -> Forall P (sort by_score l).
Proof.
  induction 1 as [|x l Hx Hl IH]; cbn; [constructor|].
  apply insert_sorted_Forall; assumption.
Qed.

Lemma insert_sorted_In x y l :
  In y (insert_sorted by_score x l) -> y = x \/ In y l.
Proof.
  induction l as [|z l IH]; cbn.
  - intros [<-|[]]. left. reflexivity.
  - destruct (0 <? by_score x z); cbn.
    + intros [<-|H]; [right; left; reflexivity|].
      destruct (IH H) as [->|?]; [left; reflexivity|right; right; assumption].
    + intros [<-|[<-|H]]; auto.
Qed.

Lemma insert_sorted_sorted x l :
  StronglySorted (fun a b => relevance_score b <= relevance_score a) l ->
  StronglySorted (fun a b => relevance_score b <= relevance_score a)
    (insert_sorted by_score x l).
Proof.
  induction 1 as [|y l Hs IH Hy]; cbn.
  - repeat constructor.
  - destruct (0 <? by_score x y) eqn:Hc; unfold by_score in Hc.
    + apply Z.ltb_lt in Hc. constructor; [exact IH|].
      apply List.Forall_forall. intros z Hz.
      destruct (insert_sorted_In _ _ _ Hz) as [->|Hin]; [lia|].
      exact (proj1 (List.Forall_forall _ _) Hy z Hin).
    + apply Z.ltb_ge in Hc. constructor; [constructor; assumption|].
      constructor; [lia|].
      eapply List.Forall_impl; [|exact Hy]. cbn. intros; lia.
Qed.

Lemma sort_sorted (l : list ResearchResult) :
  StronglySorted (fun a b => relevance_score b <= relevance_score a)
    (sort by_score l).
Proof.
  induction l as [|x l IH]; cbn; [constructor|].
  apply insert_sorted_sorted. exact IH.
Qed.

Lemma take_sorted {A} (R : A -> A -> Prop) (n : nat) (l : list A) :
  StronglySorted R l -> StronglySorted R (take n l).
Proof.
  intros H. revert n. induction H as [|x l Hs IH Hx]; intros [|n]; cbn;
    try constructor; [apply IH|].
  apply Forall_take. exact Hx.
Qed.

(** The first of the greatest elements comes first. *)
Lemma sort_head (pre post : list ResearchResult) (x : ResearchResult) :
  Forall (fun y => relevance_score y < relevance_score x) pre ->
  Forall (fun y => relevance_score y <= relevance_score x) post ->
  exists rest, sort by_score (pre ++ x :: post) = x :: rest.
Proof.
  intros Hpre Hpost. induction Hpre as [|y pre Hy Hpre IH]; cbn.
  - pose proof (sort_Forall _ _ Hpost) as Hs. unfold sort in Hs.
    destruct (foldr (insert_sorted by_score) [] post) as [|z l] eqn:E; cbn.
    + eexists; reflexivity.
    + unfold by_score. apply Forall_cons in Hs as [Hz _].
      destruct (0 <? relevance_score z - relevance_score x) eqn:Hc;
        [apply Z.ltb_lt in Hc; lia|].
      eexists; reflexivity.
  - destruct IH as (rest & IH). unfold sort in IH. rewrite IH. cbn.
    unfold by_score at 1.
    destruct (0 <? relevance_score x - relevance_score y) eqn:Hc;
      [|apply Z.ltb_ge in Hc; lia].
    eexists; reflexivity.
Qed.

End StableSort.


Section EdgeFunction.

Import JsGlobal ResearchAgent.

Variable web : Web.

Ltac edge_cbn :=
  cbn [bind ret throw try_catch modify fetch_json log_error push settled
       encodeURIComponent run_console run_results fst snd].

Lemma abstract_result_scores data :
  Forall (fun r => 6 <= relevance_score r <= 8) (abstract_result data).
Proof.
  unfold abstract_result. destruct (Abstract data) as [a|]; [|constructor].
  destruct (_ && _); repeat constructor; cbn; lia.
Qed.

Lemma topic_results_scores data :
  Forall (fun r => 6 <= relevance_score r <= 8) (topic_results data).
Proof.
  unfold topic_results. destruct (RelatedTopics data) as [topics|];
    [|constructor].
  induction (take 3 topics) as [|t l IH]; cbn; [constructor|].
  apply Forall_app. split; [|exact IH].
  unfold topic_result. destruct (Text t), (FirstURL t); try constructor.
  destruct (_ && _); repeat constructor; cbn; lia.
Qed.

Lemma searchDuckDuckGo_ok query :
  search_ok (fun r => 6 <= relevance_score r <= 8)
    (searchDuckDuckGo web query).
Proof.
  intros s. unfold searchDuckDuckGo, try_catch, bind.
  destruct query as [q|shown f]; edge_cbn;
    [|eexists [], [_]; split; [reflexivity|]; split; [cbn; lia|constructor]].
  destruct (fetch_duckduckgo web _) as [e| |data]; edge_cbn.
  - eexists [], [_]. split; [reflexivity|]. split; [cbn; lia|constructor].
  - eexists [], []. rewrite app_nil_r. destruct s.
    split; [reflexivity|]. split; [cbn; lia|constructor].
  - eexists _, []. rewrite app_nil_r. destruct s.
    split; [reflexivity|]. split; [cbn; lia|].
    apply Forall_app. split;
      [apply abstract_result_scores|apply topic_results_scores].
Qed.

Lemma searchWikipedia_ok query :
  search_ok (fun r => relevance_score r = 7) (searchWikipedia web query).
Proof.
  intros s. unfold searchWikipedia, try_catch, bind.
  destruct query as [q|shown f]; edge_cbn;
    [|eexists [], [_]; split; [reflexivity|]; split; [cbn; lia|constructor]].
  destruct (fetch_wikipedia web _) as [e| |data]; edge_cbn.
  - eexists [], [_]. split; [reflexivity|]. split; [cbn; lia|constructor].
  - eexists [], []. rewrite app_nil_r. destruct s.
    split; [reflexivity|]. split; [cbn; lia|constructor].
  - destruct (extract data) as [text|]; [destruct (_ && _)|]; edge_cbn;
      eexists _, []; rewrite app_nil_r; destruct s;
      (split; [reflexivity|]); (split; [cbn; lia|]);
      repeat constructor.
Qed.

(** What [searchGitHub] makes of the repositories the service lists. *)
Lemma searchGitHub_ok query :
  search_ok
    (fun r =>
       relevance_score r <= 9 /\
       exists url data repos repo,
         fetch_github web url = Parsed data /\
         items data = Some repos /\ In repo repos /\
         r = repository_result web repo)
    (searchGitHub web query).
Proof.
  intros s. unfold searchGitHub, try_catch, bind.
  destruct query as [q|shown f]; edge_cbn;
    [|eexists [], [_]; split; [reflexivity|]; split; [cbn; lia|constructor]].
  destruct (fetch_github web _) as [e| |data] eqn:Hf; edge_cbn.
  - eexists [], [_]. split; [reflexivity|]. split; [cbn; lia|constructor].
  - eexists [], []. rewrite app_nil_r. destruct s.
    split; [reflexivity|]. split; [cbn; lia|constructor].
  - destruct (items data) as [repos|] eqn:Hi; edge_cbn;
      eexists _, []; rewrite app_nil_r; destruct s;
      (split; [reflexivity|]); (split; [cbn; lia|]); [|constructor].
    apply List.Forall_forall. intros r Hr.
    apply in_map_iff in Hr as (repo & <- & Hin).
    split; [cbn; lia|]. eexists _, data, repos, repo. eauto.
Qed.

(** On a query that holds a lone surrogate each of the three searches
    catches the [URIError] of [encodeURIComponent], writes it to the
    console and returns nothing. *)
Lemma searches_of_lone_surrogate shown f (s : Run) :
  let query := LoneSurrogate shown f in
  let caught l :=
    (Returned (@nil ResearchResult),
     {| run_console := (run_console s ++ [{| label := l; logged := URIError |}])%list;
        run_results := run_results s |}) in
  searchDuckDuckGo web query s = caught "DuckDuckGo search error:" /\
  searchWikipedia web query s = caught "Wikipedia search error:" /\
  searchGitHub web query s = caught "GitHub search error:".
Proof. repeat split. Qed.

(** The simulated results of the domains for a well-formed query:
    Reddit, then Stack Overflow, then (unless the depth is [basic])
    Medium and Dev.to; nothing is written to the console. *)
Lemma searchSpecificDomains_well_formed (q depth : string) (s : Run) :
  exists reddit so more,
    searchSpecificDomains (WellFormed q) depth s
    = (Returned (reddit :: so :: more), s) /\
    generateDomainSpecificContent "stackoverflow.com" (WellFormed q)
    = Returned (Some so) /\
    relevance_score reddit = 7 /\
    relevance_score so = 9 /\
    Forall (fun r => 7 <= relevance_score r <= 8) more /\
    length more = (if String.eqb depth "basic" then 0 else 2)%nat.
Proof.
  unfold searchSpecificDomains.
  destruct (String.eqb depth "basic");
    eexists _, _, _; (split; [reflexivity|]);
    (split; [reflexivity|]); repeat split; repeat constructor;
    cbn; lia.
Qed.

(** For a query that holds a lone surrogate every domain searched
    throws: nothing is found, and the console receives one entry for
    each of the two or four domains. *)
Lemma searchSpecificDomains_lone_surrogate shown f (depth : string) (s : Run) :
  exists logs,
    searchSpecificDomains (LoneSurrogate shown f) depth s
    = (Returned [],
       {| run_console := (run_console s ++ logs)%list;
          run_results := run_results s |}) /\
    map label logs
    = map domain_label
        (take (if String.eqb depth "basic" then 2 else 4) domains) /\
    Forall (fun entry => logged entry = URIError) logs.
Proof.
  unfold searchSpecificDomains.
  destruct (String.eqb depth "basic").
  - eexists [_; _]. split; [cbn; rewrite <- !app_assoc; reflexivity|].
    split; [reflexivity|repeat constructor].
  - eexists [_; _; _; _].
    split; [cbn; rewrite <- !app_assoc; reflexivity|].
    split; [reflexivity|repeat constructor].
Qed.

(** The array [results] at the end of the [try] block for a well-formed
    query: the results of the searches in the order of the calls. *)
Lemma try_block_run (q depth : string) (console0 : list ConsoleEntry) :
  let query := WellFormed q in
  exists ddg reddit so more wiki github news logs,
    try_block web query depth {| run_console := console0; run_results := [] |}
    = (Returned tt,
       {| run_console := (console0 ++ logs)%list;
          run_results := (ddg ++ [reddit] ++ so :: more ++ wiki ++ github
                      ++ [news])%list |}) /\
    (length logs <= 3)%nat /\
    Forall (fun r => 6 <= relevance_score r <= 8) ddg /\
    relevance_score reddit = 7 /\
    generateDomainSpecificContent "stackoverflow.com" query
    = Returned (Some so) /\
    relevance_score so = 9 /\
    Forall (fun r => 7 <= relevance_score r <= 8) more /\
    length more = (if String.eqb depth "basic" then 0 else 2)%nat /\
    Forall (fun r => relevance_score r = 7) wiki /\
    Forall (fun r =>
       relevance_score r <= 9 /\
       exists url data repos repo,
         fetch_github web url = Parsed data /\
         items data = Some repos /\ In repo repos /\
         r = repository_result web repo) github /\
    relevance_score news = 6.
Proof.
  intros query. subst query. unfold try_block.
  unfold bind at 1.
  destruct (searchDuckDuckGo_ok (WellFormed q)
              {| run_console := console0; run_results := [] |})
    as (ddg & l1 & -> & Hl1 & Hddg).
  unfold bind at 1. cbn [push modify run_console run_results app].
  unfold bind at 1.
  match goal with
  | |- context [searchSpecificDomains (WellFormed q) depth ?s] =>
      destruct (searchSpecificDomains_well_formed q depth s)
        as (reddit & so & more & -> & Hso & Hr & Hs & Hmore & Hlen)
  end.
  unfold bind at 1. cbn [push modify run_console run_results].
  unfold bind at 1.
  match goal with
  | |- context [searchWikipedia web (WellFormed q) ?s] =>
      destruct (searchWikipedia_ok (WellFormed q) s) as (wiki & l2 & -> & Hl2 & Hwiki)
  end.
  unfold bind at 1. cbn [push modify run_console run_results].
  unfold bind at 1.
  destruct (isCodeRelated (WellFormed q)).
  - unfold bind at 1.
    match goal with
    | |- context [searchGitHub web (WellFormed q) ?s] =>
        destruct (searchGitHub_ok (WellFormed q) s) as (gh & l3 & -> & Hl3 & Hgh)
    end.
    cbn [push modify run_console run_results].
    unfold bind at 1. unfold searchNews, generateNewsContent. cbn [ret].
    unfold push, modify. cbn [run_console run_results].
    eexists ddg, reddit, so, more, wiki, gh, _, (l1 ++ l2 ++ l3)%list.
    split.
    { f_equal. f_equal; [rewrite <- !app_assoc; reflexivity|].
      cbn. rewrite <- !app_assoc. reflexivity. }
    split; [rewrite !length_app; lia|].
    repeat (split; [assumption|]). reflexivity.
  - cbn [ret].
    unfold bind at 1. unfold searchNews, generateNewsContent. cbn [ret].
    unfold push, modify. cbn [run_console run_results].
    eexists ddg, reddit, so, more, wiki, [], _, (l1 ++ l2)%list.
    split.
    { f_equal. f_equal; [rewrite <- !app_assoc; reflexivity|].
      cbn. rewrite <- !app_assoc. reflexivity. }
    split; [rewrite !length_app; lia|].
    repeat (split; [assumption|]).
    split; [constructor|]. reflexivity.
Qed.

(** The [try] block for a query that holds a lone surrogate: every
    search but the news throws and is caught where it is called, so
    that the array holds the news entry alone and the console has
    received one entry for DuckDuckGo, one for each domain, one for
    Wikipedia and, when the query is code related, one for GitHub. *)
Lemma try_block_lone_surrogate shown f (depth : string)
  (console0 : list ConsoleEntry) :
  let query := LoneSurrogate shown f in
  exists logs,
    try_block web query depth {| run_console := console0; run_results := [] |}
    = (Returned tt,
       {| run_console := (console0 ++ logs)%list;
          run_results := generateNewsContent web query |}) /\
    map label logs
    = ("DuckDuckGo search error:"
       :: map domain_label
            (take (if String.eqb depth "basic" then 2 else 4) domains)
       ++ "Wikipedia search error:"
       :: (if isCodeRelated query then ["GitHub search error:"] else []))%list /\
    Forall (fun entry => logged entry = URIError) logs.
Proof.
  intros query. subst query. unfold try_block, searchSpecificDomains.
  destruct (isCodeRelated (LoneSurrogate shown f)) eqn:Hcode;
    destruct (String.eqb depth "basic").
  - eexists [_; _; _; _; _].
    split; [cbn; rewrite <- !app_assoc; reflexivity|].
    split; [reflexivity|repeat constructor].
  - eexists [_; _; _; _; _; _; _].
    split; [cbn; rewrite <- !app_assoc; reflexivity|].
    split; [reflexivity|repeat constructor].
  - eexists [_; _; _; _].
    split; [cbn; rewrite <- !app_assoc; reflexivity|].
    split; [reflexivity|repeat constructor].
  - eexists [_; _; _; _; _; _].
    split; [cbn; rewrite <- !app_assoc; reflexivity|].
    split; [reflexivity|repeat constructor].
Qed.

(** What one call of [conductResearch] comes to for a well-formed
    query. *)
Lemma edge_conductResearch_run (q depth : string)
  (sources : list string) (console0 : list ConsoleEntry) :
  let query := WellFormed q in
  exists top rest logs,
    conductResearch web query depth sources console0
    = (Returned (top :: rest), (console0 ++ logs)%list) /\
    (length logs <= 3)%nat /\
    generateDomainSpecificContent "stackoverflow.com" query
    = Returned (Some top) /\
    relevance_score top = 9 /\
    StronglySorted (fun a b => relevance_score b <= relevance_score a)
      (top :: rest) /\
    Forall (fun r =>
       relevance_score r <= 9 /\
       (5 <= relevance_score r \/
        exists url data repos repo,
          fetch_github web url = Parsed data /\
          items data = Some repos /\ In repo repos /\
          r = repository_result web repo)) (top :: rest) /\
    (if String.eqb depth "basic" then length (top :: rest) = 3%nat
     else (5 <= length (top :: rest) <= maxResults depth)%nat).
Proof.
  intros query. subst query. unfold conductResearch, try_catch.
  destruct (try_block_run q depth console0)
    as (ddg & reddit & so & more & wiki & gh & news & logs & -> & Hlogs
        & Hddg & Hr & Hso & Hs & Hmore & Hlen & Hwiki & Hgh & Hnews).
  cbn [run_console run_results].
  destruct (sort_head (ddg ++ [reddit])
              (more ++ wiki ++ gh ++ [news]) so) as (rest & Hsort).
  { apply Forall_app. split.
    - eapply Forall_impl; [exact Hddg|]. cbn. intros; lia.
    - constructor; [lia|constructor]. }
  { rewrite !Forall_app, !Forall_cons. repeat split; try lia;
      try constructor.
    - eapply Forall_impl; [exact Hmore|]. cbn. intros; lia.
    - eapply Forall_impl; [exact Hwiki|]. cbn. intros; lia.
    - eapply Forall_impl; [exact Hgh|]. cbn. intros ? [? _]; lia. }
  rewrite <- app_assoc in Hsort.
  assert (exists k, maxResults depth = S k) as (k & Hk).
  { unfold maxResults. destruct (String.eqb depth "basic");
      [|destruct (String.eqb depth "detailed")]; eexists; reflexivity. }
  exists so, (take k rest), logs.
  assert (so :: take k rest
          = take (maxResults depth)
              (sort by_score
                 (ddg ++ [reddit] ++ so :: more ++ wiki ++ gh ++ [news])))
    as Hfound by (rewrite Hsort, Hk; reflexivity).
  split; [rewrite Hfound; reflexivity|].
  split; [exact Hlogs|]. split; [exact Hso|]. split; [exact Hs|].
  rewrite Hfound.
  split; [apply take_sorted, sort_sorted|].
  split.
  - apply Forall_take, sort_Forall.
    rewrite !Forall_app, !Forall_cons, !Forall_app, !Forall_cons.
    repeat split; try lia; try (left; lia); try constructor.
    + eapply Forall_impl; [exact Hddg|]. cbn. intros; lia.
    + eapply Forall_impl; [exact Hmore|]. cbn. intros; lia.
    + eapply Forall_impl; [exact Hwiki|]. cbn. intros; lia.
    + eapply Forall_impl; [exact Hgh|]. cbn. intros ? [? ?]; auto.
  - rewrite length_take, sort_length. unfold maxResults.
    rewrite !length_app. cbn [length]. rewrite !length_app. cbn [length].
    rewrite Hlen.
    destruct (String.eqb depth "basic"); [lia|].
    destruct (String.eqb depth "detailed"); lia.
Qed.

(** What one call of [conductResearch] comes to for a query that holds
    a lone surrogate: the news entry alone. *)
Lemma edge_conductResearch_lone_surrogate shown f (depth : string)
  (sources : list string) (console0 : list ConsoleEntry) :
  let query := LoneSurrogate shown f in
  exists logs,
    conductResearch web query depth sources console0
    = (Returned (generateNewsContent web query), (console0 ++ logs)%list) /\
    map label logs
    = ("DuckDuckGo search error:"
       :: map domain_label
            (take (if String.eqb depth "basic" then 2 else 4) domains)
       ++ "Wikipedia search error:"
       :: (if isCodeRelated query then ["GitHub search error:"] else []))%list /\
    Forall (fun entry => logged entry = URIError) logs.
Proof.
  intros query. subst query. unfold conductResearch, try_catch.
  destruct (try_block_lone_surrogate shown f depth console0)
    as (logs & -> & Hlabels & Hlogged).
  cbn [run_console run_results].
  exists logs. split; [|split; assumption].
  f_equal. unfold maxResults.
  destruct (String.eqb depth "basic"); [reflexivity|].
  destruct (String.eqb depth "detailed"); reflexivity.
Qed.

(** How many results a call of [conductResearch] returns. *)
Lemma edge_conductResearch_count (query : Received) (depth : string)
  (sources : list string) (console0 : list ConsoleEntry) :
  exists found logs,
    conductResearch web query depth sources console0
    = (Returned found, (console0 ++ logs)%list) /\
    (1 <= length found <= maxResults depth)%nat /\
    match query with
    | WellFormed _ => (3 <= length found)%nat
    | LoneSurrogate _ _ => found = generateNewsContent web query
    end.
Proof.
  destruct query as [q|shown f].
  - destruct (edge_conductResearch_run q depth sources console0)
      as (top & rest & logs & Hrun & _ & _ & _ & _ & _ & Hlen).
    exists (top :: rest), logs. split; [exact Hrun|].
    unfold maxResults in *.
    destruct (String.eqb depth "basic");
      [|destruct (String.eqb depth "detailed")];
      cbn [length] in *; lia.
  - destruct (edge_conductResearch_lone_surrogate shown f depth sources
                console0) as (logs & Hrun & _).
    eexists _, logs. split; [exact Hrun|]. split; [|reflexivity].
    unfold maxResults. cbn [generateNewsContent length].
    destruct (String.eqb depth "basic");
      [|destruct (String.eqb depth "detailed")]; lia.
Qed.

(** X19: [conductResearch] of the edge function always returns; what it
    returns is ordered by falling score, no score is above 9, and there
    are between 1 and [maxResults] results.  For a well-formed query
    there are exactly 3 results for the depth [basic] and at least 5
    otherwise, and the console receives at most three entries.  For a
    query that holds a lone surrogate, on which [encodeURIComponent]
    throws, the news entry is the only result, and the console receives
    the [URIError] once for DuckDuckGo, for each of the two (depth
    [basic]) or four domains, for Wikipedia and, when the query is code
    related, for GitHub. *)
Theorem edge_conductResearch_results (query : Received) (depth : string)
  (sources : list string) (console0 : list ConsoleEntry) :
  exists found logs,
    conductResearch web query depth sources console0
    = (Returned found, (console0 ++ logs)%list) /\
    StronglySorted (fun a b => relevance_score b <= relevance_score a)
      found /\
    Forall (fun r => relevance_score r <= 9) found /\
    (1 <= length found <= maxResults depth)%nat /\
    match query with
    | WellFormed _ =>
        (length logs <= 3)%nat /\
        (if String.eqb depth "basic" then length found = 3%nat
         else (5 <= length found)%nat)
    | LoneSurrogate _ _ =>
        found = generateNewsContent web query /\
        length found = 1%nat /\
        map label logs
        = ("DuckDuckGo search error:"
           :: map domain_label
                (take (if String.eqb depth "basic" then 2 else 4) domains)
           ++ "Wikipedia search error:"
           :: (if isCodeRelated query then ["GitHub search error:"]
               else []))%list /\
        length logs
        = ((if String.eqb depth "basic" then 4 else 6)
           + (if isCodeRelated query then 1 else 0))%nat /\
        Forall (fun entry => logged entry = URIError) logs
    end.
Proof.
  destruct query as [q|shown f].
  - destruct (edge_conductResearch_run q depth sources console0)
      as (top & rest & logs & Hrun & Hlogs & _ & _ & Hsorted & Hall & Hlen).
    exists (top :: rest), logs.
    split; [exact Hrun|]. split; [exact Hsorted|].
    split; [eapply Forall_impl; [exact Hall|]; cbn; intros ? [? _];
            assumption|].
    unfold maxResults in *.
    destruct (String.eqb depth "basic");
      [|destruct (String.eqb depth "detailed")];
      (split; [cbn [length] in *; lia|]); (split; [exact Hlogs|]);
      cbn [length] in *; lia.
  - destruct (edge_conductResearch_lone_surrogate shown f depth sources
                console0) as (logs & Hrun & Hlabels & Hlogged).
    eexists _, logs. split; [exact Hrun|].
    split; [repeat constructor|].
    split; [repeat constructor; cbn; lia|].
    split.
    { unfold maxResults. cbn [generateNewsContent length].
      destruct (String.eqb depth "basic");
        [|destruct (String.eqb depth "detailed")]; lia. }
    split; [reflexivity|]. split; [reflexivity|].
    split; [exact Hlabels|]. split; [|exact Hlogged].
    rewrite <- (length_map label logs), Hlabels.
    destruct (String.eqb depth "basic"), (isCodeRelated _); reflexivity.
Qed.

(** X20: for a well-formed query, whatever the services answer, the
    first result is the simulated Stack Overflow entry, the only source
    whose score is always 9.  For a query that holds a lone surrogate
    the Stack Overflow entry cannot be made ([encodeURIComponent]
    throws), and the news entry is all that is returned. *)
Theorem edge_first_result_is_stack_overflow (query : Received)
  (depth : string) (sources : list string) (console0 : list ConsoleEntry) :
  match query with
  | WellFormed q =>
      exists top rest,
        fst (conductResearch web query depth sources console0)
        = Returned (top :: rest) /\
        generateDomainSpecificContent "stackoverflow.com" query
        = Returned (Some top) /\
        title top = "Stack Overflow: " +:+ q +:+ " Solutions" /\
        relevance_score top = 9
  | LoneSurrogate _ _ =>
      generateDomainSpecificContent "stackoverflow.com" query
      = Thrown URIError /\
      fst (conductResearch web query depth sources console0)
      = Returned (generateNewsContent web query)
  end.
Proof.
  destruct query as [q|shown f].
  - destruct (edge_conductResearch_run q depth sources console0)
      as (top & rest & logs & Hrun & _ & Hso & Hs & _).
    exists top, rest. rewrite Hrun.
    split; [reflexivity|]. split; [exact Hso|]. split; [|exact Hs].
    injection Hso as <-. reflexivity.
  - split; [reflexivity|].
    destruct (edge_conductResearch_lone_surrogate shown f depth sources
                console0) as (logs & -> & _).
    reflexivity.
Qed.

(** X21: the handler never throws.  It answers 500 exactly when the
    request is not OPTIONS and its body is not JSON, or is [null], or
    has a query that is truthy and no string; the message of the reply
    is the one of the error.  A reply that carries results has status
    200 and answers a query that is a string, with between 1 and 10
    results, and at least 3 when the query is well-formed. *)
Theorem handler_replies (req : Request) (console0 : list ConsoleEntry) :
  exists reply logs,
    handler web req console0 = (Returned reply, (console0 ++ logs)%list) /\
    (status reply = 500 <->
     String.eqb (method req) "OPTIONS" = false /\
     ((exists e, json req = Thrown e) \/
      json req = Returned None \/
      exists body, json req = Returned (Some body) /\
                   req_query body = NotString true)) /\
    (status reply = 500 ->
     exists e,
       payload reply = ErrorPayload "Research failed" (Some (message e)) /\
       logs = [{| label := "Research error:"; logged := e |}] /\
       match json req with
       | Thrown e' => e = e'
       | Returned None => message e = cannot_destructure_null web
       | Returned (Some _) => message e = trim_is_not_a_function web
       end) /\
    (forall found query timestamp,
        payload reply = ResultsPayload found query timestamp ->
        status reply = 200 /\
        (1 <= length found <= 10)%nat /\
        match query with
        | WellFormed _ => (3 <= length found)%nat
        | LoneSurrogate _ _ => found = generateNewsContent web query
        end /\
        exists body, json req = Returned (Some body) /\
                     req_query body = IsString query).
Proof.
  unfold handler.
  destruct (String.eqb (method req) "OPTIONS").
  { exists {| status := 200; payload := NoPayload |}, [].
    rewrite app_nil_r. split; [reflexivity|].
    split; [split; [discriminate|intros [? _]; discriminate]|].
    split; [discriminate|]. intros ? ? ? H. discriminate H. }
  unfold try_catch, bind, settled.
  destruct (json req) as [[body|]|e].
  - destruct (req_query body) as [|query|[|]] eqn:Hq.
    + eexists _, []. rewrite app_nil_r. split; [reflexivity|].
      split.
      { split; [discriminate|].
        intros [_ [[? H]|[H|(? & H & H')]]]; try discriminate H.
        injection H as <-. congruence. }
      split; [discriminate|]. intros ? ? ? H. discriminate H.
    + destruct (negb (is_truthy query) || is_blank query).
      * eexists _, []. rewrite app_nil_r. split; [reflexivity|].
        split.
        { split; [discriminate|].
          intros [_ [[? H]|[H|(? & H & H')]]]; try discriminate H.
          injection H as <-. congruence. }
        split; [discriminate|]. intros ? ? ? H. discriminate H.
      * destruct (edge_conductResearch_count query
                    (depth_of (req_depth body))
                    (default [] (req_sources body)) console0)
          as (found & logs & -> & Hlen & Hkind).
        eexists _, logs. split; [reflexivity|].
        split.
        { split; [discriminate|].
          intros [_ [[? H]|[H|(? & H & H')]]]; try discriminate H.
          injection H as <-. congruence. }
        split; [discriminate|].
        intros found' q t H. injection H as <- <- <-.
        split; [reflexivity|]. split.
        { unfold maxResults in Hlen.
          destruct (String.eqb _ "basic"); [lia|].
          destruct (String.eqb _ "detailed"); lia. }
        split; [exact Hkind|exists body; auto].
    + eexists _, [_]. split; [reflexivity|].
      split; [split; [intros _; split; [reflexivity|]; right; right;
                      exists body; auto|reflexivity]|].
      split; [|intros ? ? ? H; discriminate H].
      intros _. eexists. split; [reflexivity|]. split; reflexivity.
    + eexists _, []. rewrite app_nil_r. split; [reflexivity|].
      split.
      { split; [discriminate|].
        intros [_ [[? H]|[H|(? & H & H')]]]; try discriminate H.
        injection H as <-. congruence. }
      split; [discriminate|]. intros ? ? ? H. discriminate H.
  - eexists _, [_]. split; [reflexivity|].
    split; [split; [intros _; split; [reflexivity|]; right; left;
                    reflexivity|reflexivity]|].
    split; [|intros ? ? ? H; discriminate H].
    intros _. eexists. split; [reflexivity|]. split; reflexivity.
  - eexists _, [_]. split; [reflexivity|].
    split; [split; [intros _; split; [reflexivity|]; left; exists e;
                    reflexivity|reflexivity]|].
    split; [|intros ? ? ? H; discriminate H].
    intros _. exists e. split; [reflexivity|]. split; reflexivity.
Qed.

(** X22: when no repository the GitHub search lists has a negative
    number of stars, every score the edge function sends lies between 5
    and 9, so that the bounds the recorder applies to a score leave it
    as it is. *)
Theorem edge_scores_pass_the_recorder (query : Received) (depth : string)
  (sources : list string) (console0 : list ConsoleEntry) :
  (forall url data repos,
      fetch_github web url = Parsed data -> items data = Some repos ->
      Forall (fun repo => 0 <= stargazers_count repo) repos) ->
  exists found,
    fst (conductResearch web query depth sources console0)
    = Returned found /\
    Forall (fun r =>
              5 <= relevance_score r <= 9 /\
              Research.clamp_score (raw_relevance_score (to_raw r))
              = relevance_score r) found.
Proof.
  intros Hstars.
  assert (forall r, 5 <= relevance_score r <= 9 ->
            5 <= relevance_score r <= 9 /\
            Research.clamp_score (raw_relevance_score (to_raw r))
            = relevance_score r) as Hclamp.
  { intros r Hr. split; [exact Hr|].
    unfold Research.clamp_score, to_raw. cbn [raw_relevance_score].
    destruct (relevance_score r =? 0) eqn:E; [apply Z.eqb_eq in E; lia|].
    lia. }
  destruct query as [q|shown f].
  - destruct (edge_conductResearch_run q depth sources console0)
      as (top & rest & logs & Hrun & _ & _ & _ & _ & Hall & _).
    exists (top :: rest). rewrite Hrun. split; [reflexivity|].
    eapply Forall_impl; [exact Hall|]. cbn beta.
    intros r [Hle Hge]. apply Hclamp.
    destruct Hge as [?|(url & data & repos & repo & Hf & Hi & Hin & ->)];
      [lia|].
    pose proof (proj1 (List.Forall_forall _ _) (Hstars _ _ _ Hf Hi) _ Hin)
      as Hs.
    cbn in Hle |- *.
    pose proof (Z.div_pos (stargazers_count repo) 1000 Hs ltac:(lia)).
    lia.
  - destruct (edge_conductResearch_lone_surrogate shown f depth sources
                console0) as (logs & -> & _).
    eexists. split; [reflexivity|].
    repeat constructor; cbn; lia.
Qed.

End EdgeFunction.

Lemma edge_scores_pass_the_recorder_witness :
  (forall url data repos,
      ResearchAgent.fetch_github ResearchAgent.online url
      = ResearchAgent.Parsed data ->
      ResearchAgent.items data = Some repos ->
      Forall (fun repo => 0 <= ResearchAgent.stargazers_count repo) repos) /\
  exists found,
    fst (ResearchAgent.conductResearch ResearchAgent.online
           (JsGlobal.WellFormed "react state management") "detailed" [] [])
    = Returned found /\
    Forall (fun r =>
              5 <= ResearchAgent.relevance_score r <= 9 /\
              Research.clamp_score
                (raw_relevance_score (ResearchAgent.to_raw r))
              = ResearchAgent.relevance_score r) found.
Proof.
  assert (forall url data repos,
      ResearchAgent.fetch_github ResearchAgent.online url
      = ResearchAgent.Parsed data ->
      ResearchAgent.items data = Some repos ->
      Forall (fun repo => 0 <= ResearchAgent.stargazers_count repo) repos)
    as H.
  { intros url data repos Hf Hi. cbn in Hf. injection Hf as <-.
    cbn in Hi. injection Hi as <-. repeat constructor; cbn; lia. }
  split; [exact H|].
  exact (edge_scores_pass_the_recorder ResearchAgent.online
           (JsGlobal.WellFormed "react state management") "detailed" [] [] H).
Defined.

(** A query that holds a lone surrogate, asked at depth [basic] while
    every service answers: the news entry is the only result, and the
    console has four entries. *)
Lemma lone_surrogate_query_at_depth_basic :
  let query := JsGlobal.LoneSurrogate "?" (fun _ => false) in
  exists news logs,
    ResearchAgent.conductResearch ResearchAgent.online query "basic" [] []
    = (Returned [news], logs) /\
    ResearchAgent.title news = "2025 Industry Trends: ?" /\
    ResearchAgent.relevance_score news = 6 /\
    map label logs
    = [ "DuckDuckGo search error:"; "Error searching reddit.com:";
        "Error searching stackoverflow.com:"; "Wikipedia search error:" ] /\
    Forall (fun entry => logged entry = JsGlobal.URIError) logs.
Proof.
  cbv zeta. eexists _, _. split; [vm_compute; reflexivity|].
  split; [vm_compute; reflexivity|]. split; [reflexivity|].
  split; [reflexivity|]. repeat constructor.
Qed.

(** The body [{"query": 5}]: [query.trim] is no function, and the
    handler answers 500. *)
Lemma number_query_is_answered_500 :
  fst (ResearchAgent.handler ResearchAgent.online
         {| ResearchAgent.method := "POST";
            ResearchAgent.json :=
              Returned
                (Some {| ResearchAgent.req_query :=
                           ResearchAgent.NotString true;
                         ResearchAgent.req_depth := ResearchAgent.Undefined;
                         ResearchAgent.req_sources := None |}) |} [])
  = Returned
      {| ResearchAgent.status := 500;
         ResearchAgent.payload :=
           ResearchAgent.ErrorPayload "Research failed"
             (Some "query.trim is not a function") |}.
Proof. reflexivity. Qed.

(** The body [null]: the destructuring throws, and the handler answers
    500. *)
Lemma null_body_is_answered_500 :
  exists text,
    fst (ResearchAgent.handler ResearchAgent.online
           {| ResearchAgent.method := "POST";
              ResearchAgent.json := Returned None |} [])
    = Returned
        {| ResearchAgent.status := 500;
           ResearchAgent.payload :=
             ResearchAgent.ErrorPayload "Research failed" (Some text) |}.
Proof. eexists. reflexivity. Qed.

(** ** The recorder against the deployed edge function *)

Section Trim.

Lemma string_of_list_ascii_app (l k : list ascii) :
  string_of_list_ascii (l ++ k)
  = string_of_list_ascii l +:+ string_of_list_ascii k.
Proof. induction l as [|c l IH]; cbn; [|rewrite IH]; reflexivity. Qed.

Lemma reverse_cons (c : ascii) (s : string) :
  Js.reverse (String c s) = Js.reverse s +:+ String c EmptyString.
Proof.
  unfold Js.reverse. cbn [list_ascii_of_string rev].
  rewrite string_of_list_ascii_app. reflexivity.
Qed.

Lemma reverse_involutive (s : string) : Js.reverse (Js.reverse s) = s.
Proof.
  unfold Js.reverse.
  rewrite list_ascii_of_string_of_list_ascii, rev_involutive.
  apply string_of_list_ascii_of_string.
Qed.

Lemma trimStart_idempotent (s : string) :
  Js.trimStart (Js.trimStart s) = Js.trimStart s.
Proof.
  induction s as [|c s IH]; [reflexivity|].
  cbn [Js.trimStart]. destruct (Js.is_space c) eqn:E; [exact IH|].
  cbn [Js.trimStart]. rewrite E. reflexivity.
Qed.

Lemma trimStart_head (s : string) :
  Js.trimStart s = EmptyString \/
  exists c t, Js.trimStart s = String c t /\ Js.is_space c = false.
Proof.
  induction s as [|c s IH]; [left; reflexivity|].
  cbn [Js.trimStart]. destruct (Js.is_space c) eqn:E; [exact IH|].
  right. exists c, s. auto.
Qed.

Lemma trimStart_keeps_last (s : string) (c : ascii) :
  Js.is_space c = false ->
  exists w, Js.trimStart (s +:+ String c EmptyString)
            = w +:+ String c EmptyString.
Proof.
  intros Hc. induction s as [|a s IH].
  - exists EmptyString.
    change (Js.trimStart (String c EmptyString) = String c EmptyString).
    cbn [Js.trimStart]. rewrite Hc. reflexivity.
  - change (String a s +:+ String c EmptyString)
      with (String a (s +:+ String c EmptyString)).
    cbn [Js.trimStart]. destruct (Js.is_space a); [exact IH|].
    exists (String a s). reflexivity.
Qed.

Lemma reverse_snoc (w : string) (c : ascii) :
  Js.reverse (w +:+ String c EmptyString) = String c (Js.reverse w).
Proof.
  rewrite <- (reverse_involutive (String c (Js.reverse w))).
  rewrite reverse_cons, reverse_involutive. reflexivity.
Qed.

(** [s.trim().trim()] is [s.trim()]. *)
Lemma trim_idempotent (s : string) : Js.trim (Js.trim s) = Js.trim s.
Proof.
  unfold Js.trim.
  assert (Js.trimStart (Js.reverse (Js.trimStart (Js.reverse (Js.trimStart s))))
          = Js.reverse (Js.trimStart (Js.reverse (Js.trimStart s)))) as ->.
  { destruct (trimStart_head s) as [->|(c & t & -> & Hc)]; [reflexivity|].
    rewrite reverse_cons.
    destruct (trimStart_keeps_last (Js.reverse t) c Hc) as (w & ->).
    rewrite reverse_snoc. cbn [Js.trimStart]. rewrite Hc. reflexivity. }
  rewrite reverse_involutive, trimStart_idempotent. reflexivity.
Qed.

End Trim.

Section EndToEnd.

Variable env : Env.
Variable web : ResearchAgent.Web.

(** What [functions.invoke] resolves to for the body the recorder
    sends. *)
Lemma invoke_research_body (query depth : string) :
  if Js.truthy (Js.trim query)
  then exists top rest,
      ResearchAgent.invoke web (research_body query depth)
      = {| data := Some {| results :=
                             Some (map ResearchAgent.to_raw (top :: rest)) |};
           error := None |} /\
      ResearchAgent.generateDomainSpecificContent "stackoverflow.com"
        (JsGlobal.WellFormed (Js.trim query)) = Returned (Some top) /\
      (3 <= length (top :: rest) <= 10)%nat
  else ResearchAgent.invoke web (research_body query depth)
       = {| data := None;
            error :=
              Some {| pg_message :=
                        "Edge Function returned a non-2xx status code" |} |}.
Proof.
  unfold ResearchAgent.invoke, ResearchAgent.handler,
    ResearchAgent.invoke_request, research_body.
  cbn [ResearchAgent.method ResearchAgent.json body_query body_depth
       body_sources String.eqb Ascii.eqb Bool.eqb].
  unfold try_catch, bind, ResearchAgent.settled.
  cbn [ResearchAgent.req_query ResearchAgent.req_depth
       ResearchAgent.req_sources ResearchAgent.depth_of
       JsGlobal.is_truthy JsGlobal.is_blank default from_option id].
  rewrite trim_idempotent.
  destruct (Js.truthy (Js.trim query)) eqn:T; cbn [negb orb].
  - assert ((Z.of_nat (String.length (Js.trim query)) =? 0) = false) as ->.
    { destruct (Js.trim query); [discriminate T|reflexivity]. }
    destruct (edge_conductResearch_run web (Js.trim query) depth [] [])
      as (top & rest & logs & -> & _ & Hso & _ & _ & _ & Hlen).
    exists top, rest. cbn.
    split; [reflexivity|]. split; [exact Hso|].
    unfold ResearchAgent.maxResults in Hlen.
    destruct (String.eqb depth "basic"); [cbn in *; lia|].
    destruct (String.eqb depth "detailed"); cbn in *; lia.
  - reflexivity.
Qed.

(** X23: the recorder with the edge function deployed.  When the two
    inserts succeed and the query is not blank, [conductResearch] returns
    the rows made of the edge function's results: between 3 and 10 rows,
    the first of which is the Stack Overflow entry with score 9.  For a
    blank query the edge function answers 400 and the call is not
    usable. *)
Theorem conductResearch_with_deployed_agent
  (planId query depth : string) (db : Db) :
  let c := clock db in
  research_agent env (S c) (research_body query depth)
  = ResearchAgent.invoke web (research_body query depth) ->
  ok env c (InsertRows "research_requests") = true ->
  ok env (S (S c)) (InsertRows "research_results") = true ->
  if Js.truthy (Js.trim query)
  then exists top rest,
      fst (Research.conductResearch env planId query depth db)
      = Returned (Research.Persisted (top :: rest)) /\
      rr_title top = "Stack Overflow: " +:+ Js.trim query +:+ " Solutions" /\
      rr_relevance_score top = 9 /\
      rr_request_id top = next_id db /\
      (3 <= length (top :: rest) <= 10)%nat
  else usable (research_agent env (S c) (research_body query depth)) = false.
Proof.
  cbv zeta. intros Hagent Hreq Hres.
  pose proof (invoke_research_body query depth) as Hinv.
  destruct (Js.truthy (Js.trim query)).
  - destruct Hinv as (top & rest & Hinv & Hso & Hlen).
    pose proof (conductResearch_run env planId query depth db) as H.
    cbv zeta in H. rewrite Hreq, Hres, Hagent, Hinv in H.
    cbn [usable results_of error data andb map imap] in H.
    destruct H as (H & _).
    eexists _, _. split; [exact H|].
    unfold ResearchAgent.generateDomainSpecificContent in Hso.
    cbn [String.eqb Ascii.eqb Bool.eqb JsGlobal.encodeURIComponent
         JsGlobal.text_of] in Hso.
    injection Hso as <-.
    cbn [Research.stored_row Research.to_insert ResearchAgent.to_raw
         rr_title rr_relevance_score rr_request_id fst snd
         Research.title Research.relevance_score
         raw_title raw_relevance_score
         ResearchAgent.title ResearchAgent.relevance_score].
    split; [reflexivity|]. split; [reflexivity|]. split; [reflexivity|].
    cbn [length] in *. rewrite length_imap, !length_map. exact Hlen.
  - rewrite Hagent, Hinv. reflexivity.
Qed.

End EndToEnd.

Lemma conductResearch_with_deployed_agent_witness :
  let env := env_with_agent Scenario.no_fault ResearchAgent.online in
  research_agent env 1 (research_body " react hooks " "basic")
  = ResearchAgent.invoke ResearchAgent.online
      (research_body " react hooks " "basic") /\
  ok env 0 (InsertRows "research_requests") = true /\
  ok env 2 (InsertRows "research_results") = true /\
  exists top rest,
    fst (Research.conductResearch env "plan-1" " react hooks " "basic"
           empty_db)
    = Returned (Research.Persisted (top :: rest)) /\
    rr_title top = "Stack Overflow: react hooks Solutions" /\
    rr_relevance_score top = 9 /\
    rr_request_id top = 0%nat /\
    (3 <= length (top :: rest) <= 10)%nat.
Proof.
  cbv zeta.
  split; [reflexivity|]. split; [reflexivity|]. split; [reflexivity|].
  exact (conductResearch_with_deployed_agent
           (env_with_agent Scenario.no_fault ResearchAgent.online)
           ResearchAgent.online "plan-1" " react hooks " "basic" empty_db
           eq_refl eq_refl eq_refl).
Defined.

(** ** The history queries *)

Section Selects.

Import JsGlobal History.

Context {A : Type}.
Variable order : A -> A -> Z.

Lemma insert_sorted_Permutation (x : A) (l : list A) :
  Permutation (insert_sorted order x l) (x :: l).
Proof.
  induction l as [|y l IH]; cbn; [reflexivity|].
  destruct (0 <? order x y); [|reflexivity].
  rewrite IH. apply perm_swap.
Qed.

Lemma sort_Permutation (l : list A) : Permutation (sort order l) l.
Proof.
  induction l as [|x l IH]; cbn; [reflexivity|].
  rewrite insert_sorted_Permutation. unfold sort in IH. rewrite IH.
  reflexivity.
Qed.

Lemma filter_all (keep : A -> bool) (l : list A) :
  Forall (fun x => keep x = true) l -> List.filter keep l = l.
Proof.
  induction 1 as [|x l Hx Hl IH]; cbn; [reflexivity|].
  rewrite Hx, IH. reflexivity.
Qed.

Lemma filter_none (keep : A -> bool) (l : list A) :
  Forall (fun x => keep x = false) l -> List.filter keep l = [].
Proof.
  induction 1 as [|x l Hx Hl IH]; cbn; [reflexivity|].
  rewrite Hx, IH. reflexivity.
Qed.

(** A row stored under some key is among the rows of the table. *)
Lemma rows_In (table : gmap nat A) (k : nat) (x : A) :
  table !! k = Some x -> In x (rows table).
Proof.
  intros H. unfold rows. apply in_map_iff. exists (k, x).
  split; [reflexivity|].
  apply list_elem_of_In, elem_of_map_to_list. exact H.
Qed.

Lemma In_rows (table : gmap nat A) (x : A) :
  In x (rows table) -> exists k, table !! k = Some x.
Proof.
  unfold rows. intros H. apply in_map_iff in H as ([k y] & <- & H).
  exists k. apply list_elem_of_In, elem_of_map_to_list in H. exact H.
Qed.

(** An answered select lists exactly the rows of the table that pass
    its filters. *)
Lemma select_In (table : list A) (keep : A -> bool) (listed : list A) (x : A) :
  select true table keep order = Some listed ->
  In x listed <-> In x table /\ keep x = true.
Proof.
  unfold select. intros H. injection H as <-.
  rewrite <- filter_In. split; apply Permutation_in;
    [|symmetry]; apply sort_Permutation.
Qed.

End Selects.

Section Collect.

Import History.

Context {Q R : Type}.
Variable id : Q -> nat.
Variable found_for : nat -> list R.

Lemma collect_fold (select_results : nat -> Q -> option (list R))
  (entries : list (nat * Q)) (found : gmap nat (list R)) (k : nat) :
  (forall i q, select_results i q = Some (found_for (id q))) ->
  foldl (fun found entry =>
           match select_results (fst entry) (snd entry) with
           | Some requestResults => <[id (snd entry) := requestResults]> found
           | None => found
           end) found entries !! k
  = if decide (k ∈ map (fun e => id (snd e)) entries)
    then Some (found_for k) else found !! k.
Proof.
  intros Hsel. revert found.
  induction entries as [|[i q] entries IH]; intros found; cbn [foldl map].
  - rewrite decide_False by (intros H; inversion H). reflexivity.
  - rewrite IH, Hsel. cbn [fst snd].
    destruct (decide (k ∈ map _ entries)) as [Hin|Hout].
    + rewrite decide_True by (apply elem_of_cons; right; exact Hin).
      reflexivity.
    + destruct (decide (k = id q)) as [->|Hne].
      * rewrite lookup_insert_eq.
        rewrite decide_True by (apply elem_of_cons; left; reflexivity).
        reflexivity.
      * rewrite lookup_insert_ne by congruence.
        rewrite decide_False; [reflexivity|].
        intros [?|?]%elem_of_cons; [congruence|exact (Hout H)].
Qed.

(** When every select is answered, the results of a listed request are
    the rows selected for its identity. *)
Lemma collect_lookup (select_results : nat -> Q -> option (list R))
  (listed : list Q) (q : Q) :
  (forall i q, select_results i q = Some (found_for (id q))) ->
  In q listed ->
  collect id select_results listed !! id q = Some (found_for (id q)).
Proof.
  intros Hsel Hin. unfold collect. rewrite collect_fold by exact Hsel.
  destruct (decide _) as [|Hn]; [reflexivity|].
  exfalso. apply Hn. apply list_elem_of_In, in_map_iff.
  apply list_elem_of_In, list_elem_of_lookup in Hin as (i & Hi).
  exists (i, q). split; [reflexivity|].
  apply list_elem_of_In, elem_of_lookup_imap.
  exists i, q. split; [reflexivity|exact Hi].
Qed.

(** A key of the collected results is the identity of a listed
    request. *)
Lemma collect_keys (select_results : nat -> Q -> option (list R))
  (listed : list Q) (k : nat) (rs : list R) :
  collect id select_results listed !! k = Some rs ->
  exists i q, In q listed /\ id q = k /\ select_results i q = Some rs.
Proof.
  unfold collect.
  assert (forall (entries : list (nat * Q)) (found : gmap nat (list R)),
    foldl (fun found entry =>
             match select_results (fst entry) (snd entry) with
             | Some requestResults =>
                 <[id (snd entry) := requestResults]> found
             | None => found
             end) found entries !! k = Some rs ->
    found !! k = Some rs \/
    exists e, In e entries /\ id (snd e) = k /\
              select_results (fst e) (snd e) = Some rs) as Hfold.
  { induction entries as [|e entries IH]; intros found; cbn [foldl];
      [auto|].
    intros H. apply IH in H as [H|(e' & ? & ? & ?)].
    - destruct (select_results (fst e) (snd e)) as [rs'|] eqn:E;
        [|left; exact H].
      destruct (decide (k = id (snd e))) as [->|Hne].
      + rewrite lookup_insert_eq in H. injection H as ->.
        right. exists e. split; [left; reflexivity|]. auto.
      + rewrite lookup_insert_ne in H by congruence. left. exact H.
    - right. exists e'. split; [right; assumption|]. auto. }
  intros H. apply Hfold in H as [H|([i q] & Hin & Hid & Hsel)].
  - rewrite lookup_empty in H. discriminate H.
  - exists i, q. split; [|auto].
    apply list_elem_of_In, elem_of_lookup_imap in Hin
      as (j & y & Heq & Hj).
    injection Heq as -> ->. apply list_elem_of_In.
    eapply list_elem_of_lookup_2. exact Hj.
Qed.

End Collect.

Section SortedSelect.

Import JsGlobal History.

Context {A : Type}.
Variable column : A -> Z.

Lemma insert_descending_sorted (x : A) (l : list A) :
  StronglySorted (fun a b => column b <= column a) l ->
  StronglySorted (fun a b => column b <= column a)
    (insert_sorted (descending column) x l).
Proof.
  induction 1 as [|y l Hs IH Hy]; cbn.
  - repeat constructor.
  - destruct (0 <? descending column x y) eqn:Hc; unfold descending in Hc.
    + apply Z.ltb_lt in Hc. constructor; [exact IH|].
      apply List.Forall_forall. intros z Hz.
      apply (Permutation_in _ (insert_sorted_Permutation _ x l)) in Hz
        as [<-|Hin]; [lia|].
      exact (proj1 (List.Forall_forall _ _) Hy z Hin).
    + apply Z.ltb_ge in Hc. constructor; [constructor; assumption|].
      constructor; [lia|].
      eapply List.Forall_impl; [|exact Hy]. cbn. intros; lia.
Qed.

Lemma sort_descending_sorted (l : list A) :
  StronglySorted (fun a b => column b <= column a)
    (sort (descending column) l).
Proof.
  induction l as [|x l IH]; cbn; [constructor|].
  apply insert_descending_sorted. exact IH.
Qed.

End SortedSelect.

Section HistoryRoundTrips.

Import History.

Variable env : Env.
Variable answered : nat -> bool.

Hypothesis every_select_answered : forall n, answered n = true.

(** The request a returning [executeTask] leaves in the table. *)
Lemma executeTask_leaves_request (planId ty instructions : string) (db : Db)
  (saved : list ExecutionResult) :
  fst (Execution.executeTask env planId ty instructions db) = Returned saved ->
  exists request,
    execution_requests
      (snd (Execution.executeTask env planId ty instructions db))
    !! next_id db = Some request /\
    xq_id request = next_id db /\ xq_plan_id request = planId /\
    xq_execution_type request = ty /\
    xq_instructions request = instructions.
Proof.
  intros Hret.
  pose proof (executeTask_run env planId ty instructions db) as H.
  cbv zeta in H. rewrite Hret in H.
  destruct (ok env (clock db) (InsertRows "execution_requests"));
    [|destruct H as (H & _); discriminate H].
  destruct (known_execution_type ty && ok env _ _);
    [|destruct H as (H & _); discriminate H].
  destruct H as (_ & _ & ->).
  destruct (ok env _ _);
    rewrite ?lookup_alter_eq, lookup_insert_eq;
    eexists; (split; [reflexivity|]); cbn; auto.
Qed.

(** X24: after an [executeTask] that returns, [getExecutionHistory] for
    the plan lists the request of that call, and under its identity the
    rows the call returned (in the store no earlier row carries that
    identity). *)
Theorem getExecutionHistory_after_executeTask
  (planId ty instructions : string) (db : Db) (saved : list ExecutionResult) :
  Forall (fun r => xr_request_id r <> next_id db) (execution_results db) ->
  fst (Execution.executeTask env planId ty instructions db) = Returned saved ->
  let listing :=
    getExecutionHistory answered planId
      (snd (Execution.executeTask env planId ty instructions db)) in
  (exists request,
      In request (requests listing) /\
      xq_id request = next_id db /\ xq_execution_type request = ty /\
      xq_instructions request = instructions) /\
  exists listed,
    results listing !! next_id db = Some listed /\ Permutation listed saved.
Proof.
  intros Hfresh Hret. cbv zeta.
  destruct (executeTask_leaves_request planId ty instructions db saved Hret)
    as (request & Hreq & Hid & Hplan & Hty & Hins).
  pose proof (executeTask_tables env planId ty instructions db) as T.
  cbv zeta in T. destruct T as ((added & Hres & Hall & _ & Hsaved) & _).
  destruct (Hsaved saved Hret) as (-> & _).
  unfold getExecutionHistory. rewrite every_select_answered.
  cbn [select requests results].
  assert (In request
            (JsGlobal.sort
               (descending (fun r => Z.of_nat (xq_created_at r)))
               (List.filter (fun r => String.eqb (xq_plan_id r) planId)
                  (rows (execution_requests
                           (snd (Execution.executeTask env planId ty
                                   instructions db))))))) as Hin.
  { eapply Permutation_in; [symmetry; apply sort_Permutation|].
    apply filter_In. split; [eapply rows_In; exact Hreq|].
    rewrite Hplan. apply String.eqb_refl. }
  split; [exists request; auto|].
  rewrite <- Hid.
  rewrite (collect_lookup xq_id
             (fun k => JsGlobal.sort
                         (ascending (fun r => Z.of_nat (xr_created_at r)))
                         (List.filter
                            (fun r => Nat.eqb (xr_request_id r) k)
                            (execution_results
                               (snd (Execution.executeTask env planId ty
                                       instructions db))))));
    [|intros i q; unfold select; rewrite every_select_answered; reflexivity
     |exact Hin].
  eexists. split; [reflexivity|].
  rewrite sort_Permutation, Hres, List.filter_app, Hid.
  rewrite filter_none, filter_all; [reflexivity| |].
  - eapply Forall_impl; [exact Hall|]. cbn. intros r ->.
    apply Nat.eqb_refl.
  - eapply Forall_impl; [exact Hfresh|]. cbn. intros r Hr.
    apply Nat.eqb_neq. exact Hr.
Qed.

(** The request a returning [conductResearch] leaves in the table. *)
Lemma conductResearch_leaves_request (planId query depth : string) (db : Db) :
  is_returned (fst (Research.conductResearch env planId query depth db))
  = true ->
  exists request,
    research_requests
      (snd (Research.conductResearch env planId query depth db))
    !! next_id db = Some request /\
    rq_id request = next_id db /\ rq_plan_id request = planId /\
    rq_query request = query.
Proof.
  intros Hret.
  pose proof (conductResearch_run env planId query depth db) as H.
  cbv zeta in H.
  destruct (ok env (clock db) (InsertRows "research_requests"));
    [|destruct H as (H & _); rewrite H in Hret; discriminate Hret].
  destruct (usable _ && ok env _ _).
  - destruct H as (_ & _ & -> & _).
    destruct (ok env _ _);
      rewrite ?lookup_alter_eq, lookup_insert_eq;
      eexists; (split; [reflexivity|]); cbn; auto.
  - destruct H as (_ & _ & -> & _).
    destruct (ok env _ _);
      rewrite ?lookup_alter_eq, lookup_insert_eq;
      eexists; (split; [reflexivity|]); cbn; auto.
Qed.

(** X25: after a [conductResearch] that returns rows of the store,
    [getResearchResults] for the plan lists the request of that call
    and, under its identity, those rows by falling score. *)
Theorem getResearchResults_after_conductResearch
  (planId query depth : string) (db : Db) (saved : list ResearchResult) :
  Forall (fun r => rr_request_id r <> next_id db) (research_results db) ->
  fst (Research.conductResearch env planId query depth db)
  = Returned (Research.Persisted saved) ->
  let listing :=
    getResearchResults answered planId
      (snd (Research.conductResearch env planId query depth db)) in
  (exists request,
      In request (requests listing) /\
      rq_id request = next_id db /\ rq_query request = query) /\
  exists listed,
    results listing !! next_id db = Some listed /\
    Permutation listed saved /\
    StronglySorted
      (fun a b => rr_relevance_score b <= rr_relevance_score a) listed.
Proof.
  intros Hfresh Hret. cbv zeta.
  destruct (conductResearch_leaves_request planId query depth db)
    as (request & Hreq & Hid & Hplan & Hquery);
    [rewrite Hret; reflexivity|].
  pose proof (conductResearch_rows_checked_aux env planId query depth db)
    as T.
  cbv zeta in T. destruct T as (added & Hres & Hall & Hsaved).
  rewrite (Hsaved saved Hret) in *. clear Hsaved.
  unfold getResearchResults. rewrite every_select_answered.
  cbn [select requests results].
  assert (In request
            (JsGlobal.sort
               (descending (fun r => Z.of_nat (rq_created_at r)))
               (List.filter (fun r => String.eqb (rq_plan_id r) planId)
                  (rows (research_requests
                           (snd (Research.conductResearch env planId query
                                   depth db))))))) as Hin.
  { eapply Permutation_in; [symmetry; apply sort_Permutation|].
    apply filter_In. split; [eapply rows_In; exact Hreq|].
    rewrite Hplan. apply String.eqb_refl. }
  split; [exists request; auto|].
  rewrite <- Hid.
  rewrite (collect_lookup rq_id
             (fun k => JsGlobal.sort (descending rr_relevance_score)
                         (List.filter
                            (fun r => Nat.eqb (rr_request_id r) k)
                            (research_results
                               (snd (Research.conductResearch env planId
                                       query depth db))))));
    [|intros i q; unfold select; rewrite every_select_answered; reflexivity
     |exact Hin].
  eexists. split; [reflexivity|].
  split; [|apply sort_descending_sorted].
  rewrite sort_Permutation, Hres, List.filter_app, Hid.
  rewrite filter_none, filter_all; [reflexivity| |].
  - eapply Forall_impl; [exact Hall|]. cbn. intros r [-> _].
    apply Nat.eqb_refl.
  - eapply Forall_impl; [exact Hfresh|]. cbn. intros r Hr.
    apply Nat.eqb_neq. exact Hr.
Qed.

(** The request a returning [deployProject] leaves in the table. *)
Lemma deployProject_leaves_request (planId ty : string)
  (config : gmap string string) (xid : option nat) (db : Db) :
  is_returned (fst (Deployment.deployProject env planId ty config xid db))
  = true ->
  exists request,
    deployment_requests
      (snd (Deployment.deployProject env planId ty config xid db))
    !! next_id db = Some request /\
    dq_id request = next_id db /\ dq_plan_id request = planId /\
    dq_deployment_type request = ty /\ dq_configuration request = config.
Proof.
  intros Hret.
  pose proof (deployProject_run env planId ty config xid db) as H.
  cbv zeta in H.
  destruct (ok env (clock db) (InsertRows "deployment_requests"));
    [|destruct H as (H & _); rewrite H in Hret; discriminate Hret].
  destruct (known_deployment_type ty && ok env _ _).
  - destruct H as (_ & _ & ->).
    destruct (ok env _ _);
      rewrite ?lookup_alter_eq, lookup_insert_eq;
      eexists; (split; [reflexivity|]); cbn; auto.
  - destruct H as (_ & _ & -> & _).
    destruct (ok env _ _);
      rewrite ?lookup_alter_eq, lookup_insert_eq;
      eexists; (split; [reflexivity|]); cbn; auto.
Qed.

(** X26: after a [deployProject] that returns a row,
    [getDeploymentHistory] for the plan lists the request of that call
    and, under its identity, exactly that row. *)
Theorem getDeploymentHistory_after_deployProject
  (planId ty : string) (config : gmap string string) (xid : option nat)
  (db : Db) (saved : DeploymentResult) :
  Forall (fun r => dr_request_id r <> next_id db) (deployment_results db) ->
  fst (Deployment.deployProject env planId ty config xid db)
  = Returned (Some saved) ->
  let listing :=
    getDeploymentHistory answered planId
      (snd (Deployment.deployProject env planId ty config xid db)) in
  (exists request,
      In request (requests listing) /\
      dq_id request = next_id db /\ dq_deployment_type request = ty /\
      dq_configuration request = config) /\
  results listing !! next_id db = Some [saved].
Proof.
  intros Hfresh Hret. cbv zeta.
  destruct (deployProject_leaves_request planId ty config xid db)
    as (request & Hreq & Hid & Hplan & Hty & Hcfg);
    [rewrite Hret; reflexivity|].
  pose proof (deployProject_tables env planId ty config xid db) as T.
  cbv zeta in T. destruct T as ((added & Hres & Hall & _ & Hsaved) & _).
  rewrite (Hsaved saved Hret) in *. clear Hsaved.
  unfold getDeploymentHistory. rewrite every_select_answered.
  cbn [select requests results].
  assert (In request
            (JsGlobal.sort
               (descending (fun r => Z.of_nat (dq_created_at r)))
               (List.filter (fun r => String.eqb (dq_plan_id r) planId)
                  (rows (deployment_requests
                           (snd (Deployment.deployProject env planId ty
                                   config xid db))))))) as Hin.
  { eapply Permutation_in; [symmetry; apply sort_Permutation|].
    apply filter_In. split; [eapply rows_In; exact Hreq|].
    rewrite Hplan. apply String.eqb_refl. }
  split; [exists request; auto|].
  rewrite <- Hid.
  rewrite (collect_lookup dq_id
             (fun k => JsGlobal.sort
                         (ascending (fun r => Z.of_nat (dr_created_at r)))
                         (List.filter
                            (fun r => Nat.eqb (dr_request_id r) k)
                            (deployment_results
                               (snd (Deployment.deployProject env planId ty
                                       config xid db))))));
    [|intros i q; unfold select; rewrite every_select_answered; reflexivity
     |exact Hin].
  rewrite Hres, List.filter_app, Hid.
  rewrite filter_none, filter_all; [reflexivity| |].
  - eapply Forall_impl; [exact Hall|]. cbn. intros r ->.
    apply Nat.eqb_refl.
  - eapply Forall_impl; [exact Hfresh|]. cbn. intros r Hr.
    apply Nat.eqb_neq. exact Hr.
Qed.

End HistoryRoundTrips.

Section ExecutionOutputs.

Import History.

Variable env : Env.
Variable answered : nat -> bool.

(** A listed output request is a completed row of the table. *)
Lemma getExecutionOutputs_requests_stored (planId : string) (db : Db) :
  Forall (fun request =>
            xq_status request = completed /\
            exists k, execution_requests db !! k = Some request)
         (requests (getExecutionOutputs answered planId db)).
Proof.
  unfold getExecutionOutputs.
  destruct (answered 0%nat); cbn [select requests]; [|constructor].
  apply List.Forall_forall. intros request Hin.
  eapply Permutation_in in Hin; [|apply sort_Permutation].
  apply filter_In in Hin as (Hrow & Hkeep).
  apply andb_true_iff in Hkeep as (_ & Hst).
  split; [|apply In_rows; exact Hrow].
  destruct (xq_status request); try discriminate Hst. reflexivity.
Qed.

(** X27: whichever selects are answered, [getExecutionOutputs] lists
    only requests of the plan that are completed and of type
    [code_generation] or [file_creation], and under the identity of a
    listed request only successful rows of that request. *)
Theorem getExecutionOutputs_lists_deployable (planId : string) (db : Db) :
  let listing := getExecutionOutputs answered planId db in
  Forall (fun request =>
            xq_plan_id request = planId /\
            xq_status request = completed /\
            (xq_execution_type request = "code_generation" \/
             xq_execution_type request = "file_creation") /\
            exists k, execution_requests db !! k = Some request)
         (requests listing) /\
  forall k listed,
    results listing !! k = Some listed ->
    (exists request, In request (requests listing) /\ xq_id request = k) /\
    Forall (fun r => xr_request_id r = k /\ xr_success r = true /\
                     In r (execution_results db)) listed.
Proof.
  cbv zeta. unfold getExecutionOutputs.
  destruct (answered 0%nat); cbn [select requests results].
  - split.
    + apply List.Forall_forall. intros request Hin.
      eapply Permutation_in in Hin; [|apply sort_Permutation].
      apply filter_In in Hin as (Hrow & Hkeep).
      apply andb_true_iff in Hkeep as (Hkeep & Hst).
      apply andb_true_iff in Hkeep as (Hplan & Hty).
      apply String.eqb_eq in Hplan.
      split; [exact Hplan|]. split.
      { destruct (xq_status request); try discriminate Hst. reflexivity. }
      split; [|apply In_rows; exact Hrow].
      cbn [existsb] in Hty. rewrite orb_false_r in Hty.
      apply orb_true_iff in Hty as [H|H]; apply String.eqb_eq in H; auto.
    + intros k listed Hk.
      apply collect_keys in Hk as (i & q & Hq & Hid & Hsel).
      split; [exists q; auto|].
      unfold select in Hsel. destruct (answered (S i)); [|discriminate Hsel].
      injection Hsel as <-.
      apply List.Forall_forall. intros r Hr.
      eapply Permutation_in in Hr; [|apply sort_Permutation].
      apply filter_In in Hr as (Hrow & Hkeep).
      apply andb_true_iff in Hkeep as (Hreq & Hok).
      apply Nat.eqb_eq in Hreq. rewrite Hreq, Hid. auto.
  - split; [constructor|].
    intros k listed Hk. rewrite lookup_empty in Hk. discriminate Hk.
Qed.

(** X28: a request whose [executeTask] raised is not among the
    execution outputs afterwards (no other stored request carrying its
    identity). *)
Theorem raised_execution_is_no_output
  (planId ty instructions outputsPlan : string) (db : Db) :
  (forall k request, execution_requests db !! k = Some request ->
                     xq_id request <> next_id db) ->
  is_returned (fst (Execution.executeTask env planId ty instructions db))
  = false ->
  Forall (fun request => xq_id request <> next_id db)
    (requests
       (getExecutionOutputs answered outputsPlan
          (snd (Execution.executeTask env planId ty instructions db)))).
Proof.
  intros Hfresh Hraised.
  pose proof (getExecutionOutputs_requests_stored outputsPlan
                (snd (Execution.executeTask env planId ty instructions db)))
    as Hlisted.
  eapply Forall_impl; [exact Hlisted|]. cbn beta.
  intros request (Hst & k & Hk) Hid.
  pose proof (executeTask_run env planId ty instructions db) as H.
  cbv zeta in H.
  destruct (ok env (clock db) (InsertRows "execution_requests")).
  - destruct (known_execution_type ty && ok env _ _).
    + destruct H as (H & _). rewrite H in Hraised. discriminate Hraised.
    + destruct H as (_ & _ & H). rewrite H in Hk.
      destruct (decide (k = next_id db)) as [->|Hne].
      * destruct (ok env _ _);
          rewrite ?lookup_alter_eq, lookup_insert_eq in Hk;
          cbn in Hk; injection Hk as <-; discriminate Hst.
      * destruct (ok env _ _);
          rewrite ?lookup_alter_ne, lookup_insert_ne in Hk by congruence;
          exact (Hfresh _ _ Hk Hid).
  - destruct H as (_ & _ & H). rewrite H in Hk.
    exact (Hfresh _ _ Hk Hid).
Qed.

End ExecutionOutputs.

Lemma getExecutionHistory_after_executeTask_witness :
  exists saved,
    fst Runs.execution_all_good = Returned saved /\
    (forall n, History.all_answered n = true) /\
    Forall (fun r => xr_request_id r <> next_id empty_db)
      (execution_results empty_db) /\
    exists listed,
      History.results
        (History.getExecutionHistory History.all_answered "plan-1"
           (snd Runs.execution_all_good)) !! next_id empty_db
      = Some listed /\
      Permutation listed saved.
Proof.
  eexists. split; [vm_compute; reflexivity|].
  split; [reflexivity|]. split; [constructor|].
  exact (proj2 (getExecutionHistory_after_executeTask
                  (Scenario.env_of Scenario.no_fault Scenario.edge_up)
                  History.all_answered (fun _ => eq_refl)
                  "plan-1" "code_generation"
                  "Create implementation for: Market Research" empty_db _
                  (List.Forall_nil _) ltac:(vm_compute; reflexivity))).
Defined.

Lemma getResearchResults_after_conductResearch_witness :
  exists saved,
    fst Runs.research_edge_up = Returned (Research.Persisted saved) /\
    (forall n, History.all_answered n = true) /\
    Forall (fun r => rr_request_id r <> next_id empty_db)
      (research_results empty_db) /\
    exists listed,
      History.results
        (History.getResearchResults History.all_answered "plan-1"
           (snd Runs.research_edge_up)) !! next_id empty_db
      = Some listed /\
      Permutation listed saved /\
      StronglySorted
        (fun a b => rr_relevance_score b <= rr_relevance_score a) listed.
Proof.
  eexists. split; [vm_compute; reflexivity|].
  split; [reflexivity|]. split; [constructor|].
  exact (proj2 (getResearchResults_after_conductResearch
                  (Scenario.env_of Scenario.no_fault Scenario.edge_up)
                  History.all_answered (fun _ => eq_refl)
                  "plan-1" "Market Research best practices" "detailed"
                  empty_db _
                  (List.Forall_nil _) ltac:(vm_compute; reflexivity))).
Defined.

Lemma getDeploymentHistory_after_deployProject_witness :
  exists saved,
    fst Runs.deployment_all_good = Returned (Some saved) /\
    (forall n, History.all_answered n = true) /\
    Forall (fun r => dr_request_id r <> next_id empty_db)
      (deployment_results empty_db) /\
    History.results
      (History.getDeploymentHistory History.all_answered "plan-1"
         (snd Runs.deployment_all_good)) !! next_id empty_db
    = Some [saved].
Proof.
  eexists. split; [vm_compute; reflexivity|].
  split; [reflexivity|]. split; [constructor|].
  exact (proj2 (getDeploymentHistory_after_deployProject
                  (Scenario.env_of Scenario.no_fault Scenario.edge_up)
                  History.all_answered (fun _ => eq_refl)
                  "plan-1" "netlify_static"
                  {[ "subdomain" := "market-research" ]} None
                  empty_db _
                  (List.Forall_nil _) ltac:(vm_compute; reflexivity))).
Defined.

Lemma raised_execution_is_no_output_witness :
  (forall k request, execution_requests empty_db !! k = Some request ->
                     xq_id request <> next_id empty_db) /\
  is_returned (fst Runs.execution_results_fail) = false /\
  Forall (fun request => xq_id request <> next_id empty_db)
    (History.requests
       (History.getExecutionOutputs History.all_answered "plan-1"
          (snd Runs.execution_results_fail))).
Proof.
  assert (forall k request,
             execution_requests empty_db !! k = Some request ->
             xq_id request <> next_id empty_db) as H.
  { intros k request Hk. cbn in Hk. rewrite lookup_empty in Hk.
    discriminate Hk. }
  split; [exact H|]. split; [vm_compute; reflexivity|].
  exact (raised_execution_is_no_output
           (Scenario.env_of (Scenario.fault_at 1) Scenario.edge_up)
           History.all_answered
           "plan-1" "code_generation"
           "Create implementation for: Market Research" "plan-1" empty_db
           H ltac:(vm_compute; reflexivity)).
Defined.

(** ** [App.tsx]: saving a generated plan *)

Section AppLists.

Import App.

Lemma generateTaskPlan_lookup (goal : string) (i : nat) :
  snd (SubTasks.generateTaskPlan goal) !! i
  = SubTasks.subTasksFor <$> Planning.analyzeGoalAndCreatePlans goal !! i.
Proof.
  unfold SubTasks.generateTaskPlan. cbn [snd].
  etransitivity;
    [exact (forEach_lookup (Planning.analyzeGoalAndCreatePlans goal) 0 ∅ i)|].
  cbn [Nat.add]. rewrite Nat.sub_0_r, lookup_empty.
  case_decide; [reflexivity|].
  rewrite lookup_ge_None_2 by lia. reflexivity.
Qed.

Lemma plan_draft_row (b : Backend) (n first i : nat)
  (d : Planning.TaskPlanDraft) (gid : string) :
  plan_draft (plan_row b n first i (d, gid)) = d.
Proof. destruct d; reflexivity. Qed.

Lemma sub_task_entry_row (b : Backend) (n first i : nat)
  (e : SubTasks.SubTaskDraft * string) :
  sub_task_entry (sub_task_row b n first i e) = e.
Proof. destruct e as [[] k]; reflexivity. Qed.

Lemma saved_plans_drafts (b : Backend) (n first : nat) (gid : string)
  (generated : list Planning.TaskPlanDraft) :
  map plan_draft
    (imap (plan_row b n first) (map (fun plan => (plan, gid)) generated))
  = generated.
Proof.
  revert first. induction generated as [|d l IH]; intros first;
    [reflexivity|].
  cbn [map imap]. rewrite plan_draft_row. f_equal.
  rewrite <- (IH (S first)) at 2. f_equal. apply imap_ext.
  intros i x _. cbn. unfold plan_row. f_equal. f_equal. lia.
Qed.

Lemma saved_sub_tasks_entries (b : Backend) (n first : nat)
  (all : list (SubTasks.SubTaskDraft * string)) :
  map sub_task_entry (imap (sub_task_row b n first) all) = all.
Proof.
  revert first. induction all as [|e l IH]; intros first; [reflexivity|].
  cbn [map imap]. rewrite sub_task_entry_row. f_equal.
  rewrite <- (IH (S first)) at 2. f_equal. apply imap_ext.
  intros i x _. cbn. unfold sub_task_row. f_equal. f_equal. lia.
Qed.

(** The identities of the saved plans are pairwise different when the
    store never hands out an identity twice. *)
Lemma saved_plans_NoDup (b : Backend) (n first : nat)
  (entries : list (Planning.TaskPlanDraft * string)) :
  (forall i j, uuid b i = uuid b j -> i = j) ->
  NoDup (map plan_id (imap (plan_row b n first) entries)).
Proof.
  intros Hinj. revert first.
  induction entries as [|e l IH]; intros first; [constructor|].
  cbn [map imap]. constructor.
  - intros Hin. apply list_elem_of_In, in_map_iff in Hin as (p & Hp & Hin).
    apply list_elem_of_In, elem_of_lookup_imap in Hin as (i & y & -> & _).
    cbn in Hp. apply Hinj in Hp. lia.
  - rewrite (imap_ext _ (plan_row b n (S first)));
      [apply IH|].
    intros i x _. cbn. unfold plan_row. f_equal. f_equal. lia.
Qed.

(** What [allSubTasks] holds for the plans the store returned. *)
Lemma allSubTasks_entries (b : Backend) (n first : nat) (gid goal : string) :
  let savedPlans :=
    imap (plan_row b n first)
      (map (fun plan => (plan, gid))
         (Planning.analyzeGoalAndCreatePlans goal)) in
  allSubTasks savedPlans (snd (SubTasks.generateTaskPlan goal))
  = checklist_entries savedPlans.
Proof.
  cbv zeta. unfold allSubTasks, checklist_entries. f_equal.
  etransitivity; [|apply imap_const]. apply imap_ext. intros i p Hp.
  unfold const.
  apply list_lookup_imap_Some in Hp as ([d g] & Hd & ->).
  rewrite list_lookup_fmap in Hd.
  destruct (Planning.analyzeGoalAndCreatePlans goal !! i) as [d'|] eqn:E;
    [|discriminate Hd].
  cbn in Hd. injection Hd as <- <-.
  rewrite generateTaskPlan_lookup, E, plan_draft_row. reflexivity.
Qed.

Lemma checklist_entries_length (savedPlans : list TaskPlan) :
  length (checklist_entries savedPlans) = (5 * length savedPlans)%nat.
Proof.
  unfold checklist_entries.
  induction savedPlans as [|p l IH]; [reflexivity|].
  cbn [map List.concat length]. rewrite length_app, length_map, IH.
  unfold SubTasks.subTasksFor. rewrite generateSubTasks_length. lia.
Qed.

(** The entries of one plan among the entries of all plans. *)
Lemma checklist_entries_of_plan (savedPlans : list TaskPlan) (p : TaskPlan) :
  NoDup (map plan_id savedPlans) -> In p savedPlans ->
  List.filter (fun e => String.eqb (snd e) (plan_id p))
    (checklist_entries savedPlans)
  = map (fun d => (d, plan_id p)) (SubTasks.subTasksFor (plan_draft p)).
Proof.
  unfold checklist_entries.
  induction savedPlans as [|q l IH]; intros Hnd Hin; [destruct Hin|].
  cbn [map List.concat] in *. apply NoDup_cons in Hnd as [Hq Hnd].
  rewrite List.filter_app.
  assert (forall k (ds : list SubTasks.SubTaskDraft),
             List.filter (fun e => String.eqb (snd e) k)
               (map (fun d => (d, k)) ds) = map (fun d => (d, k)) ds) as Hsame.
  { intros k ds. induction ds as [|d ds IHd]; [reflexivity|].
    cbn. rewrite String.eqb_refl, IHd. reflexivity. }
  assert (forall k k' (ds : list SubTasks.SubTaskDraft), k' <> k ->
             List.filter (fun e => String.eqb (snd e) k)
               (map (fun d => (d, k')) ds) = []) as Hother.
  { intros k k' ds Hne. induction ds as [|d ds IHd]; [reflexivity|].
    cbn. rewrite IHd. apply String.eqb_neq in Hne. rewrite Hne.
    reflexivity. }
  destruct Hin as [->|Hin].
  - rewrite Hsame.
    assert (List.filter (fun e => String.eqb (snd e) (plan_id p))
              (List.concat
                 (map (fun p0 => map (fun d => (d, plan_id p0))
                                   (SubTasks.subTasksFor (plan_draft p0)))
                    l)) = []) as ->; [|apply app_nil_r].
    clear IH Hnd. induction l as [|r l IHl]; [reflexivity|].
    cbn [map List.concat]. rewrite List.filter_app, Hother, IHl;
      [reflexivity| |].
    + intros Hin. apply Hq. cbn. apply elem_of_cons. right. exact Hin.
    + intros Heq. apply Hq. cbn. apply elem_of_cons. left.
      symmetry. exact Heq.
  - rewrite Hother, (IH Hnd Hin); [reflexivity|].
    intros Heq. apply Hq. rewrite Heq.
    apply list_elem_of_In, in_map. exact Hin.
Qed.

(** What [subTasksByPlan] holds under one identity. *)
Lemma subTasksByPlan_fold (saved : list SubTask)
  (byPlan : gmap string (list SubTask)) (k : string) :
  foldl (fun byPlan subTask =>
           <[sub_plan_id subTask :=
               (default [] (byPlan !! sub_plan_id subTask) ++ [subTask])%list]>
             byPlan) byPlan saved !! k
  = match List.filter (fun t => String.eqb (sub_plan_id t) k) saved with
    | [] => byPlan !! k
    | mine => Some (default [] (byPlan !! k) ++ mine)%list
    end.
Proof.
  revert byPlan. induction saved as [|t l IH]; intros byPlan; [reflexivity|].
  cbn [foldl List.filter]. rewrite IH.
  destruct (String.eqb (sub_plan_id t) k) eqn:E.
  - apply String.eqb_eq in E. subst k. rewrite lookup_insert_eq.
    cbn [default from_option id].
    destruct (List.filter _ l); [reflexivity|].
    rewrite <- app_assoc. reflexivity.
  - apply String.eqb_neq in E. rewrite lookup_insert_ne by exact E.
    reflexivity.
Qed.

Lemma filter_entries (saved : list SubTask) (k : string) :
  map sub_task_entry
    (List.filter (fun t => String.eqb (sub_plan_id t) k) saved)
  = List.filter (fun e => String.eqb (snd e) k) (map sub_task_entry saved).
Proof.
  induction saved as [|t l IH]; [reflexivity|].
  cbn [map List.filter]. unfold sub_task_entry at 2. cbn [snd].
  destruct (String.eqb (sub_plan_id t) k); cbn [map]; rewrite IH;
    reflexivity.
Qed.

End AppLists.

Section AppSubmit.

Import App.

Variable backend : Backend.

Ltac app_cbn :=
  cbn [bind ret throw try_catch modify set_state log_error
       setShowAuthModal setCurrentGoal setPlans setSubTasks setIsGenerating
       setSavedGoals setAppError
       state store app_console served issued user_goals task_plans sub_tasks
       showAuthModal currentGoal plans subTasks isGenerating savedGoals
       appError data error fst snd].

Ltac app_cbn_in H :=
  cbn [bind ret throw try_catch modify set_state log_error
       setShowAuthModal setCurrentGoal setPlans setSubTasks setIsGenerating
       setSavedGoals setAppError
       state store app_console served issued user_goals task_plans sub_tasks
       showAuthModal currentGoal plans subTasks isGenerating savedGoals
       appError data error fst snd] in H.

(** The [try] block when the three inserts are accepted. *)
Lemma try_block_saves (user : User) (goalText : string) (w : World) :
  let n := served (store w) in
  let first := issued (store w) in
  let generated := Planning.analyzeGoalAndCreatePlans goalText in
  let goal :=
    {| goal_id := uuid backend first; goal_user_id := user_id user;
       goal_title := goalText;
       goal_description := Some ("Generated plan for: " +:+ goalText);
       goal_status := "planning"; goal_created_at := n |} in
  let savedPlans :=
    imap (plan_row backend (S n) (S first))
      (map (fun plan => (plan, goal_id goal)) generated) in
  let savedSubTasks :=
    imap (sub_task_row backend (S (S n)) (S first + length generated))
      (checklist_entries savedPlans) in
  refuses backend n = None ->
  refuses backend (S n) = None ->
  refuses backend (S (S n)) = None ->
  try_block backend user goalText w
  = (Returned tt,
     {| state :=
          {| showAuthModal := showAuthModal (state w);
             currentGoal := Some goal; plans := savedPlans;
             subTasks := subTasksByPlan (Some savedSubTasks);
             isGenerating := isGenerating (state w);
             savedGoals := savedGoals (state w);
             appError := appError (state w) |};
        store :=
          {| served := S (S (S n));
             issued := (S first + length generated
                        + length (checklist_entries savedPlans))%nat;
             user_goals := (user_goals (store w) ++ [goal])%list;
             task_plans := (task_plans (store w) ++ savedPlans)%list;
             sub_tasks := (sub_tasks (store w) ++ savedSubTasks)%list |};
        app_console := app_console w |}).
Proof.
  cbv zeta. intros H0 H1 H2.
  unfold try_block.
  rewrite (surjective_pairing (SubTasks.generateTaskPlan goalText)).
  change (fst (SubTasks.generateTaskPlan goalText))
    with (Planning.analyzeGoalAndCreatePlans goalText).
  unfold bind at 1. unfold insert_goal, client_call. rewrite H0. app_cbn.
  unfold bind at 1. unfold insert_plans, client_call. app_cbn. rewrite H1.
  app_cbn.
  cbn [goal_id]. rewrite allSubTasks_entries.
  rewrite checklist_entries_length, length_imap, !length_map.
  assert ((0 <? Z.of_nat
                  (5 * length (Planning.analyzeGoalAndCreatePlans goalText)))
          = true) as ->.
  { apply Z.ltb_lt.
    pose proof (analyze_selected goalText) as Hsel. rewrite Hsel.
    destruct (Planning.selected goalText) as [[]|]; cbn; lia. }
  unfold bind at 1. unfold bind at 1.
  unfold insert_sub_tasks, client_call. app_cbn. rewrite H2. app_cbn.
  rewrite checklist_entries_length, length_imap, !length_map.
  reflexivity.
Qed.

(** [loadSavedGoals] only changes the saved goals or the error. *)
Lemma loadSavedGoals_keeps (user : option User) (w : World) :
  exists w',
    loadSavedGoals backend user w = (Returned tt, w') /\
    showAuthModal (state w') = showAuthModal (state w) /\
    currentGoal (state w') = currentGoal (state w) /\
    plans (state w') = plans (state w) /\
    subTasks (state w') = subTasks (state w) /\
    isGenerating (state w') = isGenerating (state w) /\
    user_goals (store w') = user_goals (store w) /\
    task_plans (store w') = task_plans (store w) /\
    sub_tasks (store w') = sub_tasks (store w).
Proof.
  unfold loadSavedGoals. destruct user as [user|].
  - unfold try_catch, bind, select_goals, client_call.
    destruct (refuses backend (served (store w))); app_cbn;
      eexists; (split; [reflexivity|]); app_cbn; repeat split.
  - exists w. repeat split.
Qed.

(** X29: a signed-in user submits a goal and the store accepts the
    three inserts and never hands out an identity twice.  Then the goal
    is stored with the goal text as its title, the plans of
    [generateTaskPlan] are stored in their order under that goal,
    every stored plan has, under its identity, the five sub-tasks of its
    checklist, in order, and the component is no longer generating. *)
Theorem handleGoalSubmit_saves_plan (user : User) (goalText : string)
  (w : World) :
  let n := served (store w) in
  refuses backend n = None ->
  refuses backend (S n) = None ->
  refuses backend (S (S n)) = None ->
  (forall i j, uuid backend i = uuid backend j -> i = j) ->
  let w' := snd (handleGoalSubmit backend (Some user) goalText w) in
  exists goal savedPlans,
    currentGoal (state w') = Some goal /\
    goal_title goal = goalText /\ goal_user_id goal = user_id user /\
    plans (state w') = savedPlans /\
    map plan_draft savedPlans = fst (SubTasks.generateTaskPlan goalText) /\
    Forall (fun p => plan_goal_id p = goal_id goal) savedPlans /\
    (forall p, In p savedPlans ->
       exists tasks,
         subTasks (state w') !! plan_id p = Some tasks /\
         map sub_task_draft tasks = SubTasks.subTasksFor (plan_draft p) /\
         Forall (fun t => sub_plan_id t = plan_id p) tasks) /\
    isGenerating (state w') = false /\
    user_goals (store w') = (user_goals (store w) ++ [goal])%list /\
    task_plans (store w') = (task_plans (store w) ++ savedPlans)%list /\
    length (sub_tasks (store w'))
    = (length (sub_tasks (store w)) + 5 * length savedPlans)%nat.
Proof.
  cbv zeta. intros H0 H1 H2 Hinj.
  unfold handleGoalSubmit.
  unfold bind at 1. app_cbn. try unfold bind at 1. app_cbn.
  match goal with
  | |- context [try_block backend user goalText ?w0] =>
      pose proof (try_block_saves user goalText w0) as Hrun
  end.
  cbv zeta in Hrun. app_cbn. app_cbn_in Hrun.
  rewrite (Hrun H0 H1 H2). clear Hrun. app_cbn.
  match goal with
  | |- context [loadSavedGoals backend ?u ?w0] =>
      destruct (loadSavedGoals_keeps u w0)
        as (w' & -> & _ & Hg & Hp & Hs & Hi & Hug & Htp & Hst)
  end.
  app_cbn_in Hg. app_cbn_in Hp. app_cbn_in Hs. app_cbn_in Hi.
  app_cbn_in Hug. app_cbn_in Htp. app_cbn_in Hst. cbn [snd].
  eexists _, _. split; [exact Hg|].
  split; [reflexivity|]. split; [reflexivity|].
  split; [exact Hp|].
  split; [apply saved_plans_drafts|].
  split.
  { apply List.Forall_forall. intros p Hin.
    apply list_elem_of_In, elem_of_lookup_imap in Hin
      as (i & [d g] & -> & Hd).
    rewrite list_lookup_fmap in Hd.
    destruct (_ !! i); [|discriminate Hd]. cbn in Hd.
    injection Hd as <- <-. reflexivity. }
  split.
  { intros p Hin. rewrite Hs. unfold subTasksByPlan.
    cbn [default from_option id].
    rewrite subTasksByPlan_fold, lookup_empty. cbn [default from_option id app].
    match goal with
    | |- context [List.filter ?f ?l] =>
        pose proof (filter_entries l (plan_id p)) as Hent;
        assert (Forall (fun t => sub_plan_id t = plan_id p)
                  (List.filter f l)) as Hall
    end.
    { apply List.Forall_forall. intros t Ht.
      apply filter_In in Ht as (_ & Ht). apply String.eqb_eq. exact Ht. }
    rewrite saved_sub_tasks_entries in Hent.
    rewrite checklist_entries_of_plan in Hent;
      [|apply saved_plans_NoDup; exact Hinj|exact Hin].
    destruct (List.filter _ _) as [|t l] eqn:E.
    - exfalso. apply (f_equal length) in Hent.
      cbn [map length] in Hent.
      rewrite length_map in Hent. unfold SubTasks.subTasksFor in Hent.
      rewrite generateSubTasks_length in Hent. discriminate Hent.
    - eexists. split; [reflexivity|]. split; [|exact Hall].
      apply (f_equal (map fst)) in Hent.
      rewrite !map_map in Hent. cbn [sub_task_entry fst] in Hent.
      rewrite map_id in Hent. exact Hent. }
  split; [exact Hi|]. split; [exact Hug|]. split; [exact Htp|].
  rewrite Hst, length_app, length_imap, checklist_entries_length.
  reflexivity.
Qed.

(** X30: what [handleGoalSubmit] does when it cannot save.  Without a
    signed-in user it only opens the sign-in dialog.  With one it never
    throws and always ends with [isGenerating] false; when the insert of
    the goal is refused nothing is stored and the error names the goal;
    when the insert of the plans is refused the goal stays stored
    without plans, and the error names the plans. *)
Theorem handleGoalSubmit_failures (user : User) (goalText : string)
  (w : World) :
  let n := served (store w) in
  let signedOut := handleGoalSubmit backend None goalText w in
  let out := handleGoalSubmit backend (Some user) goalText w in
  let w' := snd out in
  (fst signedOut = Returned tt /\
   showAuthModal (state (snd signedOut)) = true /\
   store (snd signedOut) = store w /\
   plans (state (snd signedOut)) = plans (state w)) /\
  fst out = Returned tt /\
  isGenerating (state w') = false /\
  (forall e, refuses backend n = Some e ->
     user_goals (store w') = user_goals (store w) /\
     task_plans (store w') = task_plans (store w) /\
     sub_tasks (store w') = sub_tasks (store w) /\
     currentGoal (state w') = currentGoal (state w) /\
     plans (state w') = plans (state w) /\
     appError (state w')
     = Some ("Failed to generate plan: Failed to save goal: "
             +:+ message_or_unknown (Some e))) /\
  (forall e, refuses backend n = None -> refuses backend (S n) = Some e ->
     (exists goal, user_goals (store w')
                   = (user_goals (store w) ++ [goal])%list /\
                   goal_title goal = goalText) /\
     task_plans (store w') = task_plans (store w) /\
     sub_tasks (store w') = sub_tasks (store w) /\
     currentGoal (state w') = currentGoal (state w) /\
     plans (state w') = plans (state w) /\
     appError (state w')
     = Some ("Failed to generate plan: Failed to save plans: "
             +:+ message_or_unknown (Some e))).
Proof.
  cbv zeta. split; [repeat split|].
  destruct (handleGoalSubmit backend (Some user) goalText w) as [o w']
    eqn:Hrun.
  cbn [fst snd]. revert Hrun.
  unfold handleGoalSubmit.
  unfold bind at 1. app_cbn. try unfold bind at 1. app_cbn.
  unfold try_block.
  rewrite (surjective_pairing (SubTasks.generateTaskPlan goalText)).
  unfold bind at 1. unfold insert_goal, client_call. app_cbn.
  destruct (refuses backend (served (store w))) as [e0|] eqn:E0; app_cbn.
  { intros [= <- <-]. app_cbn.
    split; [reflexivity|]. split; [reflexivity|].
    split; [|intros e Hn; discriminate Hn].
    intros e [= <-]. repeat split. }
  unfold bind at 1. unfold insert_plans, client_call. app_cbn.
  destruct (refuses backend (S (served (store w)))) as [e1|] eqn:E1; app_cbn.
  { intros [= <- <-]. app_cbn.
    split; [reflexivity|]. split; [reflexivity|].
    split; [intros e Hn; discriminate Hn|].
    intros e _ [= <-]. split; [eexists; split; reflexivity|].
    repeat split. }
  match goal with
  | |- context [if ?c then _ else _] => destruct c
  end.
  - unfold bind at 1. unfold bind at 1.
    unfold insert_sub_tasks, client_call. app_cbn.
    destruct (refuses backend (S (S (served (store w))))); app_cbn;
      match goal with
      | |- context [loadSavedGoals backend ?u ?w0] =>
          destruct (loadSavedGoals_keeps u w0)
            as (w1 & -> & _ & _ & _ & _ & Hi & _)
      end; app_cbn_in Hi; intros [= <- <-];
      (split; [reflexivity|]); (split; [exact Hi|]);
      split; intros; discriminate.
  - unfold bind at 1. app_cbn.
    match goal with
    | |- context [loadSavedGoals backend ?u ?w0] =>
        destruct (loadSavedGoals_keeps u w0)
          as (w1 & -> & _ & _ & _ & _ & Hi & _)
    end; app_cbn_in Hi; intros [= <- <-].
    split; [reflexivity|]. split; [exact Hi|].
    split; intros; discriminate.
Qed.

End AppSubmit.

Lemma handleGoalSubmit_saves_plan_witness :
  App.refuses App.willing 0 = None /\
  App.refuses App.willing 1 = None /\
  App.refuses App.willing 2 = None /\
  (forall i j, App.uuid App.willing i = App.uuid App.willing j -> i = j) /\
  exists goal savedPlans,
    App.currentGoal
      (App.state
         (snd (App.handleGoalSubmit App.willing
                 (Some {| App.user_id := "user-1" |}) "Plan a trip to Rome"
                 (App.start App.empty_store)))) = Some goal /\
    App.goal_title goal = "Plan a trip to Rome" /\
    map App.plan_draft savedPlans
    = fst (SubTasks.generateTaskPlan "Plan a trip to Rome").
Proof.
  assert (forall i j,
             App.uuid App.willing i = App.uuid App.willing j -> i = j) as Hinj.
  { intros i j H. cbn in H. apply (inj pretty) in H. exact H. }
  split; [reflexivity|]. split; [reflexivity|]. split; [reflexivity|].
  split; [exact Hinj|].
  destruct (handleGoalSubmit_saves_plan App.willing
              {| App.user_id := "user-1" |} "Plan a trip to Rome"
              (App.start App.empty_store) eq_refl eq_refl eq_refl Hinj)
    as (goal & savedPlans & Hg & Ht & _ & _ & Hd & _).
  exists goal, savedPlans. auto.
Defined.
